(** * wellness_aws: the blink-detection core and its rate monitor

    A shallow embedding of [app/eye_tracker.py], [app/notification_manager.py],
    [old/config.py], [old/video_capture.py] and the event handlers of
    [app/main_app.py], and the properties of the blink pipeline proved on
    it.

    - Python [float] is IEEE 754 binary64: module [F] instantiates the
      Standard Library's executable [SpecFloat] operations at precision 53.
    - Python [int] is [Z].
    - A method of a class is a computation in the monad [M S]: it reads and
      writes the object ([self]), appends to a trace of observable events,
      and either returns or raises.  A raise keeps every write made before
      it, as in Python. *)

From Stdlib Require Import String ZArith List Bool Lia Sorted.
From Stdlib Require Import Floats.SpecFloat DecimalString.
Import ListNotations.
Open Scope string_scope.
Open Scope list_scope.
Open Scope Z_scope.

(** ** IEEE 754 binary64 *)

Module F.

Definition prec : Z := 53.
Definition emax : Z := 1024.

Definition float : Type := spec_float.

Definition add : float -> float -> float := SFadd prec emax.
Definition mul : float -> float -> float := SFmul prec emax.
Definition div : float -> float -> float := SFdiv prec emax.
Definition sqrt : float -> float := SFsqrt prec emax.
Definition ltb : float -> float -> bool := SFltb.
Definition leb : float -> float -> bool := SFleb.

(** [float(n)] for an integer [n], rounded to nearest even. *)
Definition of_Z (n : Z) : float := binary_normalize prec emax n 0 false.

(** The literal [n / d] read as a decimal constant, e.g. [0.21] is
    [ratio 21 100]: the double nearest to the quotient. *)
Definition ratio (n d : Z) : float := div (of_Z n) (of_Z d).

Definition zero : float := S754_zero false.
Definition pinf : float := S754_infinity false.

Definition is_nan (x : float) : bool :=
  match x with S754_nan => true | _ => false end.

Definition is_inf (x : float) : bool :=
  match x with S754_infinity _ => true | _ => false end.

Definition is_zero (x : float) : bool :=
  match x with S754_zero _ => true | _ => false end.

End F.

Abbreviation float := F.float.

#[global] Arguments F.add : simpl never.
#[global] Arguments F.mul : simpl never.
#[global] Arguments F.div : simpl never.
#[global] Arguments F.sqrt : simpl never.
#[global] Arguments F.ltb : simpl never.
#[global] Arguments F.leb : simpl never.
#[global] Arguments F.of_Z : simpl never.
#[global] Arguments F.ratio : simpl never.

(** ** Exceptions, results and the method monad *)

(** The exceptions the modelled code can raise; all derive from Python's
    [Exception], which is what every [except] clause of the source
    catches. *)
Inductive exn : Type :=
| IndexError
| ZeroDivisionError
| ValueError (msg : string)
| OtherException (msg : string).

Inductive result (A : Type) : Type :=
| Ok (a : A)
| Raise (e : exn).
Arguments Ok {A} a.
Arguments Raise {A} e.

(** What a call into foreign code (an observer callback, the notification
    back end) does: it returns, or it raises. *)
Inductive outcome : Type :=
| Returns
| Raises (e : exn).

Section Monad.
Context {S E : Type}.

(** A method on an object of type [S] emitting events of type [E]. *)
Definition M (A : Type) : Type := S -> result A * S * list E.

Definition ret {A} (a : A) : M A := fun s => (Ok a, s, []).

Definition bind {A B} (m : M A) (k : A -> M B) : M B :=
  fun s =>
    match m s with
    | (Ok a, s1, t1) =>
        match k a s1 with
        | (r, s2, t2) => (r, s2, t1 ++ t2)
        end
    | (Raise e, s1, t1) => (Raise e, s1, t1)
    end.

Definition get : M S := fun s => (Ok s, s, []).
Definition modify (f : S -> S) : M unit := fun s => (Ok tt, f s, []).
Definition emit (e : E) : M unit := fun s => (Ok tt, s, [e]).
Definition raise {A} (e : exn) : M A := fun s => (Raise e, s, []).
Definition lift {A} (r : result A) : M A := fun s => (r, s, []).
Definition call (o : outcome) : M unit :=
  match o with
  | Returns => ret tt
  | Raises e => raise e
  end.

(** [try: m except Exception as e: h e] *)
Definition try_except (m : M unit) (h : exn -> M unit) : M unit :=
  fun s =>
    match m s with
    | (Ok a, s1, t1) => (Ok a, s1, t1)
    | (Raise e, s1, t1) =>
        match h e s1 with
        | (r, s2, t2) => (r, s2, t1 ++ t2)
        end
    end.

(** [for x in xs: body x] *)
Fixpoint for_each {A} (xs : list A) (body : A -> M unit) : M unit :=
  match xs with
  | [] => ret tt
  | x :: xs' => bind (body x) (fun _ => for_each xs' body)
  end.
End Monad.

Notation "x <- m ;; k" := (bind m (fun x => k))
  (at level 61, m at next level, right associativity).
Notation "m ;; k" := (bind m (fun _ => k))
  (at level 61, right associativity).

Definition state_of {S E A} (o : result A * S * list E) : S := snd (fst o).
Definition value_of {S E A} (o : result A * S * list E) : result A := fst (fst o).
Definition trace_of {S E A} (o : result A * S * list E) : list E := snd o.

(** Python's [seq[i]]: negative indices count from the end, anything out of
    range raises [IndexError]. *)
Definition py_getitem {A} (l : list A) (i : Z) : result A :=
  let n := Z.of_nat (length l) in
  let j := if i <? 0 then i + n else i in
  if (0 <=? j) && (j <? n)
  then match nth_error l (Z.to_nat j) with
       | Some x => Ok x
       | None => Raise IndexError
       end
  else Raise IndexError.

(** ** old/config.py *)

Module Config.

(** The dataclass [Configuration]; the UI, camera and backend fields, which
    nothing below reads, are left out. *)
Record Configuration : Type := {
  EAR_THRESHOLD : float;
  CONSECUTIVE_FRAMES : Z;
  MAX_FACES : Z;
  MIN_DETECTION_CONFIDENCE : float;
  MIN_TRACKING_CONFIDENCE : float;
  MAX_FRAME_SKIP : Z;
  MIN_BLINKS_PER_MINUTE : Z;
  NOTIFICATION_CHECK_INTERVAL : Z;
  LEFT_EYE_INDICES : list Z;
  RIGHT_EYE_INDICES : list Z
}.

(** The field defaults of the dataclass. *)
Definition defaults : Configuration := {|
  EAR_THRESHOLD := F.ratio 21 100;
  CONSECUTIVE_FRAMES := 2;
  MAX_FACES := 1;
  MIN_DETECTION_CONFIDENCE := F.ratio 5 10;
  MIN_TRACKING_CONFIDENCE := F.ratio 5 10;
  MAX_FRAME_SKIP := 0;
  MIN_BLINKS_PER_MINUTE := 15;
  NOTIFICATION_CHECK_INTERVAL := 60000;
  LEFT_EYE_INDICES := [33; 160; 158; 133; 153; 144];
  RIGHT_EYE_INDICES := [362; 385; 387; 263; 373; 380]
|}.

(** [0.0 <= x <= 1.0] *)
Definition between_0_and_1 (x : float) : bool :=
  F.leb (F.of_Z 0) x && F.leb x (F.of_Z 1).

Definition __post_init__ (self : Configuration) : result unit :=
  if negb (between_0_and_1 (EAR_THRESHOLD self)) then
    Raise (ValueError "EAR_THRESHOLD must be between 0.0 and 1.0")
  else if negb (between_0_and_1 (MIN_DETECTION_CONFIDENCE self)) then
    Raise (ValueError "MIN_DETECTION_CONFIDENCE must be between 0.0 and 1.0")
  else if negb (between_0_and_1 (MIN_TRACKING_CONFIDENCE self)) then
    Raise (ValueError "MIN_TRACKING_CONFIDENCE must be between 0.0 and 1.0")
  else Ok tt.

(** [Configuration(...)]: the dataclass stores the fields, then runs
    [__post_init__]. *)
Definition construct (fields : Configuration) : result Configuration :=
  match __post_init__ fields with
  | Ok _ => Ok fields
  | Raise e => Raise e
  end.

Definition with_CONSECUTIVE_FRAMES (n : Z) (c : Configuration) : Configuration :=
  {| EAR_THRESHOLD := EAR_THRESHOLD c;
     CONSECUTIVE_FRAMES := n;
     MAX_FACES := MAX_FACES c;
     MIN_DETECTION_CONFIDENCE := MIN_DETECTION_CONFIDENCE c;
     MIN_TRACKING_CONFIDENCE := MIN_TRACKING_CONFIDENCE c;
     MAX_FRAME_SKIP := MAX_FRAME_SKIP c;
     MIN_BLINKS_PER_MINUTE := MIN_BLINKS_PER_MINUTE c;
     NOTIFICATION_CHECK_INTERVAL := NOTIFICATION_CHECK_INTERVAL c;
     LEFT_EYE_INDICES := LEFT_EYE_INDICES c;
     RIGHT_EYE_INDICES := RIGHT_EYE_INDICES c |}.

Definition with_MAX_FRAME_SKIP (n : Z) (c : Configuration) : Configuration :=
  {| EAR_THRESHOLD := EAR_THRESHOLD c;
     CONSECUTIVE_FRAMES := CONSECUTIVE_FRAMES c;
     MAX_FACES := MAX_FACES c;
     MIN_DETECTION_CONFIDENCE := MIN_DETECTION_CONFIDENCE c;
     MIN_TRACKING_CONFIDENCE := MIN_TRACKING_CONFIDENCE c;
     MAX_FRAME_SKIP := n;
     MIN_BLINKS_PER_MINUTE := MIN_BLINKS_PER_MINUTE c;
     NOTIFICATION_CHECK_INTERVAL := NOTIFICATION_CHECK_INTERVAL c;
     LEFT_EYE_INDICES := LEFT_EYE_INDICES c;
     RIGHT_EYE_INDICES := RIGHT_EYE_INDICES c |}.

End Config.

(** ** app/eye_tracker.py *)

Module Tracker.
Import Config.

(** A landmark in pixel coordinates, [Tuple[int, int]]. *)
Definition point : Type := (Z * Z)%type.

Record EyeTrackingData : Type := {
  blink_count : Z;
  left_ear : float;
  right_ear : float;
  avg_ear : float;
  left_eye_landmarks : option (list point);
  right_eye_landmarks : option (list point)
}.

(** An object with the two methods of the [EyeTrackingObserver] protocol;
    [obs_id] tells the observers apart in the trace.  A callback works on
    its own object: it returns or raises, and does not reach back into the
    tracker that calls it. *)
Record EyeTrackingObserver : Type := {
  obs_id : nat;
  on_blink_detected : Z -> outcome;
  on_eye_data_updated : float -> float -> float -> outcome
}.

Record EyeTracker : Type := {
  config : Configuration;
  data : EyeTrackingData;
  frame_counter : Z;
  observers : list EyeTrackingObserver;
  _frame_skip_counter : Z;
  _last_valid_landmarks : option (list point * list point)
}.

(** What one call of [process_frame] does that is visible from outside the
    tracker. *)
Inductive event : Type :=
| ProviderCalled
    (* [self.face_mesh.process(rgb)] is reached *)
| PublishBlink (count : Z)
    (* [_notify_blink_detected] is entered with this [blink_count] *)
| CallBlinkDetected (obs : nat) (count : Z)
    (* [observer.on_blink_detected(count)] is called *)
| PublishEyeData (l r a : float)
    (* [_notify_eye_data_updated] is entered *)
| CallEyeDataUpdated (obs : nat) (l r a : float)
    (* [observer.on_eye_data_updated(l, r, a)] is called *)
| LogWarning (e : exn)
| LogError (e : exn).

(** What the Landmark Provider answers for one frame.  [Detected face] is a
    non-empty [results.multi_face_landmarks] whose first face has the
    landmark table [face], already scaled to pixels
    ([int(landmark.x * w), int(landmark.y * h)]); [ProviderFailure e] is
    [face_mesh.process] raising [e].  The frame itself is an image the
    caller has checked, on which [cv2.cvtColor] and the drawing calls
    return. *)
Inductive detection : Type :=
| Detected (face : list point)
| NoDetection
| ProviderFailure (e : exn).

Definition T : Type -> Type := @M EyeTracker event.

(** *** Field updates *)

Definition set_blink_count (n : Z) (d : EyeTrackingData) : EyeTrackingData :=
  {| blink_count := n; left_ear := left_ear d; right_ear := right_ear d;
     avg_ear := avg_ear d; left_eye_landmarks := left_eye_landmarks d;
     right_eye_landmarks := right_eye_landmarks d |}.

Definition set_left_ear (x : float) (d : EyeTrackingData) : EyeTrackingData :=
  {| blink_count := blink_count d; left_ear := x; right_ear := right_ear d;
     avg_ear := avg_ear d; left_eye_landmarks := left_eye_landmarks d;
     right_eye_landmarks := right_eye_landmarks d |}.

Definition set_right_ear (x : float) (d : EyeTrackingData) : EyeTrackingData :=
  {| blink_count := blink_count d; left_ear := left_ear d; right_ear := x;
     avg_ear := avg_ear d; left_eye_landmarks := left_eye_landmarks d;
     right_eye_landmarks := right_eye_landmarks d |}.

Definition set_avg_ear (x : float) (d : EyeTrackingData) : EyeTrackingData :=
  {| blink_count := blink_count d; left_ear := left_ear d;
     right_ear := right_ear d; avg_ear := x;
     left_eye_landmarks := left_eye_landmarks d;
     right_eye_landmarks := right_eye_landmarks d |}.

Definition set_left_eye_landmarks (l : list point) (d : EyeTrackingData)
  : EyeTrackingData :=
  {| blink_count := blink_count d; left_ear := left_ear d;
     right_ear := right_ear d; avg_ear := avg_ear d;
     left_eye_landmarks := Some l;
     right_eye_landmarks := right_eye_landmarks d |}.

Definition set_right_eye_landmarks (l : list point) (d : EyeTrackingData)
  : EyeTrackingData :=
  {| blink_count := blink_count d; left_ear := left_ear d;
     right_ear := right_ear d; avg_ear := avg_ear d;
     left_eye_landmarks := left_eye_landmarks d;
     right_eye_landmarks := Some l |}.

Definition on_data (f : EyeTrackingData -> EyeTrackingData) (s : EyeTracker)
  : EyeTracker :=
  {| config := config s; data := f (data s); frame_counter := frame_counter s;
     observers := observers s; _frame_skip_counter := _frame_skip_counter s;
     _last_valid_landmarks := _last_valid_landmarks s |}.

Definition set_frame_counter (n : Z) (s : EyeTracker) : EyeTracker :=
  {| config := config s; data := data s; frame_counter := n;
     observers := observers s; _frame_skip_counter := _frame_skip_counter s;
     _last_valid_landmarks := _last_valid_landmarks s |}.

Definition set_frame_skip_counter (n : Z) (s : EyeTracker) : EyeTracker :=
  {| config := config s; data := data s; frame_counter := frame_counter s;
     observers := observers s; _frame_skip_counter := n;
     _last_valid_landmarks := _last_valid_landmarks s |}.

Definition set_last_valid_landmarks (c : list point * list point)
  (s : EyeTracker) : EyeTracker :=
  {| config := config s; data := data s; frame_counter := frame_counter s;
     observers := observers s; _frame_skip_counter := _frame_skip_counter s;
     _last_valid_landmarks := Some c |}.

Definition set_observers (os : list EyeTrackingObserver) (s : EyeTracker)
  : EyeTracker :=
  {| config := config s; data := data s; frame_counter := frame_counter s;
     observers := os; _frame_skip_counter := _frame_skip_counter s;
     _last_valid_landmarks := _last_valid_landmarks s |}.

(** *** Construction and the observer registry *)

Definition EyeTrackingData_init : EyeTrackingData := {|
  blink_count := 0;
  left_ear := F.of_Z 0;
  right_ear := F.of_Z 0;
  avg_ear := F.of_Z 0;
  left_eye_landmarks := None;
  right_eye_landmarks := None
|}.

(** [EyeTracker(config)], when MediaPipe initialises. *)
Definition __init__ (config : Configuration) : EyeTracker := {|
  config := config;
  data := EyeTrackingData_init;
  frame_counter := 0;
  observers := [];
  _frame_skip_counter := 0;
  _last_valid_landmarks := None
|}.

Definition is_observer (o : EyeTrackingObserver) (o' : EyeTrackingObserver)
  : bool := Nat.eqb (obs_id o') (obs_id o).

(** [self.observers] is a set: adding a member again changes nothing.  The
    list fixes one iteration order, where the [WeakSet] iterates in an
    order of its own; no statement below depends on the order.  The
    observers are those that are alive: the [WeakSet] drops an observer
    that was garbage-collected, which [remove_observer] models. *)
Definition add_observer (o : EyeTrackingObserver) (s : EyeTracker)
  : EyeTracker :=
  if existsb (is_observer o) (observers s) then s
  else set_observers (observers s ++ [o]) s.

Definition remove_observer (o : EyeTrackingObserver) (s : EyeTracker)
  : EyeTracker :=
  set_observers (filter (fun o' => negb (is_observer o o')) (observers s)) s.

(** *** The Observer Hub *)

Definition _notify_blink_detected : T unit :=
  self <- get ;;
  emit (PublishBlink (blink_count (data self))) ;;
  let observers_copy := observers self in
  for_each observers_copy (fun observer =>
    try_except
      (self <- get ;;
       emit (CallBlinkDetected (obs_id observer) (blink_count (data self))) ;;
       call (on_blink_detected observer (blink_count (data self))))
      (fun e => emit (LogWarning e))).

Definition _notify_eye_data_updated : T unit :=
  self <- get ;;
  emit (PublishEyeData (left_ear (data self)) (right_ear (data self))
          (avg_ear (data self))) ;;
  let observers_copy := observers self in
  for_each observers_copy (fun observer =>
    try_except
      (self <- get ;;
       let d := data self in
       emit (CallEyeDataUpdated (obs_id observer)
               (left_ear d) (right_ear d) (avg_ear d)) ;;
       call (on_eye_data_updated observer (left_ear d) (right_ear d) (avg_ear d)))
      (fun e => emit (LogWarning e))).

(** *** The EAR Calculator *)

(** [np.linalg.norm(np.array(pt1) - np.array(pt2))]: the difference is taken
    on integers, the norm converts it to float64 and returns the square
    root of the dot product.  The model is the code on pixel coordinates:
    for coordinates of magnitude below 2^25 the differences do not wrap in
    numpy's integer arrays, and the squares and their sum are integers
    float64 holds exactly, so that the result does not depend on how numpy
    accumulates the dot product ([_euclidean_dist_exact]).  On larger
    integers numpy may wrap the difference and may round the dot product
    once where the model rounds each square; where a statement depends on
    the value of a distance it is made for pixel coordinates. *)
Definition _euclidean_dist (pt1 pt2 : point) : float :=
  let dx := F.of_Z (fst pt1 - fst pt2) in
  let dy := F.of_Z (snd pt1 - snd pt2) in
  F.sqrt (F.add (F.mul dx dx) (F.mul dy dy)).

Definition _calculate_ear (eye_landmarks : list point) : T float :=
  p1 <- lift (py_getitem eye_landmarks 1) ;;
  p5 <- lift (py_getitem eye_landmarks 5) ;;
  let A := _euclidean_dist p1 p5 in
  p2 <- lift (py_getitem eye_landmarks 2) ;;
  p4 <- lift (py_getitem eye_landmarks 4) ;;
  let B := _euclidean_dist p2 p4 in
  p0 <- lift (py_getitem eye_landmarks 0) ;;
  p3 <- lift (py_getitem eye_landmarks 3) ;;
  let C := _euclidean_dist p0 p3 in
  (* numpy float64 scalars: a zero divisor gives inf or nan, not an
     exception *)
  ret (F.div (F.add A B) (F.mul (F.of_Z 2) C)).

(** *** The Blink Detector *)

Definition _update_blink_detection : T unit :=
  self <- get ;;
  if F.ltb (avg_ear (data self)) (EAR_THRESHOLD (config self)) then
    modify (fun s => set_frame_counter (frame_counter s + 1) s)
  else
    (if CONSECUTIVE_FRAMES (config self) <=? frame_counter self then
       modify (on_data (fun d => set_blink_count (blink_count d + 1) d)) ;;
       _notify_blink_detected
     else ret tt) ;;
    modify (set_frame_counter 0).

(** *** One tick *)

(** [[face[i] for i in indices]] *)
Fixpoint extract (face : list point) (indices : list Z)
  : result (list point) :=
  match indices with
  | [] => Ok []
  | i :: rest =>
      match py_getitem face i with
      | Ok p =>
          match extract face rest with
          | Ok ps => Ok (p :: ps)
          | Raise e => Raise e
          end
      | Raise e => Raise e
      end
  end.

(** [cv2.cvtColor] followed by [self.face_mesh.process(rgb)] and the test
    of [results.multi_face_landmarks]. *)
Definition face_mesh_process (frame : detection) : T (option (list point)) :=
  emit ProviderCalled ;;
  match frame with
  | Detected face => ret (Some face)
  | NoDetection => ret None
  | ProviderFailure e => raise e
  end.

(** [_draw_overlays] paints the landmarks and the count on the frame: it
    reads the snapshot and writes nothing of the tracker. *)
Definition _draw_overlays : T unit := ret tt.

Definition process_frame (frame : detection) : T EyeTrackingData :=
  try_except
    (modify (fun s => set_frame_skip_counter (_frame_skip_counter s + 1) s) ;;
     self <- get ;;
     let should_process :=
       MAX_FRAME_SKIP (config self) <=? _frame_skip_counter self in
     (if should_process then
        modify (set_frame_skip_counter 0) ;;
        results <- face_mesh_process frame ;;
        match results with
        | Some face_landmarks =>
            left_eye <- lift (extract face_landmarks
                                (LEFT_EYE_INDICES (config self))) ;;
            right_eye <- lift (extract face_landmarks
                                 (RIGHT_EYE_INDICES (config self))) ;;
            modify (set_last_valid_landmarks (left_eye, right_eye)) ;;
            modify (on_data (set_left_eye_landmarks left_eye)) ;;
            modify (on_data (set_right_eye_landmarks right_eye)) ;;
            l <- _calculate_ear left_eye ;;
            modify (on_data (set_left_ear l)) ;;
            r <- _calculate_ear right_eye ;;
            modify (on_data (set_right_ear r)) ;;
            modify (on_data (fun d =>
              set_avg_ear
                (F.div (F.add (left_ear d) (right_ear d)) (F.of_Z 2)) d)) ;;
            _update_blink_detection
        | None =>
            self <- get ;;
            match _last_valid_landmarks self with
            | Some (left_eye, right_eye) =>
                modify (on_data (set_left_eye_landmarks left_eye)) ;;
                modify (on_data (set_right_eye_landmarks right_eye))
            | None => ret tt
            end
        end
      else ret tt) ;;
     _draw_overlays ;;
     _notify_eye_data_updated)
    (fun e => emit (LogError e)) ;;
  self <- get ;;
  ret (data self).

(** The tick loop: [process_frame] once per incoming frame. *)
Definition run (frames : list detection) : T unit :=
  for_each frames (fun frame => process_frame frame ;; ret tt).

(** One fresh sample reaching the Blink Detector: lines 118 and 121 of
    [process_frame], [self.data.avg_ear = ...] then
    [self._update_blink_detection()]. *)
Definition feed (sample : float) : T unit :=
  modify (on_data (set_avg_ear sample)) ;;
  _update_blink_detection.

Definition feed_all (samples : list float) : T unit :=
  for_each samples feed.

End Tracker.

(** ** app/notification_manager.py *)

Module Notifier.
Import Config.

(** Instants ([datetime]) and durations ([timedelta]) are integers counting
    microseconds, the resolution of both types. *)
Definition minutes (n : Z) : Z := n * 60 * 1000000.

Record NotificationManager : Type := {
  config : Configuration;
  last_blink_count : Z;
  last_check_time : Z;
  notification_cooldown : Z;
  last_notification_time : option Z
}.

(** What surrounds one call of [check_blink_rate_and_notify]: the readings
    the two [datetime.now()] calls return (line 19, and line 39 when it is
    reached), and what [notification.notify] does if it is called. *)
Record world : Type := {
  now_check : Z;
  now_send : Z;
  sink : outcome
}.

Inductive event : Type :=
| LogRateCheck (blinks_per_minute : float)
| NotifyCalled (at_time : Z) (rate : float)
    (* [notification.notify(...)] is called *)
| NotificationSent (at_time : Z) (rate : float)
    (* it returned: the alert is out and the cooldown restarts *)
| LogError (e : exn).

Definition N : Type -> Type := @M NotificationManager event.

Definition set_last_notification_time (t : option Z) (s : NotificationManager)
  : NotificationManager :=
  {| config := config s; last_blink_count := last_blink_count s;
     last_check_time := last_check_time s;
     notification_cooldown := notification_cooldown s;
     last_notification_time := t |}.

Definition set_last_check (count time : Z) (s : NotificationManager)
  : NotificationManager :=
  {| config := config s; last_blink_count := count;
     last_check_time := time;
     notification_cooldown := notification_cooldown s;
     last_notification_time := last_notification_time s |}.

(** [NotificationManager(config)], constructed at the instant [now]. *)
Definition __init__ (config : Configuration) (now : Z) : NotificationManager := {|
  config := config;
  last_blink_count := 0;
  last_check_time := now;
  notification_cooldown := minutes 5;
  last_notification_time := None
|}.

(** [timedelta.total_seconds()]: the microseconds divided by [10**6],
    rounded once (durations below [2**53] microseconds, 285 years, convert
    exactly before the division). *)
Definition total_seconds (us : Z) : float :=
  F.div (F.of_Z us) (F.of_Z 1000000).

(** Python's [x / y] on floats. *)
Definition py_float_div (x y : float) : result float :=
  if F.is_zero y then Raise ZeroDivisionError else Ok (F.div x y).

(** The test of lines 40-41: an alert went out before, and less than the
    cooldown ago. *)
Definition in_cooldown (self : NotificationManager) (current_time : Z) : bool :=
  match last_notification_time self with
  | Some t => current_time - t <? notification_cooldown self
  | None => false
  end.

Definition _send_low_blink_notification (w : world) (current_rate : float)
  : N unit :=
  self <- get ;;
  let current_time := now_send w in
  if in_cooldown self current_time then ret tt
  else
    try_except
      (emit (NotifyCalled current_time current_rate) ;;
       call (sink w) ;;
       modify (set_last_notification_time (Some current_time)) ;;
       emit (NotificationSent current_time current_rate))
      (fun e => emit (LogError e)).

(** [F.of_Z] and [F.ratio] stand for Python's conversions of an [int] to a
    [float] (in [int / float], [int / int] and [float < int]): they are
    exact up to a magnitude of 2^53, the range of the counts, knobs and
    durations of a session.  Beyond it Python rounds differently in
    places, and from 2^1024 on it raises [OverflowError], a path this model
    does not have; a statement that lists what a call can raise is made
    for numbers in the exact range. *)
Definition check_blink_rate_and_notify (w : world) (current_blink_count : Z)
  : N unit :=
  self <- get ;;
  let current_time := now_check w in
  let time_elapsed := total_seconds (current_time - last_check_time self) in
  if F.leb (F.ratio (NOTIFICATION_CHECK_INTERVAL (config self)) 1000) time_elapsed
  then
    let blinks_in_interval := current_blink_count - last_blink_count self in
    q <- lift (py_float_div (F.of_Z blinks_in_interval) time_elapsed) ;;
    let blinks_per_minute := F.mul q (F.of_Z 60) in
    emit (LogRateCheck blinks_per_minute) ;;
    (if F.ltb blinks_per_minute (F.of_Z (MIN_BLINKS_PER_MINUTE (config self)))
     then _send_low_blink_notification w blinks_per_minute
     else ret tt) ;;
    modify (set_last_check current_blink_count current_time)
  else ret tt.

Definition reset_tracking (now : Z) : N unit :=
  modify (fun s =>
    set_last_notification_time None (set_last_check 0 now s)).

(** A session of the monitor: the calls [on_blink_detected] makes, in
    order, each in its own surroundings.  A call that raises (a zero
    [time_elapsed]) is the caller's to log; the monitor lives on. *)
Definition check_all (calls : list (world * Z)) : N unit :=
  for_each calls (fun c =>
    try_except (check_blink_rate_and_notify (fst c) (snd c))
               (fun _ => ret tt)).

(** The instants at which an alert went out, oldest first. *)
Fixpoint alerts (t : list event) : list Z :=
  match t with
  | [] => []
  | NotificationSent at_time _ :: t' => at_time :: alerts t'
  | _ :: t' => alerts t'
  end.

(** The instants at which the alert sink was called. *)
Fixpoint sink_calls (t : list event) : list Z :=
  match t with
  | [] => []
  | NotifyCalled at_time _ :: t' => at_time :: sink_calls t'
  | _ :: t' => sink_calls t'
  end.

End Notifier.

(** * Properties *)

(** ** Loops in the method monad *)

Section MonadFacts.
Context {S E : Type}.

Lemma for_each_app {A} (xs ys : list A) (body : A -> @M S E unit) (s : S) :
  for_each (xs ++ ys) body s =
  (for_each xs body ;; for_each ys body) s.
Proof.
  revert s; induction xs as [|x xs IH]; intros s; simpl.
  - unfold bind, ret. destruct (for_each ys body s) as [[r s'] t]. reflexivity.
  - unfold bind. destruct (body x s) as [[[u|e] s1] t1]; [|reflexivity].
    rewrite IH. unfold bind.
    destruct (for_each xs body s1) as [[[u'|e'] s2] t2]; [|reflexivity].
    destruct (for_each ys body s2) as [[r s3] t3].
    rewrite app_assoc. reflexivity.
Qed.

(** A loop whose body always returns, leaves the object as it is and
    emits [out x] runs to its end and emits the outputs in order. *)
Lemma for_each_pure {A} (xs : list A) (body : A -> @M S E unit)
      (out : A -> list E) (s : S) :
  (forall x, In x xs -> body x s = (Ok tt, s, out x)) ->
  for_each xs body s = (Ok tt, s, flat_map out xs).
Proof.
  induction xs as [|x xs IH]; intros H; simpl; [reflexivity|].
  unfold bind. rewrite (H x) by (left; reflexivity).
  rewrite IH by (intros y Hy; apply H; right; exact Hy).
  reflexivity.
Qed.
End MonadFacts.

(** ** The Observer Hub *)

Section ObserverHub.
Import Config Tracker.

(** What the trace shows of one observer receiving a blink event: the
    call, and the warning logged when the call raised. *)
Definition blink_delivery (count : Z) (o : EyeTrackingObserver) : list event :=
  CallBlinkDetected (obs_id o) count ::
  match on_blink_detected o count with
  | Returns => []
  | Raises e => [LogWarning e]
  end.

Definition eye_data_delivery (l r a : float) (o : EyeTrackingObserver)
  : list event :=
  CallEyeDataUpdated (obs_id o) l r a ::
  match on_eye_data_updated o l r a with
  | Returns => []
  | Raises e => [LogWarning e]
  end.

(** The observers [on_blink_detected] was called on, in order. *)
Fixpoint blink_receivers (t : list event) : list nat :=
  match t with
  | [] => []
  | CallBlinkDetected o _ :: t' => o :: blink_receivers t'
  | _ :: t' => blink_receivers t'
  end.

Fixpoint eye_data_receivers (t : list event) : list nat :=
  match t with
  | [] => []
  | CallEyeDataUpdated o _ _ _ :: t' => o :: eye_data_receivers t'
  | _ :: t' => eye_data_receivers t'
  end.

(** The exceptions logged as warnings, in order. *)
Fixpoint warnings (t : list event) : list exn :=
  match t with
  | [] => []
  | LogWarning e :: t' => e :: warnings t'
  | _ :: t' => warnings t'
  end.

(** The exceptions a list of callback outcomes raised, in order. *)
Fixpoint raised (os : list outcome) : list exn :=
  match os with
  | [] => []
  | Raises e :: os' => e :: raised os'
  | Returns :: os' => raised os'
  end.

Lemma _notify_blink_detected_trace (st : EyeTracker) :
  _notify_blink_detected st =
  (Ok tt, st,
   PublishBlink (blink_count (data st)) ::
   flat_map (blink_delivery (blink_count (data st))) (observers st)).
Proof.
  unfold _notify_blink_detected, bind at 1 2, get, emit.
  rewrite (for_each_pure _ _ (blink_delivery (blink_count (data st)))).
  - reflexivity.
  - intros o _. unfold try_except, bind, get, emit, call, blink_delivery.
    destruct (on_blink_detected o (blink_count (data st))); reflexivity.
Qed.

Lemma _notify_eye_data_updated_trace (st : EyeTracker) :
  _notify_eye_data_updated st =
  (Ok tt, st,
   PublishEyeData (left_ear (data st)) (right_ear (data st)) (avg_ear (data st)) ::
   flat_map (eye_data_delivery (left_ear (data st)) (right_ear (data st))
               (avg_ear (data st))) (observers st)).
Proof.
  unfold _notify_eye_data_updated, bind at 1 2, get, emit.
  rewrite (for_each_pure _ _
             (eye_data_delivery (left_ear (data st)) (right_ear (data st))
                (avg_ear (data st)))).
  - reflexivity.
  - intros o _. unfold try_except, bind, get, emit, call, eye_data_delivery.
    destruct (on_eye_data_updated o _ _ _); reflexivity.
Qed.

Lemma blink_receivers_deliveries (c : Z) (os : list EyeTrackingObserver) :
  blink_receivers (flat_map (blink_delivery c) os) = map obs_id os.
Proof.
  induction os as [|o os IH]; simpl; [reflexivity|].
  destruct (on_blink_detected o c); simpl; rewrite IH; reflexivity.
Qed.

Lemma warnings_blink_deliveries (c : Z) (os : list EyeTrackingObserver) :
  warnings (flat_map (blink_delivery c) os) =
  raised (map (fun o => on_blink_detected o c) os).
Proof.
  induction os as [|o os IH]; simpl; [reflexivity|].
  destruct (on_blink_detected o c); simpl; rewrite IH; reflexivity.
Qed.

Lemma eye_data_receivers_deliveries (l r a : float)
      (os : list EyeTrackingObserver) :
  eye_data_receivers (flat_map (eye_data_delivery l r a) os) = map obs_id os.
Proof.
  induction os as [|o os IH]; simpl; [reflexivity|].
  destruct (on_eye_data_updated o l r a); simpl; rewrite IH; reflexivity.
Qed.

Lemma warnings_eye_data_deliveries (l r a : float)
      (os : list EyeTrackingObserver) :
  warnings (flat_map (eye_data_delivery l r a) os) =
  raised (map (fun o => on_eye_data_updated o l r a) os).
Proof.
  induction os as [|o os IH]; simpl; [reflexivity|].
  destruct (on_eye_data_updated o l r a); simpl; rewrite IH; reflexivity.
Qed.

(** C9.  Publishing a blink event or an eye-data event returns normally
    whatever the callbacks do: every subscriber of the snapshot is called,
    in order, also those that come after one that raised; each exception a
    callback raised is logged as a warning and none reaches the publisher;
    the tracker is left as it was. *)
Theorem observer_failure_is_isolated (st : EyeTracker) :
  (let o := _notify_blink_detected st in
   value_of o = Ok tt /\
   state_of o = st /\
   blink_receivers (trace_of o) = map obs_id (observers st) /\
   warnings (trace_of o) =
     raised (map (fun ob => on_blink_detected ob (blink_count (data st)))
               (observers st))) /\
  (let o := _notify_eye_data_updated st in
   value_of o = Ok tt /\
   state_of o = st /\
   eye_data_receivers (trace_of o) = map obs_id (observers st) /\
   warnings (trace_of o) =
     raised (map (fun ob => on_eye_data_updated ob (left_ear (data st))
                              (right_ear (data st)) (avg_ear (data st)))
               (observers st))).
Proof.
  split; cbv zeta.
  - rewrite _notify_blink_detected_trace.
    unfold value_of, state_of, trace_of; simpl.
    rewrite blink_receivers_deliveries, warnings_blink_deliveries.
    repeat split.
  - rewrite _notify_eye_data_updated_trace.
    unfold value_of, state_of, trace_of; simpl.
    rewrite eye_data_receivers_deliveries, warnings_eye_data_deliveries.
    repeat split.
Qed.
End ObserverHub.

(** ** The Blink Detector *)

(** *** The comparison with the threshold *)

Section Comparison.

Lemma SFcompare_antisym (x y : float) :
  SFcompare y x = option_map CompOpp (SFcompare x y).
Proof.
  destruct x as [sx|sx| |sx mx ex], y as [sy|sy| |sy my ey];
    try destruct sx; try destruct sy; cbn; try reflexivity.
  - rewrite (Z.compare_antisym ey ex).
    destruct (ey ?= ex); cbn; try reflexivity.
    f_equal. rewrite CompOpp_involutive.
    exact (Pos.compare_cont_antisym my mx Eq).
  - rewrite (Z.compare_antisym ey ex).
    destruct (ey ?= ex); cbn; try reflexivity.
    f_equal. symmetry. exact (Pos.compare_cont_antisym mx my Eq).
Qed.

(** A sample that is a number is rejected by [sample < threshold] exactly
    when it is at or above the threshold. *)
Lemma not_below_is_at_or_above (s thr : float) :
  F.is_nan s = false -> F.is_nan thr = false ->
  negb (F.ltb s thr) = F.leb thr s.
Proof.
  intros Hs Ht. unfold F.ltb, F.leb, SFltb, SFleb.
  rewrite (SFcompare_antisym s thr).
  destruct (SFcompare s thr) as [[]|] eqn:Hc; cbn; try reflexivity.
  destruct s, thr; discriminate.
Qed.

(** A NaN sample is rejected by it too, without being at or above
    anything. *)
Lemma nan_is_not_below (thr : float) :
  F.ltb S754_nan thr = false /\ F.leb thr S754_nan = false.
Proof. destruct thr; split; reflexivity. Qed.

End Comparison.

(** *** Runs of closed-eye samples, as the specification words them *)

Section Runs.
Variable thr : float.

Definition below (s : float) : bool := F.ltb s thr.

Definition starts_below (samples : list float) : bool :=
  match samples with
  | s :: _ => below s
  | [] => false
  end.

(** The maximal runs of consecutive samples strictly below the threshold,
    first to last, each with its length and whether a sample follows it.
    By maximality the sample that follows a run is one the comparison
    [sample < threshold] rejects: a sample at or above the threshold
    ([not_below_is_at_or_above]), or a NaN, which the [else] branch of the
    detector takes with them.  A run that reaches the end of the stream is
    still open: nothing follows it. *)
Fixpoint maximal_runs (samples : list float) : list (Z * bool) :=
  match samples with
  | [] => []
  | s :: rest =>
      if below s then
        if starts_below rest then
          match maximal_runs rest with
          | (n, followed) :: runs => (n + 1, followed) :: runs
          | [] => []
          end
        else
          (1, match rest with [] => false | _ :: _ => true end)
          :: maximal_runs rest
      else maximal_runs rest
  end.

Definition qualifies (cf : Z) (run : Z * bool) : bool :=
  snd run && (cf <=? fst run).

(** The number of maximal runs of length at least [cf] that are followed
    by a sample. *)
Definition qualifying_runs (cf : Z) (samples : list float) : nat :=
  length (filter (qualifies cf) (maximal_runs samples)).

(** A first run that continues [k] closed-eye samples seen before. *)
Definition lengthen (k : Z) (runs : list (Z * bool)) : list (Z * bool) :=
  match runs with
  | (n, followed) :: runs' => (n + k, followed) :: runs'
  | [] => []
  end.

(** The qualifying runs of a stream that comes after [k] closed-eye
    samples. *)
Definition qualifying_runs_after (cf k : Z) (samples : list float) : nat :=
  match samples with
  | [] => 0%nat
  | s :: _ =>
      if below s
      then length (filter (qualifies cf) (lengthen k (maximal_runs samples)))
      else ((if (cf <=? k)%Z then 1 else 0)
            + length (filter (qualifies cf) (maximal_runs samples)))%nat
  end.

Lemma maximal_runs_starts_below (samples : list float) :
  starts_below samples = true -> maximal_runs samples <> [].
Proof.
  induction samples as [|s rest IH]; simpl; [discriminate|].
  intros Hs. rewrite Hs.
  destruct (starts_below rest) eqn:Hr.
  - specialize (IH eq_refl).
    destruct (maximal_runs rest) as [|[n f] runs]; [contradiction|discriminate].
  - discriminate.
Qed.

Lemma lengthen_0 (runs : list (Z * bool)) : lengthen 0 runs = runs.
Proof. destruct runs as [|[n f] runs]; simpl; [|rewrite Z.add_0_r]; reflexivity. Qed.

Lemma qualifying_runs_after_0 (cf : Z) (samples : list float) :
  1 <= cf ->
  qualifying_runs_after cf 0 samples = qualifying_runs cf samples.
Proof.
  intros Hcf. unfold qualifying_runs_after, qualifying_runs.
  destruct samples as [|s rest]; [reflexivity|].
  destruct (below s).
  - rewrite lengthen_0. reflexivity.
  - destruct (Z.leb_spec cf 0); [lia|reflexivity].
Qed.

(** Unfolding [qualifying_runs_after] along the first sample, the way the
    detector consumes it. *)
Lemma qualifying_runs_after_cons (cf k : Z) (s : float) (rest : list float) :
  1 <= cf ->
  qualifying_runs_after cf k (s :: rest) =
  if below s then qualifying_runs_after cf (k + 1) rest
  else ((if (cf <=? k)%Z then 1 else 0) + qualifying_runs_after cf 0 rest)%nat.
Proof.
  intros Hcf. unfold qualifying_runs_after at 1.
  destruct (below s) eqn:Hs.
  - cbn [maximal_runs]. rewrite Hs.
    destruct rest as [|s' rest'].
    + reflexivity.
    + cbn [starts_below]. unfold qualifying_runs_after.
      destruct (below s') eqn:Hs'.
      * assert (Hne : maximal_runs (s' :: rest') <> [])
          by (apply maximal_runs_starts_below; exact Hs').
        destruct (maximal_runs (s' :: rest')) as [|[n f] runs];
          [contradiction|].
        cbn [lengthen]. replace (n + 1 + k) with (n + (k + 1)) by lia.
        reflexivity.
      * cbn [lengthen filter qualifies fst snd andb].
        replace (1 + k) with (k + 1) by lia.
        destruct (cf <=? k + 1); reflexivity.
  - cbn [maximal_runs]. rewrite Hs.
    rewrite qualifying_runs_after_0 by exact Hcf.
    reflexivity.
Qed.
End Runs.

(** *** The detector, one sample at a time *)

Section BlinkDetector.
Import Config Tracker.

(** The blink events published, counted by the entries of
    [_notify_blink_detected]. *)
Fixpoint blink_events (t : list event) : nat :=
  match t with
  | [] => 0
  | PublishBlink _ :: t' => S (blink_events t')
  | _ :: t' => blink_events t'
  end.

(** The counts published, in order. *)
Fixpoint published_counts (t : list event) : list Z :=
  match t with
  | [] => []
  | PublishBlink c :: t' => c :: published_counts t'
  | _ :: t' => published_counts t'
  end.

Lemma blink_events_app (t1 t2 : list event) :
  blink_events (t1 ++ t2) = (blink_events t1 + blink_events t2)%nat.
Proof.
  induction t1 as [|e t1 IH]; simpl; [reflexivity|].
  destruct e; simpl; rewrite IH; reflexivity.
Qed.

Lemma blink_events_deliveries (c : Z) (os : list EyeTrackingObserver) :
  blink_events (flat_map (blink_delivery c) os) = 0%nat.
Proof.
  induction os as [|o os IH]; simpl; [reflexivity|].
  destruct (on_blink_detected o c); simpl; exact IH.
Qed.

Lemma published_counts_app (t1 t2 : list event) :
  published_counts (t1 ++ t2) = published_counts t1 ++ published_counts t2.
Proof.
  induction t1 as [|e t1 IH]; simpl; [reflexivity|].
  destruct e; simpl; rewrite IH; reflexivity.
Qed.

Lemma published_counts_deliveries (c : Z) (os : list EyeTrackingObserver) :
  published_counts (flat_map (blink_delivery c) os) = [].
Proof.
  induction os as [|o os IH]; simpl; [reflexivity|].
  destruct (on_blink_detected o c); simpl; exact IH.
Qed.

(** The tracker after a blink is counted. *)
Definition count_blink (st : EyeTracker) : EyeTracker :=
  on_data (fun d => set_blink_count (blink_count d + 1) d) st.

(** The three ways through [_update_blink_detection]. *)
Lemma _update_blink_detection_cases (st : EyeTracker) :
  _update_blink_detection st =
  if F.ltb (avg_ear (data st)) (EAR_THRESHOLD (config st)) then
    (Ok tt, set_frame_counter (frame_counter st + 1) st, [])
  else if CONSECUTIVE_FRAMES (config st) <=? frame_counter st then
    (Ok tt, set_frame_counter 0 (count_blink st),
     PublishBlink (blink_count (data st) + 1) ::
     flat_map (blink_delivery (blink_count (data st) + 1)) (observers st))
  else
    (Ok tt, set_frame_counter 0 st, []).
Proof.
  unfold _update_blink_detection, bind at 1, get.
  destruct (F.ltb (avg_ear (data st)) (EAR_THRESHOLD (config st))).
  - reflexivity.
  - destruct (CONSECUTIVE_FRAMES (config st) <=? frame_counter st).
    + unfold bind, modify. fold (count_blink st).
      rewrite _notify_blink_detected_trace. simpl.
      rewrite app_nil_r. reflexivity.
    + reflexivity.
Qed.

Lemma feed_cases (s : float) (st : EyeTracker) :
  feed s st =
  let st1 := on_data (set_avg_ear s) st in
  if F.ltb s (EAR_THRESHOLD (config st)) then
    (Ok tt, set_frame_counter (frame_counter st + 1) st1, [])
  else if CONSECUTIVE_FRAMES (config st) <=? frame_counter st then
    (Ok tt, set_frame_counter 0 (count_blink st1),
     PublishBlink (blink_count (data st) + 1) ::
     flat_map (blink_delivery (blink_count (data st) + 1)) (observers st))
  else
    (Ok tt, set_frame_counter 0 st1, []).
Proof.
  unfold feed, bind, modify.
  rewrite _update_blink_detection_cases. cbn [on_data set_avg_ear data avg_ear
    config frame_counter observers blink_count].
  destruct (F.ltb s (EAR_THRESHOLD (config st))); [reflexivity|].
  destruct (CONSECUTIVE_FRAMES (config st) <=? frame_counter st); reflexivity.
Qed.

(** What [feed] keeps and what it moves. *)
Lemma feed_config (s : float) (st : EyeTracker) :
  config (state_of (feed s st)) = config st.
Proof.
  rewrite feed_cases; cbv zeta.
  destruct (F.ltb _ _); [reflexivity|].
  destruct (_ <=? _); reflexivity.
Qed.

Lemma feed_returns (s : float) (st : EyeTracker) :
  value_of (feed s st) = Ok tt.
Proof.
  rewrite feed_cases; cbv zeta.
  destruct (F.ltb _ _); [reflexivity|].
  destruct (_ <=? _); reflexivity.
Qed.

Lemma feed_all_cons (s : float) (rest : list float) (st : EyeTracker) :
  feed_all (s :: rest) st =
  (let o := feed_all rest (state_of (feed s st)) in
   (value_of o, state_of o, trace_of (feed s st) ++ trace_of o)).
Proof.
  unfold feed_all; simpl. unfold bind at 1.
  pose proof (feed_returns s st) as Hv.
  destruct (feed s st) as [[r s1] t1]. unfold value_of in Hv; simpl in Hv.
  subst r. unfold state_of, trace_of, value_of; simpl.
  destruct (for_each rest feed s1) as [[r2 s2] t2]. reflexivity.
Qed.

(** From any state of the detector: the events published over a stream,
    and the growth of [blink_count], are the qualifying runs of the stream
    taken after the [frame_counter] closed-eye samples already seen. *)
Lemma feed_all_counts (samples : list float) :
  forall st : EyeTracker,
    1 <= CONSECUTIVE_FRAMES (config st) ->
    let n := qualifying_runs_after (EAR_THRESHOLD (config st))
               (CONSECUTIVE_FRAMES (config st)) (frame_counter st) samples in
    let o := feed_all samples st in
    value_of o = Ok tt /\
    blink_events (trace_of o) = n /\
    blink_count (data (state_of o)) = blink_count (data st) + Z.of_nat n.
Proof.
  induction samples as [|s rest IH]; intros st Hcf; cbv zeta.
  - unfold feed_all, value_of, state_of, trace_of; simpl.
    repeat split. lia.
  - rewrite feed_all_cons; cbv zeta.
    rewrite qualifying_runs_after_cons by exact Hcf.
    specialize (IH (state_of (feed s st))).
    rewrite feed_config in IH. specialize (IH Hcf). cbv zeta in IH.
    destruct IH as (Hv & He & Hc).
    set (o' := feed_all rest (state_of (feed s st))) in *.
    replace (value_of (value_of o', state_of o', trace_of (feed s st) ++ trace_of o'))
      with (value_of o') by reflexivity.
    replace (state_of (value_of o', state_of o', trace_of (feed s st) ++ trace_of o'))
      with (state_of o') by reflexivity.
    replace (trace_of (value_of o', state_of o', trace_of (feed s st) ++ trace_of o'))
      with (trace_of (feed s st) ++ trace_of o') by reflexivity.
    rewrite blink_events_app, He, Hc.
    split; [exact Hv|].
    clearbody o'. clear He Hc Hv.
    rewrite !feed_cases; cbv zeta. unfold below.
    destruct (F.ltb s (EAR_THRESHOLD (config st))).
    + unfold state_of, trace_of; simpl. split; [reflexivity|lia].
    + destruct (CONSECUTIVE_FRAMES (config st) <=? frame_counter st).
      * unfold state_of, trace_of; simpl.
        rewrite blink_events_deliveries. split; [reflexivity|lia].
      * unfold state_of, trace_of; simpl. split; [reflexivity|lia].
Qed.
End BlinkDetector.

(** *** Runs of a known shape *)

Section RunShapes.
Import Config Tracker.
Variable thr : float.

Lemma maximal_runs_one_run (lo hi : float) (n : nat) :
  below thr lo = true -> below thr hi = false ->
  maximal_runs thr (repeat lo (S n) ++ [hi]) = [(Z.of_nat (S n), true)].
Proof.
  intros Hlo Hhi. induction n as [|n IH].
  - simpl. rewrite Hlo, Hhi. reflexivity.
  - change (repeat lo (S (S n)) ++ [hi]) with (lo :: (repeat lo (S n) ++ [hi])).
    cbn [maximal_runs]. rewrite Hlo, IH.
    cbn [repeat app starts_below]. rewrite Hlo.
    f_equal. f_equal. lia.
Qed.

Lemma qualifying_runs_one_run (cf : Z) (lo hi : float) (n : nat) :
  below thr lo = true -> below thr hi = false ->
  qualifying_runs thr cf (repeat lo n ++ [hi]) =
  if (1 <=? Z.of_nat n) && (cf <=? Z.of_nat n) then 1%nat else 0%nat.
Proof.
  intros Hlo Hhi. unfold qualifying_runs. destruct n as [|n].
  - simpl. rewrite Hhi. reflexivity.
  - rewrite maximal_runs_one_run by assumption.
    cbn [filter qualifies fst snd andb].
    destruct (Z.leb_spec 1 (Z.of_nat (S n))); [|lia].
    destruct (cf <=? Z.of_nat (S n)); reflexivity.
Qed.

Lemma feed_all_config (samples : list float) :
  forall st, config (state_of (feed_all samples st)) = config st.
Proof.
  induction samples as [|s rest IH]; intros st; [reflexivity|].
  rewrite feed_all_cons. cbv zeta.
  change (config (state_of (feed_all rest (state_of (feed s st)))) = config st).
  rewrite IH. apply feed_config.
Qed.

Lemma feed_all_returns (samples : list float) :
  forall st, value_of (feed_all samples st) = Ok tt.
Proof.
  induction samples as [|s rest IH]; intros st; [reflexivity|].
  rewrite feed_all_cons. cbv zeta.
  change (value_of (feed_all rest (state_of (feed s st))) = Ok tt).
  apply IH.
Qed.

(** Closed-eye samples publish nothing and count nothing. *)
Lemma feed_all_below (lows : list float) :
  forall st,
    EAR_THRESHOLD (config st) = thr ->
    forallb (below thr) lows = true ->
    trace_of (feed_all lows st) = [] /\
    blink_count (data (state_of (feed_all lows st))) = blink_count (data st).
Proof.
  induction lows as [|s rest IH]; intros st Hthr Hall.
  - split; reflexivity.
  - simpl in Hall. apply andb_prop in Hall. destruct Hall as [Hs Hrest].
    rewrite feed_all_cons. cbv zeta.
    change (trace_of (feed s st) ++ trace_of (feed_all rest (state_of (feed s st))) = []
            /\ blink_count (data (state_of (feed_all rest (state_of (feed s st)))))
               = blink_count (data st)).
    destruct (IH (state_of (feed s st))) as [Ht Hc].
    { rewrite feed_config. exact Hthr. }
    { exact Hrest. }
    rewrite Ht, Hc. rewrite feed_cases. cbv zeta.
    unfold below in Hs. rewrite Hthr, Hs. split; reflexivity.
Qed.

Lemma feed_all_app (xs ys : list float) (st : EyeTracker) :
  let o1 := feed_all xs st in
  let o2 := feed_all ys (state_of o1) in
  feed_all (xs ++ ys) st = (value_of o2, state_of o2, trace_of o1 ++ trace_of o2).
Proof.
  cbv zeta. unfold feed_all at 1. rewrite for_each_app. unfold bind.
  fold (feed_all xs st). pose proof (feed_all_returns xs st) as Hv.
  destruct (feed_all xs st) as [[r s1] t1]. unfold value_of in Hv. simpl in Hv.
  subst r. change (state_of (Ok tt, s1, t1)) with s1.
  fold (feed_all ys s1).
  destruct (feed_all ys s1) as [[r2 s2] t2]. reflexivity.
Qed.
End RunShapes.

(** *** C1 and C10 *)

Section BlinkDetectorClaims.
Import Config Tracker.

(** The example of the specification: threshold 0.21, two consecutive
    frames, samples 0.25, 0.15, 0.10, 0.30, 0.05, 0.30. *)
Definition example_samples : list float :=
  [F.ratio 25 100; F.ratio 15 100; F.ratio 10 100;
   F.ratio 30 100; F.ratio 5 100; F.ratio 30 100].

Example example_samples_runs :
  maximal_runs (F.ratio 21 100) example_samples = [(2, true); (1, true)].
Proof. vm_compute. reflexivity. Qed.

Example example_samples_one_blink :
  blink_events (trace_of (feed_all example_samples (__init__ defaults))) = 1%nat.
Proof. vm_compute. reflexivity. Qed.

(** A NaN sample after two closed-eye samples closes the run: the detector
    counts the blink. *)
Example nan_sample_closes_a_run :
  let samples := [F.ratio 10 100; F.ratio 10 100; S754_nan] in
  maximal_runs (F.ratio 21 100) samples = [(2, true)] /\
  blink_events (trace_of (feed_all samples (__init__ defaults))) = 1%nat.
Proof. vm_compute. split; reflexivity. Qed.

(** C1, as the code has it.  Feed any stream of fresh samples to a Blink
    Detector whose counter of consecutive closed-eye samples is 0 (a new
    tracker, or one whose last sample was not below the threshold), with
    [CONSECUTIVE_FRAMES >= 1].  The blink events published, and the growth
    of [blink_count], both equal the number of maximal runs of samples
    strictly below [EAR_THRESHOLD] that are at least [CONSECUTIVE_FRAMES]
    long and are followed by a sample.  A run of exactly
    [CONSECUTIVE_FRAMES] samples counts, one of [CONSECUTIVE_FRAMES - 1]
    does not, and closed-eye samples at the end of the stream, a run still
    open, add nothing. *)
Theorem blink_events_are_qualifying_runs
        (st : EyeTracker) (samples : list float) :
  frame_counter st = 0 ->
  1 <= CONSECUTIVE_FRAMES (config st) ->
  let thr := EAR_THRESHOLD (config st) in
  let cf := CONSECUTIVE_FRAMES (config st) in
  let events := fun stream => blink_events (trace_of (feed_all stream st)) in
  let growth := fun stream =>
    blink_count (data (state_of (feed_all stream st))) - blink_count (data st) in
  (events samples = qualifying_runs thr cf samples /\
   growth samples = Z.of_nat (qualifying_runs thr cf samples)) /\
  (forall lo hi : float,
      below thr lo = true -> below thr hi = false ->
      events (repeat lo (Z.to_nat cf) ++ [hi]) = 1%nat /\
      events (repeat lo (Z.to_nat (cf - 1)) ++ [hi]) = 0%nat) /\
  (forall lows : list float,
      forallb (below thr) lows = true ->
      events (samples ++ lows) = events samples).
Proof.
  intros Hfc Hcf thr cf events growth.
  assert (Hcount : forall stream,
             events stream = qualifying_runs thr cf stream /\
             growth stream = Z.of_nat (qualifying_runs thr cf stream)).
  { intros stream. subst events growth. cbv beta.
    destruct (feed_all_counts stream st Hcf) as (_ & He & Hc).
    rewrite Hfc in He, Hc.
    rewrite qualifying_runs_after_0 in He, Hc by exact Hcf.
    split; [exact He|]. fold thr cf in Hc. lia. }
  split; [apply Hcount|]. split.
  - intros lo hi Hlo Hhi.
    rewrite (proj1 (Hcount _)), (proj1 (Hcount _)).
    rewrite !(qualifying_runs_one_run thr cf lo hi) by assumption.
    rewrite !Z2Nat.id by (unfold cf; lia).
    split.
    + destruct (Z.leb_spec 1 cf); [|unfold cf in *; lia].
      rewrite Z.leb_refl. reflexivity.
    + destruct (Z.leb_spec cf (cf - 1)); [lia|].
      rewrite andb_false_r. reflexivity.
  - intros lows Hlows. subst events. cbv beta.
    rewrite feed_all_app. cbv zeta.
    change (trace_of (?v, ?s, ?t)) with t.
    destruct (feed_all_below thr lows (state_of (feed_all samples st)))
      as [Ht _].
    { rewrite feed_all_config. reflexivity. }
    { exact Hlows. }
    rewrite Ht, app_nil_r. reflexivity.
Qed.

Lemma blink_events_are_qualifying_runs_witness :
  frame_counter (__init__ defaults) = 0 /\
  1 <= CONSECUTIVE_FRAMES (config (__init__ defaults)) /\
  blink_events (trace_of (feed_all example_samples (__init__ defaults)))
  = qualifying_runs (F.ratio 21 100) 2 example_samples.
Proof.
  split; [reflexivity|]. split; [discriminate|].
  exact (proj1 (proj1 (blink_events_are_qualifying_runs
                         (__init__ defaults) example_samples
                         eq_refl ltac:(discriminate)))).
Defined.

(** C1 as worded fails when [CONSECUTIVE_FRAMES] is 0: one open-eye sample
    publishes a blink although the stream holds no closed-eye run. *)
Lemma blink_without_closed_eye_run :
  let st := __init__ (with_CONSECUTIVE_FRAMES 0 defaults) in
  let samples := [F.ratio 30 100] in
  maximal_runs (EAR_THRESHOLD (config st)) samples = [] /\
  qualifying_runs (EAR_THRESHOLD (config st))
    (CONSECUTIVE_FRAMES (config st)) samples = 0%nat /\
  blink_events (trace_of (feed_all samples st)) = 1%nat /\
  blink_count (data (state_of (feed_all samples st))) = 1 /\
  blink_events (trace_of (feed_all samples st))
  <> qualifying_runs (EAR_THRESHOLD (config st))
       (CONSECUTIVE_FRAMES (config st)) samples.
Proof. vm_compute. repeat split. discriminate. Qed.

(** C10.  With [CONSECUTIVE_FRAMES = 0], a sample that is not below the
    threshold always counts: [_update_blink_detection] returns with
    [blink_count] one higher, publishes exactly that count, and resets the
    counter of closed-eye samples; a counter of 0, no closed-eye sample
    seen, is enough.  (The counter is never negative on a tracker that
    runs from its construction: [run_frame_counter], and
    [open_frame_counts_a_blink] for a whole tick.) *)
Theorem zero_consecutive_frames_counts_every_open_sample (st : EyeTracker) :
  CONSECUTIVE_FRAMES (config st) = 0 ->
  0 <= frame_counter st ->
  F.ltb (avg_ear (data st)) (EAR_THRESHOLD (config st)) = false ->
  let o := _update_blink_detection st in
  value_of o = Ok tt /\
  blink_count (data (state_of o)) = blink_count (data st) + 1 /\
  published_counts (trace_of o) = [blink_count (data st) + 1] /\
  frame_counter (state_of o) = 0.
Proof.
  intros Hcf Hfc Hopen. cbv zeta.
  rewrite _update_blink_detection_cases, Hopen, Hcf.
  destruct (Z.leb_spec 0 (frame_counter st)); [|lia].
  unfold value_of, state_of, trace_of; simpl.
  rewrite published_counts_deliveries. repeat split.
Qed.

Lemma zero_consecutive_frames_counts_every_open_sample_witness :
  let st := on_data (set_avg_ear (F.ratio 30 100))
              (__init__ (with_CONSECUTIVE_FRAMES 0 defaults)) in
  CONSECUTIVE_FRAMES (config st) = 0 /\
  0 <= frame_counter st /\
  F.ltb (avg_ear (data st)) (EAR_THRESHOLD (config st)) = false /\
  blink_count (data (state_of (_update_blink_detection st))) = 1.
Proof.
  cbv zeta.
  split; [reflexivity|]. split; [discriminate|]. split; [reflexivity|].
  exact (proj1 (proj2 (zero_consecutive_frames_counts_every_open_sample
                         (on_data (set_avg_ear (F.ratio 30 100))
                            (__init__ (with_CONSECUTIVE_FRAMES 0 defaults)))
                         eq_refl ltac:(discriminate) eq_refl))).
Defined.
End BlinkDetectorClaims.

(** ** Integers that float64 holds exactly

    The operations of [SpecFloat] on the floats of integers: squaring and
    adding are exact as long as the results stay below 2^53, so on such
    integers the float computation is the integer computation. *)

Section ExactIntegers.

Lemma digits2_pos_size (p : positive) : digits2_pos p = Pos.size p.
Proof. induction p; simpl; congruence. Qed.

Lemma digits2_pos_bounds (p : positive) :
  2 ^ (Zpos (digits2_pos p) - 1) <= Zpos p < 2 ^ Zpos (digits2_pos p).
Proof.
  rewrite digits2_pos_size. split.
  - pose proof (Pos.size_le p) as H.
    apply Pos2Z.pos_le_pos in H. rewrite Pos2Z.inj_pow in H.
    change (Zpos p~0) with (2 * Zpos p) in H.
    replace (Zpos (Pos.size p)) with (Z.succ (Zpos (Pos.size p) - 1)) in H by lia.
    rewrite Z.pow_succ_r in H by lia. lia.
  - pose proof (Pos.size_gt p) as H.
    apply Pos2Z.pos_lt_pos in H. rewrite Pos2Z.inj_pow in H. exact H.
Qed.

Lemma digits2_pos_unique (p : positive) (d : Z) :
  2 ^ (d - 1) <= Zpos p < 2 ^ d -> Zpos (digits2_pos p) = d.
Proof.
  intros [Hlo Hhi]. destruct (digits2_pos_bounds p) as [Hlo' Hhi'].
  set (d' := Zpos (digits2_pos p)) in *.
  assert (0 < d') by (unfold d'; lia).
  assert (0 < d).
  { destruct (Z.lt_ge_cases 0 d); [assumption|].
    destruct (Z.eq_dec d 0) as [->|Hd]; [change (2 ^ 0) with 1 in Hhi; lia|].
    rewrite Z.pow_neg_r in Hhi by lia. lia. }
  destruct (Z.lt_trichotomy d' d) as [Hlt|[Heq|Hgt]]; [|exact Heq|].
  - assert (2 ^ d' <= 2 ^ (d - 1)) by (apply Z.pow_le_mono_r; lia). lia.
  - assert (2 ^ d <= 2 ^ (d' - 1)) by (apply Z.pow_le_mono_r; lia). lia.
Qed.

Lemma digits2_pos_shift (p q : positive) (k : Z) :
  0 <= k -> Zpos p = Zpos q * 2 ^ k ->
  Zpos (digits2_pos p) = Zpos (digits2_pos q) + k.
Proof.
  intros Hk Hp. apply digits2_pos_unique. rewrite Hp.
  destruct (digits2_pos_bounds q) as [Hlo Hhi].
  replace (Zpos (digits2_pos q) + k - 1) with (Zpos (digits2_pos q) - 1 + k) by lia.
  rewrite !Z.pow_add_r by lia.
  assert (0 < 2 ^ k) by (apply Z.pow_pos_nonneg; lia).
  split; nia.
Qed.

Lemma iter_pos_nat {A} (f : A -> A) (p : positive) :
  forall x, iter_pos f p x = Nat.iter (Pos.to_nat p) f x.
Proof.
  induction p as [p IH|p IH|]; intros x; cbn [iter_pos].
  - rewrite !IH, Pos2Nat.inj_xI, <- Nat.iter_add, <- Nat.iter_succ_r.
    f_equal. lia.
  - rewrite !IH, Pos2Nat.inj_xO, <- Nat.iter_add. f_equal. lia.
  - reflexivity.
Qed.

Lemma iter_xO_Z (k : nat) (q : positive) :
  Zpos (Nat.iter k xO q) = Zpos q * 2 ^ Z.of_nat k.
Proof.
  induction k as [|k IH]; [cbn; lia|].
  change (Nat.iter (S k) xO q) with (xO (Nat.iter k xO q)).
  rewrite Pos2Z.inj_xO, IH, Nat2Z.inj_succ, Z.pow_succ_r by lia. lia.
Qed.

Lemma iter_shr_1_exact (k : nat) :
  forall q : positive,
    Nat.iter k shr_1
      {| shr_m := Zpos (Nat.iter k xO q); shr_r := false; shr_s := false |}
    = {| shr_m := Zpos q; shr_r := false; shr_s := false |}.
Proof.
  induction k as [|k IH]; intros q; [reflexivity|].
  rewrite Nat.iter_succ_r.
  change (Nat.iter (S k) xO q) with (xO (Nat.iter k xO q)).
  cbn [shr_1 orb]. apply IH.
Qed.

Lemma shr_exact (P q : positive) (e s : Z) :
  0 < s -> Zpos P = Zpos q * 2 ^ s ->
  shr {| shr_m := Zpos P; shr_r := false; shr_s := false |} e s
  = ({| shr_m := Zpos q; shr_r := false; shr_s := false |}, e + s).
Proof.
  intros Hs HP. destruct s as [|p|p]; try lia.
  unfold shr. rewrite iter_pos_nat.
  assert (HPq : P = Nat.iter (Pos.to_nat p) xO q).
  { apply Pos2Z.inj. rewrite iter_xO_Z, positive_nat_Z. exact HP. }
  rewrite HPq, iter_shr_1_exact. reflexivity.
Qed.

(** The float of a positive integer of at most 53 bits. *)
Definition canon (sx : bool) (n : positive) : spec_float :=
  let d := Zpos (digits2_pos n) in
  S754_finite sx (Z.to_pos (Zpos n * 2 ^ (53 - d))) (d - 53).

Lemma binary_round_aux_exact (sx : bool) (P n : positive) (e : Z) :
  Zpos (digits2_pos n) <= 53 ->
  e <= Zpos (digits2_pos n) - 53 ->
  Zpos P = Zpos n * 2 ^ (- e) ->
  binary_round_aux 53 1024 sx (Zpos P) e loc_Exact = canon sx n.
Proof.
  set (d := Zpos (digits2_pos n)). intros Hd He HP.
  unfold canon. fold d.
  set (q := Z.to_pos (Zpos n * 2 ^ (53 - d))).
  assert (Hq : Zpos q = Zpos n * 2 ^ (53 - d)).
  { unfold q. rewrite Z2Pos.id; [reflexivity|].
    apply Z.mul_pos_pos; [lia|apply Z.pow_pos_nonneg; lia]. }
  assert (HdP : Zpos (digits2_pos P) = d - e).
  { rewrite (digits2_pos_shift P n (- e)) by (lia || assumption). fold d. lia. }
  assert (Hdq : Zpos (digits2_pos q) = 53).
  { rewrite (digits2_pos_shift q n (53 - d)) by (lia || assumption). fold d. lia. }
  assert (HPq : Zpos P = Zpos q * 2 ^ (d - 53 - e)).
  { rewrite HP, Hq, <- Z.mul_assoc, <- Z.pow_add_r by lia. f_equal. f_equal. lia. }
  assert (Hstay : forall m : positive,
             Zpos (digits2_pos m) = 53 ->
             shr_fexp 53 1024 (Zpos m) (d - 53) loc_Exact
             = ({| shr_m := Zpos m; shr_r := false; shr_s := false |}, d - 53)).
  { intros m Hm. unfold shr_fexp. cbn [Zdigits2 shr_record_of_loc].
    rewrite Hm.
    replace (fexp 53 1024 (53 + (d - 53)) - (d - 53)) with 0
      by (unfold fexp, emin; lia).
    reflexivity. }
  unfold binary_round_aux.
  assert (Hfirst : shr_fexp 53 1024 (Zpos P) e loc_Exact
                   = ({| shr_m := Zpos q; shr_r := false; shr_s := false |},
                      d - 53)).
  { destruct (Z.eq_dec (d - 53 - e) 0) as [H0|H0].
    - assert (e = d - 53) by lia. subst e.
      assert (P = q).
      { apply Pos2Z.inj. rewrite HPq, H0. change (2 ^ 0) with 1. lia. }
      subst P. apply Hstay. exact Hdq.
    - unfold shr_fexp. cbn [Zdigits2 shr_record_of_loc]. rewrite HdP.
      replace (fexp 53 1024 (d - e + e) - e) with (d - 53 - e)
        by (unfold fexp, emin; lia).
      rewrite (shr_exact P q e (d - 53 - e)) by (lia || assumption).
      f_equal. lia. }
  rewrite Hfirst. cbn [shr_m loc_of_shr_record round_nearest_even].
  rewrite (Hstay q Hdq). cbn [shr_m].
  destruct (Z.leb_spec (d - 53) (1024 - 53)); [reflexivity|lia].
Qed.

Lemma of_Z_pos (n : positive) :
  Zpos (digits2_pos n) <= 53 -> F.of_Z (Zpos n) = canon false n.
Proof.
  intros Hd. unfold F.of_Z, binary_normalize, binary_round, F.prec, F.emax.
  set (d := Zpos (digits2_pos n)) in *.
  replace (fexp 53 1024 (d + 0)) with (d - 53) by (unfold fexp, emin; lia).
  unfold shl_align.
  destruct (d - 53 - 0) as [|k|k] eqn:Hk.
  - apply binary_round_aux_exact; fold d; lia.
  - lia.
  - apply binary_round_aux_exact; fold d; try lia.
    rewrite Pos2Nat.inj_iter.
    change (nat_rect (fun _ => positive) n (fun _ => xO) (Pos.to_nat k))
      with (Nat.iter (Pos.to_nat k) xO n).
    rewrite iter_xO_Z, positive_nat_Z. f_equal. f_equal. lia.
Qed.

Lemma of_Z_neg (n : positive) :
  Zpos (digits2_pos n) <= 53 -> F.of_Z (Zneg n) = canon true n.
Proof.
  intros Hd. unfold F.of_Z, binary_normalize, binary_round, F.prec, F.emax.
  set (d := Zpos (digits2_pos n)) in *.
  replace (fexp 53 1024 (d + 0)) with (d - 53) by (unfold fexp, emin; lia).
  unfold shl_align.
  destruct (d - 53 - 0) as [|k|k] eqn:Hk.
  - apply binary_round_aux_exact; fold d; lia.
  - lia.
  - apply binary_round_aux_exact; fold d; try lia.
    rewrite Pos2Nat.inj_iter.
    change (nat_rect (fun _ => positive) n (fun _ => xO) (Pos.to_nat k))
      with (Nat.iter (Pos.to_nat k) xO n).
    rewrite iter_xO_Z, positive_nat_Z. f_equal. f_equal. lia.
Qed.

Lemma digits2_pos_le (n : positive) (k : Z) :
  Zpos n < 2 ^ k -> Zpos (digits2_pos n) <= k.
Proof.
  intros Hn. destruct (digits2_pos_bounds n) as [Hlo _].
  destruct (Z.le_gt_cases (Zpos (digits2_pos n)) k) as [H|H]; [exact H|].
  assert (0 <= k).
  { destruct (Z.le_gt_cases 0 k); [assumption|].
    rewrite Z.pow_neg_r in Hn by lia. lia. }
  assert (2 ^ k <= 2 ^ (Zpos (digits2_pos n) - 1))
    by (apply Z.pow_le_mono_r; lia).
  lia.
Qed.

Lemma digits2_pos_mono (a b : positive) :
  Zpos a <= Zpos b -> Zpos (digits2_pos a) <= Zpos (digits2_pos b).
Proof.
  intros Hab. apply digits2_pos_le.
  destruct (digits2_pos_bounds b). lia.
Qed.

Lemma canon_mantissa (sx : bool) (n : positive) :
  Zpos (digits2_pos n) <= 53 ->
  exists m : positive,
    canon sx n = S754_finite sx m (Zpos (digits2_pos n) - 53) /\
    Zpos m = Zpos n * 2 ^ (53 - Zpos (digits2_pos n)).
Proof.
  intros Hd. eexists. split; [reflexivity|].
  rewrite Z2Pos.id; [reflexivity|].
  apply Z.mul_pos_pos; [lia|apply Z.pow_pos_nonneg; lia].
Qed.

(** The product of two floats that hold positive integers is the float of
    the product, when that has at most 53 bits. *)
Lemma mul_canon (sa sb : bool) (a b : positive) :
  Zpos (a * b) < 2 ^ 53 ->
  F.mul (canon sa a) (canon sb b) = canon (xorb sa sb) (a * b).
Proof.
  intros Hab.
  assert (Hdab : Zpos (digits2_pos (a * b)) <= 53) by (apply digits2_pos_le; exact Hab).
  assert (Hda : Zpos (digits2_pos a) <= Zpos (digits2_pos (a * b)))
    by (apply digits2_pos_mono; nia).
  assert (Hdb : Zpos (digits2_pos b) <= Zpos (digits2_pos (a * b)))
    by (apply digits2_pos_mono; nia).
  destruct (canon_mantissa sa a) as (ma & -> & Hma); [lia|].
  destruct (canon_mantissa sb b) as (mb & -> & Hmb); [lia|].
  unfold F.mul, SFmul, F.prec, F.emax.
  apply binary_round_aux_exact; try lia.
  rewrite !Pos2Z.inj_mul, Hma, Hmb.
  set (da := Zpos (digits2_pos a)) in *. set (db := Zpos (digits2_pos b)) in *.
  replace (- (da - 53 + (db - 53))) with ((53 - da) + (53 - db)) by lia.
  rewrite Z.pow_add_r by lia. ring.
Qed.

Lemma shl_align_value (mx : positive) (ex ex' : Z) :
  ex' <= ex ->
  Zpos (fst (shl_align mx ex ex')) = Zpos mx * 2 ^ (ex - ex').
Proof.
  intros Hle. unfold shl_align.
  destruct (ex' - ex) as [|k|k] eqn:Hk; cbn [fst].
  - replace (ex - ex') with 0 by lia. change (2 ^ 0) with 1. lia.
  - lia.
  - rewrite Pos2Nat.inj_iter.
    change (nat_rect (fun _ => positive) mx (fun _ => xO) (Pos.to_nat k))
      with (Nat.iter (Pos.to_nat k) xO mx).
    rewrite iter_xO_Z, positive_nat_Z. f_equal. f_equal. lia.
Qed.

(** The sum of two floats that hold positive integers is the float of the
    sum, when that has at most 53 bits. *)
Lemma add_canon (a b : positive) :
  Zpos (a + b) < 2 ^ 53 ->
  F.add (canon false a) (canon false b) = canon false (a + b).
Proof.
  intros Hab.
  assert (Hdc : Zpos (digits2_pos (a + b)) <= 53)
    by (apply digits2_pos_le; exact Hab).
  assert (Hda : Zpos (digits2_pos a) <= Zpos (digits2_pos (a + b)))
    by (apply digits2_pos_mono; lia).
  assert (Hdb : Zpos (digits2_pos b) <= Zpos (digits2_pos (a + b)))
    by (apply digits2_pos_mono; lia).
  destruct (canon_mantissa false a) as (ma & -> & Hma); [lia|].
  destruct (canon_mantissa false b) as (mb & -> & Hmb); [lia|].
  set (da := Zpos (digits2_pos a)) in *. set (db := Zpos (digits2_pos b)) in *.
  set (dc := Zpos (digits2_pos (a + b))) in *.
  unfold F.add, SFadd, F.prec, F.emax. cbv zeta.
  set (ez := Z.min (da - 53) (db - 53)).
  unfold cond_Zopp.
  rewrite <- Pos2Z.inj_add.
  set (total := (fst (shl_align ma (da - 53) ez) + fst (shl_align mb (db - 53) ez))%positive).
  assert (HS : Zpos total = Zpos (a + b) * 2 ^ (- ez)).
  { unfold total. rewrite Pos2Z.inj_add, !shl_align_value by (unfold ez; lia).
    rewrite Hma, Hmb, Pos2Z.inj_add.
    rewrite <- !Z.mul_assoc, <- !Z.pow_add_r by (unfold ez; lia).
    replace (53 - da + (da - 53 - ez)) with (- ez) by lia.
    replace (53 - db + (db - 53 - ez)) with (- ez) by lia.
    ring. }
  cbn [binary_normalize]. unfold binary_round.
  rewrite (digits2_pos_shift total (a + b) (- ez)) by (unfold ez; lia || assumption).
  fold dc.
  replace (fexp 53 1024 (dc + - ez + ez)) with (dc - 53)
    by (unfold fexp, emin; lia).
  unfold shl_align.
  destruct (dc - 53 - ez) as [|k|k] eqn:Hk; [| |unfold ez in Hk; lia];
    apply binary_round_aux_exact; fold dc; (unfold ez; lia) || exact HS.
Qed.

(** Squaring an integer float is exact while the square is below 2^53. *)
Lemma square_exact (d : Z) :
  d * d < 2 ^ 53 -> F.mul (F.of_Z d) (F.of_Z d) = F.of_Z (d * d).
Proof.
  intros Hd. destruct d as [|p|p].
  - reflexivity.
  - assert (Zpos p <= Zpos p * Zpos p) by nia.
    rewrite of_Z_pos by (apply digits2_pos_le; lia).
    change (Zpos p * Zpos p) with (Zpos (p * p)).
    rewrite mul_canon by exact Hd.
    rewrite of_Z_pos by (apply digits2_pos_le; exact Hd). reflexivity.
  - assert (Zpos p <= Zpos p * Zpos p) by nia.
    change (Zneg p * Zneg p) with (Zpos (p * p)) in *.
    rewrite of_Z_neg by (apply digits2_pos_le; lia).
    rewrite mul_canon by exact Hd.
    rewrite of_Z_pos by (apply digits2_pos_le; exact Hd). reflexivity.
Qed.

(** Adding two integer floats that are not negative is exact while the sum
    is below 2^53. *)
Lemma add_exact (a b : Z) :
  0 <= a -> 0 <= b -> a + b < 2 ^ 53 ->
  F.add (F.of_Z a) (F.of_Z b) = F.of_Z (a + b).
Proof.
  intros Ha Hb Hab. destruct a as [|a|a]; [|destruct b as [|b|b]|]; try lia.
  - destruct b as [|b|b]; try lia; [reflexivity|].
    cbn [Z.add]. rewrite of_Z_pos by (apply digits2_pos_le; lia). reflexivity.
  - rewrite Z.add_0_r. rewrite of_Z_pos by (apply digits2_pos_le; lia).
    reflexivity.
  - rewrite !of_Z_pos by (apply digits2_pos_le; lia).
    change (Zpos a + Zpos b) with (Zpos (a + b)) in *.
    rewrite add_canon by exact Hab.
    rewrite of_Z_pos by (apply digits2_pos_le; exact Hab). reflexivity.
Qed.
End ExactIntegers.

(** ** The EAR Calculator *)

Section EarCalculator.
Import Config Tracker.

Lemma py_getitem_nonneg {A} (l : list A) (i : Z) :
  0 <= i ->
  py_getitem l i =
  match nth_error l (Z.to_nat i) with
  | Some x => Ok x
  | None => Raise IndexError
  end.
Proof.
  intros Hi. unfold py_getitem.
  destruct (Z.ltb_spec i 0); [lia|].
  destruct (Z.leb_spec 0 i); [|lia].
  destruct (Z.ltb_spec i (Z.of_nat (length l))); [reflexivity|].
  cbn [andb].
  assert (Hnone : nth_error l (Z.to_nat i) = None)
    by (apply nth_error_None; lia).
  rewrite Hnone. reflexivity.
Qed.

(** The eye aspect ratio of six points, as the specification writes it:
    [(dist(p1,p5) + dist(p2,p4)) / (2 * dist(p0,p3))] in float64
    arithmetic. *)
Definition EAR (p0 p1 p2 p3 p4 p5 : point) : float :=
  F.div (F.add (_euclidean_dist p1 p5) (_euclidean_dist p2 p4))
        (F.mul (F.of_Z 2) (_euclidean_dist p0 p3)).

(** What [_calculate_ear] answers on a list: the ratio of its first six
    points, or the [IndexError] of a list too short. *)
Definition ear_of (eye_landmarks : list point) : result float :=
  match eye_landmarks with
  | p0 :: p1 :: p2 :: p3 :: p4 :: p5 :: _ => Ok (EAR p0 p1 p2 p3 p4 p5)
  | _ => Raise IndexError
  end.

Lemma _calculate_ear_pure (eye_landmarks : list point) (st : EyeTracker) :
  _calculate_ear eye_landmarks st = (ear_of eye_landmarks, st, []).
Proof.
  unfold _calculate_ear.
  rewrite !py_getitem_nonneg by lia.
  change (Z.to_nat 0) with 0%nat. change (Z.to_nat 1) with 1%nat.
  change (Z.to_nat 2) with 2%nat. change (Z.to_nat 3) with 3%nat.
  change (Z.to_nat 4) with 4%nat. change (Z.to_nat 5) with 5%nat.
  destruct eye_landmarks as [|p0 [|p1 [|p2 [|p3 [|p4 [|p5 rest]]]]]];
    reflexivity.
Qed.

(** Pixel space: both coordinates of magnitude below 2^25 (33 554 432),
    far beyond the size of any frame.  There the coordinate differences
    fit numpy's integer arrays without wrapping, and their squares and the
    sum of the squares are integers below 2^53, which float64 holds
    exactly: no step before the square root rounds, however the dot
    product is accumulated. *)
Definition is_pixel (p : point) : bool :=
  (Z.abs (fst p) <? 2 ^ 25) && (Z.abs (snd p) <? 2 ^ 25).

(** The Euclidean distance of the specification: the square root of the
    sum of the squared coordinate differences, the sum taken on the
    integers and the root rounded to the nearest float64. *)
Definition squared_distance (p q : point) : Z :=
  (fst p - fst q) * (fst p - fst q) + (snd p - snd q) * (snd p - snd q).

Definition euclidean_distance (p q : point) : float :=
  F.sqrt (F.of_Z (squared_distance p q)).

Lemma is_pixel_bounds (p : point) :
  is_pixel p = true ->
  - 33554432 < fst p < 33554432 /\ - 33554432 < snd p < 33554432.
Proof.
  unfold is_pixel. intros H. apply andb_prop in H as [Hx Hy].
  apply Z.ltb_lt in Hx, Hy. change (2 ^ 25) with 33554432 in Hx, Hy. lia.
Qed.

(** In pixel space [_euclidean_dist] is the Euclidean distance. *)
Lemma _euclidean_dist_exact (p q : point) :
  is_pixel p = true -> is_pixel q = true ->
  _euclidean_dist p q = euclidean_distance p q.
Proof.
  intros Hp Hq.
  apply is_pixel_bounds in Hp as [Hpx Hpy], Hq as [Hqx Hqy].
  unfold _euclidean_dist, euclidean_distance, squared_distance. cbv zeta.
  set (dx := fst p - fst q). set (dy := snd p - snd q).
  assert (Hdx : - 67108864 < dx < 67108864) by (unfold dx; lia).
  assert (Hdy : - 67108864 < dy < 67108864) by (unfold dy; lia).
  assert (Hxx : 0 <= dx * dx < 4503599627370496) by nia.
  assert (Hyy : 0 <= dy * dy < 4503599627370496) by nia.
  change (2 ^ 53) with 9007199254740992 in *.
  rewrite !square_exact by (change (2 ^ 53) with 9007199254740992; lia).
  rewrite add_exact by (change (2 ^ 53) with 9007199254740992; lia).
  reflexivity.
Qed.

(** C2.  On a landmark set of exactly six points in pixel space the EAR
    Calculator returns [(dist(p1,p5) + dist(p2,p4)) / (2 * dist(p0,p3))],
    where [dist] is the Euclidean distance between the two points: the
    square root of the sum of their squared coordinate differences,
    rounded to the nearest float64.  It raises nothing, leaves the tracker
    as it was and emits nothing. *)
Theorem _calculate_ear_formula (p0 p1 p2 p3 p4 p5 : point) (st : EyeTracker) :
  is_pixel p0 = true -> is_pixel p1 = true -> is_pixel p2 = true ->
  is_pixel p3 = true -> is_pixel p4 = true -> is_pixel p5 = true ->
  _calculate_ear [p0; p1; p2; p3; p4; p5] st =
  (Ok (F.div (F.add (euclidean_distance p1 p5) (euclidean_distance p2 p4))
             (F.mul (F.of_Z 2) (euclidean_distance p0 p3))),
   st, []).
Proof.
  intros H0 H1 H2 H3 H4 H5. rewrite _calculate_ear_pure.
  cbn [ear_of]. unfold EAR.
  rewrite !_euclidean_dist_exact by assumption. reflexivity.
Qed.

Lemma _calculate_ear_formula_witness :
  let st := __init__ defaults in
  _calculate_ear [(0, 5); (3, 8); (7, 8); (10, 5); (7, 2); (3, 2)] st
  = (Ok (F.div (F.add (euclidean_distance (3, 8) (3, 2))
                      (euclidean_distance (7, 8) (7, 2)))
               (F.mul (F.of_Z 2) (euclidean_distance (0, 5) (10, 5)))),
     st, []) /\
  euclidean_distance (3, 8) (3, 2) = F.of_Z 6 /\
  euclidean_distance (0, 5) (10, 5) = F.of_Z 10.
Proof.
  cbv zeta. split.
  - apply (_calculate_ear_formula (0, 5) (3, 8) (7, 8) (10, 5) (7, 2) (3, 2));
      reflexivity.
  - split; vm_compute; reflexivity.
Defined.

(** The distance is the rounded square root of the sum of the squared
    coordinate differences. *)
Example _euclidean_dist_3_4_5 : _euclidean_dist (10, 20) (13, 24) = F.of_Z 5.
Proof. vm_compute. reflexivity. Qed.

(** An eye 10 pixels wide and 6 pixels high: EAR is 0.6. *)
Example EAR_hexagon :
  EAR (0, 5) (3, 8) (7, 8) (10, 5) (7, 2) (3, 2) = F.ratio 6 10.
Proof. vm_compute. reflexivity. Qed.
End EarCalculator.

(** ** One tick, path by path *)

Section Stepping.
Context {S E : Type}.
Implicit Types (s : S).

Lemma bind_assoc {A B C} (m : @M S E A) (k : A -> M B) (h : B -> M C) s :
  bind (bind m k) h s = bind m (fun a => bind (k a) h) s.
Proof.
  unfold bind. destruct (m s) as [[[a|e] s1] t1]; [|reflexivity].
  destruct (k a s1) as [[[b|e] s2] t2]; [|reflexivity].
  destruct (h b s2) as [[r s3] t3]. rewrite app_assoc. reflexivity.
Qed.

Lemma bind_ret {A B} (a : A) (k : A -> @M S E B) s :
  bind (ret a) k s = k a s.
Proof. unfold bind, ret. destruct (k a s) as [[r s2] t2]. reflexivity. Qed.

Lemma bind_get {B} (k : S -> @M S E B) s :
  bind get k s = k s s.
Proof. unfold bind, get. destruct (k s s) as [[r s2] t2]. reflexivity. Qed.

Lemma bind_modify {B} (f : S -> S) (k : unit -> @M S E B) s :
  bind (modify f) k s = k tt (f s).
Proof. unfold bind, modify. destruct (k tt (f s)) as [[r s2] t2]. reflexivity. Qed.

Lemma bind_lift_Ok {A B} (a : A) (k : A -> @M S E B) s :
  bind (lift (Ok a)) k s = k a s.
Proof. unfold bind, lift. destruct (k a s) as [[r s2] t2]. reflexivity. Qed.

Lemma bind_lift_Raise {A B} (e : exn) (k : A -> @M S E B) s :
  bind (lift (Raise e)) k s = (Raise e, s, []).
Proof. reflexivity. Qed.

Lemma bind_raise {A B} (e : exn) (k : A -> @M S E B) s :
  bind (raise e) k s = (Raise e, s, []).
Proof. reflexivity. Qed.

(** Sequencing after a computation known to return. *)
Lemma bind_returning {A B} (m : @M S E A) (k : A -> M B) (a : A) s :
  value_of (m s) = Ok a ->
  bind m k s =
  (value_of (k a (state_of (m s))), state_of (k a (state_of (m s))),
   trace_of (m s) ++ trace_of (k a (state_of (m s)))).
Proof.
  unfold bind. destruct (m s) as [[r s1] t1].
  unfold value_of; cbn [fst]. intros ->.
  change (state_of (Ok a, s1, t1)) with s1.
  destruct (k a s1) as [[r2 s2] t2]. reflexivity.
Qed.

Lemma bind_emit {B} (ev : E) (k : unit -> @M S E B) s :
  bind (emit ev) k s =
  (value_of (k tt s), state_of (k tt s), ev :: trace_of (k tt s)).
Proof. unfold bind, emit. destruct (k tt s) as [[r s2] t2]. reflexivity. Qed.
End Stepping.

(** One step of symbolic execution at the head of a computation. *)
Ltac mstep :=
  rewrite ?bind_assoc;
  first [ rewrite bind_modify | rewrite bind_get | rewrite bind_ret
        | rewrite bind_lift_Ok | rewrite bind_emit ].

Section Tick.
Import Config Tracker.

(** The events of [_notify_eye_data_updated] on a tracker. *)
Definition eye_data_events (st : EyeTracker) : list event :=
  PublishEyeData (left_ear (data st)) (right_ear (data st)) (avg_ear (data st)) ::
  flat_map (eye_data_delivery (left_ear (data st)) (right_ear (data st))
              (avg_ear (data st))) (observers st).

(** The tracker after lines 111-113: the pair is cached and shown. *)
Definition with_landmarks (left_eye right_eye : list point) (st : EyeTracker)
  : EyeTracker :=
  on_data (set_right_eye_landmarks right_eye)
    (on_data (set_left_eye_landmarks left_eye)
       (set_last_valid_landmarks (left_eye, right_eye) st)).

(** The tracker after line 118: both ratios and their mean are stored. *)
Definition with_ears (l r : float) (st : EyeTracker) : EyeTracker :=
  on_data (fun d =>
             set_avg_ear (F.div (F.add (left_ear d) (right_ear d)) (F.of_Z 2)) d)
    (on_data (set_right_ear r) (on_data (set_left_ear l) st)).

(** A tick that ends in the [except] clause of [process_frame]. *)
Definition aborted (st : EyeTracker) (e : exn)
  : result EyeTrackingData * EyeTracker * list event :=
  (Ok (data st), st, [ProviderCalled; LogError e]).

(** A tick that reaches lines 130-131 after calling the provider. *)
Definition completed (st : EyeTracker) (t : list event)
  : result EyeTrackingData * EyeTracker * list event :=
  (Ok (data st), st, ProviderCalled :: t ++ eye_data_events st).

(** [process_frame] in direct style, one line per path through it. *)
Definition tick_outcome (frame : detection) (st : EyeTracker)
  : result EyeTrackingData * EyeTracker * list event :=
  let c := _frame_skip_counter st + 1 in
  if MAX_FRAME_SKIP (config st) <=? c then
    let st0 := set_frame_skip_counter 0 st in
    match frame with
    | ProviderFailure e => aborted st0 e
    | NoDetection =>
        match _last_valid_landmarks st with
        | Some (left_eye, right_eye) =>
            completed
              (on_data (set_right_eye_landmarks right_eye)
                 (on_data (set_left_eye_landmarks left_eye) st0)) []
        | None => completed st0 []
        end
    | Detected face =>
        match extract face (LEFT_EYE_INDICES (config st)) with
        | Raise e => aborted st0 e
        | Ok left_eye =>
            match extract face (RIGHT_EYE_INDICES (config st)) with
            | Raise e => aborted st0 e
            | Ok right_eye =>
                let st1 := with_landmarks left_eye right_eye st0 in
                match ear_of left_eye with
                | Raise e => aborted st1 e
                | Ok l =>
                    match ear_of right_eye with
                    | Raise e => aborted (on_data (set_left_ear l) st1) e
                    | Ok r =>
                        let o := _update_blink_detection (with_ears l r st1) in
                        completed (state_of o) (trace_of o)
                    end
                end
            end
        end
    end
  else
    let st0 := set_frame_skip_counter c st in
    (Ok (data st0), st0, eye_data_events st0).

Lemma _update_blink_detection_returns (st : EyeTracker) :
  value_of (_update_blink_detection st) = Ok tt.
Proof.
  rewrite _update_blink_detection_cases.
  destruct (F.ltb _ _); [reflexivity|].
  destruct (_ <=? _); reflexivity.
Qed.

Lemma bind__calculate_ear {B} (eye_landmarks : list point)
      (k : float -> T B) (st : EyeTracker) :
  bind (_calculate_ear eye_landmarks) k st =
  match ear_of eye_landmarks with
  | Ok v => k v st
  | Raise e => (Raise e, st, [])
  end.
Proof.
  unfold bind. rewrite _calculate_ear_pure.
  destruct (ear_of eye_landmarks) as [v|e]; [|reflexivity].
  destruct (k v st) as [[r s2] t2]. reflexivity.
Qed.

Lemma bind__update_blink_detection {B} (k : unit -> T B) (st : EyeTracker) :
  bind _update_blink_detection k st =
  let o := _update_blink_detection st in
  let o' := k tt (state_of o) in
  (value_of o', state_of o', trace_of o ++ trace_of o').
Proof.
  cbv zeta. unfold bind.
  pose proof (_update_blink_detection_returns st) as Hv.
  destruct (_update_blink_detection st) as [[v s1] t1].
  unfold value_of in Hv; cbn [fst] in Hv. subst v.
  change (state_of (Ok tt, s1, t1)) with s1.
  destruct (k tt s1) as [[r s2] t2]. reflexivity.
Qed.

(** The [try]/[except] around the body of [process_frame], and its
    [return]. *)
Lemma guarded_body (body : T unit) (st : EyeTracker) :
  (try_except body (fun e => emit (LogError e)) ;;
   self <- get ;; ret (data self)) st =
  match body st with
  | (Ok _, s1, t1) => (Ok (data s1), s1, t1)
  | (Raise e, s1, t1) => (Ok (data s1), s1, t1 ++ [LogError e])
  end.
Proof.
  unfold bind, try_except, get, ret, emit.
  destruct (body st) as [[[[]|e] s1] t1]; rewrite app_nil_r; reflexivity.
Qed.

Lemma process_frame_paths (frame : detection) (st : EyeTracker) :
  process_frame frame st = tick_outcome frame st.
Proof.
  unfold process_frame. rewrite guarded_body.
  unfold tick_outcome, _draw_overlays, face_mesh_process.
  mstep. mstep.
  cbn [_frame_skip_counter set_frame_skip_counter config].
  destruct (MAX_FRAME_SKIP (config st) <=? _frame_skip_counter st + 1).
  - mstep. mstep.
    change (set_frame_skip_counter 0 (set_frame_skip_counter _ st))
      with (set_frame_skip_counter 0 st).
    destruct frame as [face| |e].
    + mstep.
      destruct (extract face (LEFT_EYE_INDICES (config st))) as [left_eye|e];
        [mstep | reflexivity].
      destruct (extract face (RIGHT_EYE_INDICES (config st))) as [right_eye|e];
        [mstep | reflexivity].
      mstep. mstep. mstep.
      fold (with_landmarks left_eye right_eye (set_frame_skip_counter 0 st)).
      set (st1 := with_landmarks left_eye right_eye (set_frame_skip_counter 0 st)).
      rewrite ?bind_assoc, bind__calculate_ear.
      destruct (ear_of left_eye) as [l|e]; [|reflexivity].
      mstep.
      rewrite ?bind_assoc, bind__calculate_ear.
      destruct (ear_of right_eye) as [r|e]; [|reflexivity].
      mstep. mstep.
      fold (with_ears l r st1).
      rewrite bind__update_blink_detection. cbv zeta.
      mstep. rewrite _notify_eye_data_updated_trace.
      reflexivity.
    + mstep. mstep.
      cbn [_last_valid_landmarks set_frame_skip_counter].
      destruct (_last_valid_landmarks st) as [[left_eye right_eye]|].
      * mstep. mstep. mstep. rewrite _notify_eye_data_updated_trace.
        reflexivity.
      * mstep. mstep. rewrite _notify_eye_data_updated_trace. reflexivity.
    + reflexivity.
  - mstep. mstep. rewrite _notify_eye_data_updated_trace. reflexivity.
Qed.
End Tick.

(** ** The tick loop *)

Section TickLoop.
Import Config Tracker.

Lemma process_frame_returns (frame : detection) (st : EyeTracker) :
  value_of (process_frame frame st)
  = Ok (data (state_of (process_frame frame st))).
Proof.
  rewrite process_frame_paths. unfold tick_outcome, aborted, completed.
  repeat match goal with
         | |- context [if ?b then _ else _] => destruct b
         | |- context [match ?x with _ => _ end] => destruct x
         end; reflexivity.
Qed.

Lemma run_cons (frame : detection) (rest : list detection) (st : EyeTracker) :
  run (frame :: rest) st =
  (let o := process_frame frame st in
   let o' := run rest (state_of o) in
   (value_of o', state_of o', trace_of o ++ trace_of o')).
Proof.
  cbv zeta. unfold run; simpl. rewrite bind_assoc. unfold bind at 1.
  pose proof (process_frame_returns frame st) as Hv.
  destruct (process_frame frame st) as [[v s1] t1].
  unfold value_of, state_of in Hv; cbn [fst snd] in Hv. subst v.
  change (state_of (Ok (data s1), s1, t1)) with s1.
  change (trace_of (Ok (data s1), s1, t1)) with t1.
  rewrite bind_ret.
  destruct (for_each rest _ s1) as [[r2 s2] t2]. reflexivity.
Qed.

Lemma run_returns (frames : list detection) :
  forall st, value_of (run frames st) = Ok tt.
Proof.
  induction frames as [|f rest IH]; intros st; [reflexivity|].
  rewrite run_cons. cbv zeta. apply IH.
Qed.

Lemma run_app (xs ys : list detection) (st : EyeTracker) :
  run (xs ++ ys) st =
  (let o := run xs st in
   let o' := run ys (state_of o) in
   (value_of o', state_of o', trace_of o ++ trace_of o')).
Proof.
  cbv zeta. unfold run at 1. rewrite for_each_app.
  fold (run xs) (run ys).
  rewrite (bind_returning (run xs) _ tt) by apply run_returns.
  reflexivity.
Qed.
End TickLoop.

(** ** Reading a trace *)

Section Traces.
Import Config Tracker.

(** How often the Landmark Provider was invoked. *)
Fixpoint provider_calls (t : list event) : nat :=
  match t with
  | [] => 0
  | ProviderCalled :: t' => S (provider_calls t')
  | _ :: t' => provider_calls t'
  end.

(** The counts the observers selected by [keep] were handed through
    [on_blink_detected], in order. *)
Fixpoint counts_received (keep : nat -> bool) (t : list event) : list Z :=
  match t with
  | [] => []
  | CallBlinkDetected o c :: t' =>
      if keep o then c :: counts_received keep t' else counts_received keep t'
  | _ :: t' => counts_received keep t'
  end.

Lemma provider_calls_app (t1 t2 : list event) :
  provider_calls (t1 ++ t2) = (provider_calls t1 + provider_calls t2)%nat.
Proof.
  induction t1 as [|e t1 IH]; simpl; [reflexivity|].
  destruct e; simpl; rewrite IH; reflexivity.
Qed.

Lemma counts_received_app (keep : nat -> bool) (t1 t2 : list event) :
  counts_received keep (t1 ++ t2)
  = counts_received keep t1 ++ counts_received keep t2.
Proof.
  induction t1 as [|e t1 IH]; simpl; [reflexivity|].
  destruct e; simpl; rewrite ?IH; try reflexivity.
  destruct (keep obs); simpl; rewrite ?IH; reflexivity.
Qed.

Lemma provider_calls_blink_deliveries (c : Z) (os : list EyeTrackingObserver) :
  provider_calls (flat_map (blink_delivery c) os) = 0%nat.
Proof.
  induction os as [|o os IH]; simpl; [reflexivity|].
  destruct (on_blink_detected o c); simpl; exact IH.
Qed.

Lemma eye_data_deliveries_silent (l r a : float) (os : list EyeTrackingObserver) :
  let t := flat_map (eye_data_delivery l r a) os in
  provider_calls t = 0%nat /\ blink_events t = 0%nat /\
  published_counts t = [] /\ forall keep, counts_received keep t = [].
Proof.
  cbv zeta. induction os as [|o os IH]; simpl.
  - repeat split.
  - destruct (on_eye_data_updated o l r a); simpl; exact IH.
Qed.

Lemma provider_calls_eye_data_events (st : EyeTracker) :
  provider_calls (eye_data_events st) = 0%nat.
Proof. unfold eye_data_events; simpl. apply eye_data_deliveries_silent. Qed.

Lemma blink_events_eye_data_events (st : EyeTracker) :
  blink_events (eye_data_events st) = 0%nat.
Proof. unfold eye_data_events; simpl. apply eye_data_deliveries_silent. Qed.

Lemma published_counts_eye_data_events (st : EyeTracker) :
  published_counts (eye_data_events st) = [].
Proof. unfold eye_data_events; simpl. apply eye_data_deliveries_silent. Qed.

Lemma counts_received_eye_data_events (keep : nat -> bool) (st : EyeTracker) :
  counts_received keep (eye_data_events st) = [].
Proof. unfold eye_data_events; simpl. apply eye_data_deliveries_silent. Qed.

(** Every count handed out while one blink is published is that blink's
    count. *)
Lemma counts_received_blink_deliveries (keep : nat -> bool) (c : Z)
      (os : list EyeTrackingObserver) :
  Forall (eq c) (counts_received keep (flat_map (blink_delivery c) os)).
Proof.
  induction os as [|o os IH]; simpl; [constructor|].
  destruct (keep (obs_id o)), (on_blink_detected o c); simpl;
    try constructor; auto.
Qed.
End Traces.

Create Rewrite HintDb trace.
#[local] Hint Rewrite
  provider_calls_app blink_events_app published_counts_app counts_received_app
  provider_calls_blink_deliveries blink_events_deliveries
  published_counts_deliveries
  provider_calls_eye_data_events blink_events_eye_data_events
  published_counts_eye_data_events counts_received_eye_data_events
  app_nil_r : trace.

#[global] Arguments eye_data_events : simpl never.

(** Every path through one tick: rewrite [process_frame] to its outcome and
    split on each test the outcome makes. *)
Ltac tick_paths :=
  rewrite ?process_frame_paths;
  unfold tick_outcome, aborted, completed;
  repeat first
    [ rewrite _update_blink_detection_cases
    | match goal with
      | |- context [if ?b then _ else _] => destruct b eqn:?
      | |- context [match ?x with _ => _ end] => destruct x eqn:?
      end ];
  unfold state_of, trace_of, value_of; cbn [fst snd].

(** What a trace holds, computed through the constructors and the lemmas
    of the [trace] database. *)
Ltac trace_simpl :=
  repeat progress
    (cbn [provider_calls blink_events published_counts counts_received app];
     autorewrite with trace).

(** ** The Frame Scheduler *)

Section FrameScheduler.
Import Config Tracker.

(** What one tick does to the skip counter, and whether it invokes the
    provider, whatever the frame holds. *)
Lemma tick_schedule (frame : detection) (st : EyeTracker) :
  let c := _frame_skip_counter st + 1 in
  let o := process_frame frame st in
  config (state_of o) = config st /\
  _frame_skip_counter (state_of o)
  = (if MAX_FRAME_SKIP (config st) <=? c then 0 else c) /\
  provider_calls (trace_of o)
  = (if (MAX_FRAME_SKIP (config st) <=? c)%Z then 1 else 0)%nat.
Proof.
  cbv zeta. tick_paths; trace_simpl; repeat split; reflexivity.
Qed.

Lemma run_config (frames : list detection) :
  forall st : EyeTracker, config (state_of (run frames st)) = config st.
Proof.
  induction frames as [|f rest IH]; intros st; [reflexivity|].
  rewrite run_cons. cbv zeta.
  change (state_of (?v, ?s, ?t)) with s.
  rewrite IH. apply tick_schedule.
Qed.

(** Over a run of ticks the skip counter counts modulo [MAX_FRAME_SKIP],
    and the provider is invoked once each time it wraps. *)
Lemma run_schedule (frames : list detection) :
  forall st : EyeTracker,
    1 <= MAX_FRAME_SKIP (config st) ->
    0 <= _frame_skip_counter st < MAX_FRAME_SKIP (config st) ->
    let m := MAX_FRAME_SKIP (config st) in
    let n := _frame_skip_counter st + Z.of_nat (length frames) in
    let o := run frames st in
    config (state_of o) = config st /\
    _frame_skip_counter (state_of o) = n mod m /\
    Z.of_nat (provider_calls (trace_of o)) = n / m.
Proof.
  induction frames as [|f rest IH]; intros st Hm Hc; cbv zeta.
  - cbn [run for_each length Z.of_nat]. unfold ret, state_of, trace_of.
    cbn [fst snd provider_calls]. rewrite Z.add_0_r.
    rewrite Z.mod_small, Z.div_small by lia. repeat split.
  - rewrite run_cons. cbv zeta.
    change (state_of (?v, ?s, ?t)) with s.
    change (trace_of (?v, ?s, ?t)) with t.
    destruct (tick_schedule f st) as (Hcfg & Hskip & Hcalls).
    set (st1 := state_of (process_frame f st)) in *.
    assert (Hc1 : 0 <= _frame_skip_counter st1 < MAX_FRAME_SKIP (config st1)).
    { rewrite Hcfg, Hskip.
      destruct (Z.leb_spec (MAX_FRAME_SKIP (config st))
                           (_frame_skip_counter st + 1)); lia. }
    assert (Hm1 : 1 <= MAX_FRAME_SKIP (config st1)) by (rewrite Hcfg; exact Hm).
    destruct (IH st1 Hm1 Hc1) as (Hcfg' & Hskip' & Hcalls').
    rewrite provider_calls_app, Nat2Z.inj_add, Hcalls, Hcalls', Hskip', Hcfg'.
    rewrite Hcfg, Hskip.
    replace (Z.of_nat (length (f :: rest)))
      with (1 + Z.of_nat (length rest)) by (cbn [length]; lia).
    set (m := MAX_FRAME_SKIP (config st)) in *.
    set (c := _frame_skip_counter st) in *.
    set (len := Z.of_nat (length rest)).
    split; [reflexivity|].
    destruct (Z.leb_spec m (c + 1)).
    + replace (c + (1 + len)) with (len + 1 * m) by lia.
      rewrite Z.mod_add, Z.div_add by lia.
      rewrite !Z.add_0_l. change (Z.of_nat 1) with 1.
      split; [reflexivity|lia].
    + replace (c + (1 + len)) with (c + 1 + len) by lia.
      change (Z.of_nat 0) with 0.
      split; [reflexivity|lia].
Qed.

(** With [MAX_FRAME_SKIP] at most 1 every tick invokes the provider. *)
Lemma run_every_tick (frames : list detection) :
  forall st : EyeTracker,
    MAX_FRAME_SKIP (config st) <= 1 ->
    0 <= _frame_skip_counter st ->
    let o := run frames st in
    provider_calls (trace_of o) = length frames /\
    0 <= _frame_skip_counter (state_of o).
Proof.
  induction frames as [|f rest IH]; intros st Hm Hc; cbv zeta.
  - split; [reflexivity|exact Hc].
  - rewrite run_cons. cbv zeta.
    change (state_of (?v, ?s, ?t)) with s.
    change (trace_of (?v, ?s, ?t)) with t.
    destruct (tick_schedule f st) as (Hcfg & Hskip & Hcalls).
    destruct (Z.leb_spec (MAX_FRAME_SKIP (config st))
                         (_frame_skip_counter st + 1)); [|lia].
    destruct (IH (state_of (process_frame f st))) as (Hcalls' & Hskip').
    { rewrite Hcfg. exact Hm. }
    { rewrite Hskip. lia. }
    rewrite provider_calls_app, Hcalls, Hcalls'.
    split; [reflexivity|exact Hskip'].
Qed.

(** C7.  A tracker whose skip counter is 0 (a new one) is run on any
    frames, then on a window of further frames.  If [MAX_FRAME_SKIP >= 1]
    and the window is [MAX_FRAME_SKIP] ticks long, exactly one tick of the
    window invokes the Landmark Provider; if [MAX_FRAME_SKIP = 0], every
    tick of the window does. *)
Theorem frame_scheduler_one_tick_in_max_frame_skip
        (st : EyeTracker) (before window : list detection) :
  _frame_skip_counter st = 0 ->
  let m := MAX_FRAME_SKIP (config st) in
  let o := run window (state_of (run before st)) in
  (1 <= m -> Z.of_nat (length window) = m ->
   provider_calls (trace_of o) = 1%nat) /\
  (m = 0 -> provider_calls (trace_of o) = length window).
Proof.
  intros Hc m o. split.
  - intros Hm Hlen.
    destruct (run_schedule before st Hm) as (Hcfg & Hskip & _);
      [rewrite Hc; fold m; lia|].
    set (st1 := state_of (run before st)) in *.
    assert (Hc1 : 0 <= _frame_skip_counter st1 < MAX_FRAME_SKIP (config st1)).
    { rewrite Hcfg, Hskip. apply Z.mod_pos_bound. lia. }
    destruct (run_schedule window st1) as (_ & _ & Hcalls);
      [rewrite Hcfg; exact Hm|exact Hc1|].
    fold o in Hcalls. rewrite Hlen, Hcfg in Hcalls. fold m in Hcalls.
    rewrite Hcfg in Hc1. fold m in Hc1.
    replace (_frame_skip_counter st1 + m)
      with (_frame_skip_counter st1 + 1 * m) in Hcalls by lia.
    rewrite Z.div_add, Z.div_small in Hcalls by lia. lia.
  - intros Hm.
    destruct (run_every_tick before st) as (_ & Hskip); [fold m; lia|lia|].
    destruct (run_every_tick window (state_of (run before st)))
      as (Hcalls & _); [|exact Hskip|exact Hcalls].
    rewrite run_config. fold m. lia.
Qed.

Lemma frame_scheduler_one_tick_in_max_frame_skip_witness :
  let st3 := __init__ (with_MAX_FRAME_SKIP 3 defaults) in
  let st0 := __init__ defaults in
  let window := [NoDetection; NoDetection; NoDetection] in
  _frame_skip_counter st3 = 0 /\
  1 <= MAX_FRAME_SKIP (config st3) /\
  Z.of_nat (length window) = MAX_FRAME_SKIP (config st3) /\
  provider_calls
    (trace_of (run window (state_of (run [NoDetection] st3)))) = 1%nat /\
  _frame_skip_counter st0 = 0 /\
  MAX_FRAME_SKIP (config st0) = 0 /\
  provider_calls
    (trace_of (run window (state_of (run [NoDetection] st0))))
  = length window.
Proof.
  cbv zeta.
  split; [reflexivity|]. split; [discriminate|]. split; [reflexivity|].
  split.
  { exact (proj1 (frame_scheduler_one_tick_in_max_frame_skip
                    (__init__ (with_MAX_FRAME_SKIP 3 defaults))
                    [NoDetection] [NoDetection; NoDetection; NoDetection]
                    eq_refl)
                 ltac:(discriminate) eq_refl). }
  split; [reflexivity|]. split; [reflexivity|].
  exact (proj2 (frame_scheduler_one_tick_in_max_frame_skip
                  (__init__ defaults)
                  [NoDetection] [NoDetection; NoDetection; NoDetection]
                  eq_refl)
               eq_refl).
Defined.
End FrameScheduler.

(** ** The blink count over the life of a tracker *)

Section BlinkCount.
Import Config Tracker.

(** [l] never decreases, starts at or above [lo] and ends at or below
    [hi]. *)
Fixpoint nondecreasing_between (lo hi : Z) (l : list Z) : Prop :=
  match l with
  | [] => lo <= hi
  | c :: l' => lo <= c /\ nondecreasing_between c hi l'
  end.

Lemma nondecreasing_between_app (lo mid hi : Z) (l1 l2 : list Z) :
  nondecreasing_between lo mid l1 ->
  nondecreasing_between mid hi l2 ->
  nondecreasing_between lo hi (l1 ++ l2).
Proof.
  revert lo. induction l1 as [|c l1 IH]; intros lo H1 H2; simpl in *.
  - destruct l2 as [|c2 l2]; simpl in *; [lia|].
    split; [lia|apply H2].
  - split; [apply H1|]. apply IH; [apply H1|exact H2].
Qed.

Lemma nondecreasing_between_const (lo hi c : Z) (l : list Z) :
  Forall (eq c) l -> lo <= c <= hi -> nondecreasing_between lo hi l.
Proof.
  intros Hall. revert lo.
  induction Hall as [|x l Hx _ IH]; intros lo Hc; simpl; [lia|].
  subst x. split; [lia|]. apply IH. lia.
Qed.

Lemma nondecreasing_between_sorted (lo hi : Z) (l : list Z) :
  nondecreasing_between lo hi l ->
  lo <= hi /\ Forall (fun c => lo <= c <= hi) l /\ StronglySorted Z.le l.
Proof.
  revert lo. induction l as [|c l IH]; intros lo H; simpl in H.
  - repeat split; [exact H|constructor|constructor].
  - destruct H as [Hlo H]. destruct (IH c H) as (Hle & Hall & Hsorted).
    split; [lia|]. split.
    + constructor; [lia|].
      eapply Forall_impl; [|exact Hall]. cbv beta. intros; lia.
    + constructor; [exact Hsorted|].
      eapply Forall_impl; [|exact Hall]. cbv beta. intros; lia.
Qed.

(** One tick: the count does not go down, and what is published or handed
    to observers lies between the old count and the new one. *)
Lemma tick_blink_count (keep : nat -> bool) (frame : detection)
      (st : EyeTracker) :
  let o := process_frame frame st in
  nondecreasing_between (blink_count (data st))
    (blink_count (data (state_of o))) (published_counts (trace_of o)) /\
  nondecreasing_between (blink_count (data st))
    (blink_count (data (state_of o))) (counts_received keep (trace_of o)).
Proof.
  cbv zeta. tick_paths; trace_simpl;
    cbn [nondecreasing_between blink_count data with_ears with_landmarks
         on_data set_frame_skip_counter set_frame_counter count_blink
         set_blink_count set_avg_ear set_left_ear set_right_ear
         set_left_eye_landmarks set_right_eye_landmarks
         set_last_valid_landmarks observers];
    try (split; lia).
  split; [lia|].
  eapply nondecreasing_between_const;
    [apply counts_received_blink_deliveries|lia].
Qed.

Lemma run_blink_count (keep : nat -> bool) (frames : list detection) :
  forall st : EyeTracker,
    let o := run frames st in
    nondecreasing_between (blink_count (data st))
      (blink_count (data (state_of o))) (published_counts (trace_of o)) /\
    nondecreasing_between (blink_count (data st))
      (blink_count (data (state_of o))) (counts_received keep (trace_of o)).
Proof.
  induction frames as [|f rest IH]; intros st; cbv zeta.
  - cbn. lia.
  - rewrite run_cons. cbv zeta.
    change (state_of (?v, ?s, ?t)) with s.
    change (trace_of (?v, ?s, ?t)) with t.
    destruct (tick_blink_count keep f st) as [Hp Hr].
    destruct (IH (state_of (process_frame f st))) as [Hp' Hr'].
    rewrite published_counts_app, counts_received_app.
    split; eapply nondecreasing_between_app; eassumption.
Qed.

(** C8.  Run a tracker on any frames, then on any further frames:
    [blink_count] after the longer run is at least what it was after the
    shorter one, which is at least what it was at the start.  The counts
    published over the whole run, and the counts any observer (any set of
    observers [keep]) is handed through [on_blink_detected], never
    decrease. *)
Theorem blink_count_never_decreases
        (st : EyeTracker) (before after : list detection)
        (keep : nat -> bool) :
  let st1 := state_of (run before st) in
  let o := run (before ++ after) st in
  blink_count (data st) <= blink_count (data st1) /\
  blink_count (data st1) <= blink_count (data (state_of o)) /\
  StronglySorted Z.le (published_counts (trace_of o)) /\
  StronglySorted Z.le (counts_received keep (trace_of o)).
Proof.
  cbv zeta.
  destruct (run_blink_count keep (before ++ after) st) as [Hp Hr].
  apply nondecreasing_between_sorted in Hp, Hr.
  destruct (run_blink_count keep before st) as [Hb _].
  apply nondecreasing_between_sorted in Hb.
  split; [apply Hb|]. split; [|split; [apply Hp|apply Hr]].
  rewrite run_app. cbv zeta.
  change (state_of (?v, ?s, ?t)) with s.
  destruct (run_blink_count keep after (state_of (run before st))) as [Ha _].
  apply nondecreasing_between_sorted in Ha. apply Ha.
Qed.
End BlinkCount.

(** ** Ticks without a fresh detection *)

Section StaleTicks.
Import Config Tracker.

(** A tick the Frame Scheduler skips. *)
Lemma process_frame_skipped (frame : detection) (st : EyeTracker) :
  _frame_skip_counter st + 1 < MAX_FRAME_SKIP (config st) ->
  process_frame frame st =
  let st' := set_frame_skip_counter (_frame_skip_counter st + 1) st in
  (Ok (data st), st', eye_data_events st').
Proof.
  intros Hskip. rewrite process_frame_paths. unfold tick_outcome.
  destruct (Z.leb_spec (MAX_FRAME_SKIP (config st))
                       (_frame_skip_counter st + 1)); [lia|reflexivity].
Qed.

(** A tick on which the provider is asked and finds no face. *)
Lemma process_frame_no_detection (st : EyeTracker) :
  MAX_FRAME_SKIP (config st) <= _frame_skip_counter st + 1 ->
  process_frame NoDetection st =
  let st0 := set_frame_skip_counter 0 st in
  match _last_valid_landmarks st with
  | Some (left_eye, right_eye) =>
      completed (on_data (set_right_eye_landmarks right_eye)
                   (on_data (set_left_eye_landmarks left_eye) st0)) []
  | None => completed st0 []
  end.
Proof.
  intros Hrun. rewrite process_frame_paths. unfold tick_outcome.
  destruct (Z.leb_spec (MAX_FRAME_SKIP (config st))
                       (_frame_skip_counter st + 1)); [reflexivity|lia].
Qed.

(** C3.  On a tick the Frame Scheduler skips, or on which the Landmark
    Provider reports no detection, [blink_count], the counter of
    consecutive closed-eye samples, the three EAR fields and the landmark
    cache are unchanged and no blink is published: the Blink Detector is
    not fed.  A skipped tick leaves the whole snapshot as it was; a
    no-detection tick with a cached pair changes the snapshot in its two
    landmark fields only, which take the cached pair, and one with an
    empty cache changes nothing of it. *)
Theorem stale_tick_keeps_blink_state (frame : detection) (st : EyeTracker) :
  let o := process_frame frame st in
  let st' := state_of o in
  (_frame_skip_counter st + 1 < MAX_FRAME_SKIP (config st)
   \/ frame = NoDetection) ->
  (blink_count (data st') = blink_count (data st) /\
   frame_counter st' = frame_counter st /\
   left_ear (data st') = left_ear (data st) /\
   right_ear (data st') = right_ear (data st) /\
   avg_ear (data st') = avg_ear (data st) /\
   _last_valid_landmarks st' = _last_valid_landmarks st /\
   blink_events (trace_of o) = 0%nat) /\
  (_frame_skip_counter st + 1 < MAX_FRAME_SKIP (config st) ->
   data st' = data st /\ provider_calls (trace_of o) = 0%nat) /\
  (MAX_FRAME_SKIP (config st) <= _frame_skip_counter st + 1 ->
   data st' =
   match _last_valid_landmarks st with
   | Some (left_eye, right_eye) =>
       set_right_eye_landmarks right_eye
         (set_left_eye_landmarks left_eye (data st))
   | None => data st
   end).
Proof.
  cbv zeta. intros Hstale.
  destruct (Z.leb_spec (MAX_FRAME_SKIP (config st))
                       (_frame_skip_counter st + 1)) as [Hrun|Hskip].
  - destruct Hstale as [Hskip| ->]; [lia|].
    rewrite process_frame_no_detection by exact Hrun. cbv zeta.
    destruct (_last_valid_landmarks st) as [[left_eye right_eye]|] eqn:Hcache;
      unfold completed, state_of, trace_of; cbn [fst snd];
      trace_simpl; cbn; rewrite ?Hcache;
      (split; [repeat split|split; [intros; lia|reflexivity]]).
  - rewrite process_frame_skipped by exact Hskip. cbv zeta.
    unfold state_of, trace_of; cbn [fst snd]. trace_simpl. cbn.
    split; [repeat split|split; [intros; split; reflexivity|intros; lia]].
Qed.

Lemma stale_tick_keeps_blink_state_witness :
  let cached : list point * list point :=
    ([(0, 5); (3, 8); (7, 8); (10, 5); (7, 2); (3, 2)],
     [(20, 5); (23, 8); (27, 8); (30, 5); (27, 2); (23, 2)]) in
  let st := set_last_valid_landmarks cached (__init__ defaults) in
  let st3 := __init__ (with_MAX_FRAME_SKIP 3 defaults) in
  (_frame_skip_counter st3 + 1 < MAX_FRAME_SKIP (config st3)) /\
  data (state_of (process_frame (Detected []) st3)) = data st3 /\
  MAX_FRAME_SKIP (config st) <= _frame_skip_counter st + 1 /\
  data (state_of (process_frame NoDetection st)) =
  set_right_eye_landmarks (snd cached)
    (set_left_eye_landmarks (fst cached) (data st)).
Proof.
  cbv zeta.
  split; [reflexivity|]. split.
  { exact (proj1 (proj1 (proj2 (stale_tick_keeps_blink_state
                                  (Detected [])
                                  (__init__ (with_MAX_FRAME_SKIP 3 defaults))
                                  (or_introl eq_refl)))
                        eq_refl)). }
  split; [discriminate|].
  exact (proj2 (proj2 (stale_tick_keeps_blink_state NoDetection
                         (set_last_valid_landmarks
                            ([(0, 5); (3, 8); (7, 8); (10, 5); (7, 2); (3, 2)],
                             [(20, 5); (23, 8); (27, 8); (30, 5); (27, 2); (23, 2)])
                            (__init__ defaults))
                         (or_intror eq_refl)))
               ltac:(discriminate)).
Defined.
End StaleTicks.

(** ** An eye of zero width *)

Section DegenerateGeometry.
Import Config Tracker.

(** Dividing by twice a zero distance gives an infinity or NaN. *)
Lemma div_by_twice_zero (x c : float) :
  F.is_zero c = true ->
  F.is_inf (F.div x (F.mul (F.of_Z 2) c))
  || F.is_nan (F.div x (F.mul (F.of_Z 2) c)) = true.
Proof.
  destruct c as [s| | |]; try discriminate. intros _.
  destruct x as [sx|sx| |sx m e]; destruct s; vm_compute; reflexivity.
Qed.

(** A face of 478 landmarks with the given points at the given indices. *)
Fixpoint set_nth {A} (n : nat) (x : A) (l : list A) : list A :=
  match n, l with
  | O, _ :: t => x :: t
  | S n', h :: t => h :: set_nth n' x t
  | _, [] => []
  end.

Definition place (indices : list Z) (pts face : list point) : list point :=
  fold_left (fun f ip => set_nth (Z.to_nat (fst ip)) (snd ip) f)
            (combine indices pts) face.

Definition face_of (left_eye right_eye : list point) : list point :=
  place (RIGHT_EYE_INDICES defaults) right_eye
    (place (LEFT_EYE_INDICES defaults) left_eye (repeat (0, 0) 478)).

(** Eyes 10 pixels wide: nearly closed (EAR 0.1), and with both corners
    on one pixel. *)
Definition closed_eye (x : Z) : list point :=
  [(x, 5); (x + 3, 6); (x + 7, 6); (x + 10, 5); (x + 7, 5); (x + 3, 5)].

Definition zero_width_eye (x : Z) : list point :=
  [(x, 5); (x + 3, 6); (x + 7, 6); (x, 5); (x + 7, 5); (x + 3, 5)].

(** The errors logged by [process_frame]. *)
Fixpoint errors (t : list event) : list exn :=
  match t with
  | [] => []
  | LogError e :: t' => e :: errors t'
  | _ :: t' => errors t'
  end.

(** C5 as worded fails: after two frames with nearly closed eyes, a frame
    whose left eye has zero width makes the calculator return +infinity
    without any error, the infinity is stored, and the Blink Detector
    takes the frame as an open-eye sample and counts a blink. *)
Lemma zero_width_eye_returns_infinity :
  let closed := Detected (face_of (closed_eye 0) (closed_eye 20)) in
  let degenerate := Detected (face_of (zero_width_eye 0) (closed_eye 20)) in
  let st := state_of (run [closed; closed] (__init__ defaults)) in
  let o := process_frame degenerate st in
  (frame_counter st = 2 /\ blink_count (data st) = 0) /\
  _euclidean_dist (0, 5) (0, 5) = F.zero /\
  _calculate_ear (zero_width_eye 0) st = (Ok F.pinf, st, []) /\
  errors (trace_of o) = [] /\
  left_ear (data (state_of o)) = F.pinf /\
  avg_ear (data (state_of o)) = F.pinf /\
  frame_counter (state_of o) = 0 /\
  blink_count (data (state_of o)) = 1 /\
  published_counts (trace_of o) = [1].
Proof. vm_compute. repeat split. Qed.

(** C5, as the code has it.  When the horizontal eye width
    [dist(p0,p3)] is zero, the EAR Calculator raises nothing: it returns
    the float64 quotient, an infinity or NaN, and leaves the tracker as
    it was.  A processed frame whose left eye is such a set is not
    skipped: [process_frame] caches and stores the landmarks, stores the
    ratios and their mean, and runs the Blink Detector on that mean. *)
Theorem zero_width_eye_is_fed_to_the_detector
        (st : EyeTracker) (p0 p1 p2 p3 p4 p5 : point) :
  F.is_zero (_euclidean_dist p0 p3) = true ->
  let eye := [p0; p1; p2; p3; p4; p5] in
  (exists v : float,
      _calculate_ear eye st = (Ok v, st, []) /\
      F.is_inf v || F.is_nan v = true) /\
  (forall (face right_eye : list point) (l r : float),
      MAX_FRAME_SKIP (config st) <= _frame_skip_counter st + 1 ->
      extract face (LEFT_EYE_INDICES (config st)) = Ok eye ->
      extract face (RIGHT_EYE_INDICES (config st)) = Ok right_eye ->
      ear_of eye = Ok l ->
      ear_of right_eye = Ok r ->
      let fed := _update_blink_detection
                   (with_ears l r
                      (with_landmarks eye right_eye
                         (set_frame_skip_counter 0 st))) in
      process_frame (Detected face) st
      = completed (state_of fed) (trace_of fed)).
Proof.
  intros Hzero eye. split.
  - exists (EAR p0 p1 p2 p3 p4 p5). split.
    + rewrite _calculate_ear_pure. reflexivity.
    + apply div_by_twice_zero. exact Hzero.
  - intros face right_eye l r Hrun Hleft Hright Hl Hr. cbv zeta.
    rewrite process_frame_paths. unfold tick_outcome.
    destruct (Z.leb_spec (MAX_FRAME_SKIP (config st))
                         (_frame_skip_counter st + 1)); [|lia].
    rewrite Hleft, Hright, Hl, Hr. reflexivity.
Qed.

Lemma zero_width_eye_is_fed_to_the_detector_witness :
  let st := __init__ defaults in
  let eye := zero_width_eye 0 in
  let right_eye := closed_eye 20 in
  let face := face_of eye right_eye in
  F.is_zero (_euclidean_dist (0, 5) (0, 5)) = true /\
  (exists v : float,
      _calculate_ear eye st = (Ok v, st, []) /\
      F.is_inf v || F.is_nan v = true) /\
  MAX_FRAME_SKIP (config st) <= _frame_skip_counter st + 1 /\
  extract face (LEFT_EYE_INDICES (config st)) = Ok eye /\
  extract face (RIGHT_EYE_INDICES (config st)) = Ok right_eye /\
  ear_of eye = Ok F.pinf /\
  ear_of right_eye = Ok (F.ratio 1 10) /\
  process_frame (Detected face) st
  = completed
      (state_of (_update_blink_detection
                   (with_ears F.pinf (F.ratio 1 10)
                      (with_landmarks eye right_eye
                         (set_frame_skip_counter 0 st)))))
      (trace_of (_update_blink_detection
                   (with_ears F.pinf (F.ratio 1 10)
                      (with_landmarks eye right_eye
                         (set_frame_skip_counter 0 st))))).
Proof.
  cbv zeta. split; [reflexivity|].
  pose proof (zero_width_eye_is_fed_to_the_detector
                (__init__ defaults)
                (0, 5) (0 + 3, 6) (0 + 7, 6) (0, 5) (0 + 7, 5) (0 + 3, 5)
                eq_refl) as [Hcalc Htick].
  split; [exact Hcalc|].
  split; [discriminate|].
  split; [vm_compute; reflexivity|].
  split; [vm_compute; reflexivity|].
  split; [vm_compute; reflexivity|].
  split; [vm_compute; reflexivity|].
  apply (Htick (face_of (zero_width_eye 0) (closed_eye 20)) (closed_eye 20)).
  - discriminate.
  - vm_compute; reflexivity.
  - vm_compute; reflexivity.
  - vm_compute; reflexivity.
  - vm_compute; reflexivity.
Defined.
End DegenerateGeometry.

(** ** The Blink-Rate Monitor *)

Section BlinkRateMonitor.
Import Config Notifier.

(** The rate the monitor computes when it evaluates a window (lines
    20-25): [None] while the check interval has not elapsed, and when the
    division raises. *)
Definition window_rate (self : NotificationManager) (w : world)
           (current_blink_count : Z) : option float :=
  let time_elapsed := total_seconds (now_check w - last_check_time self) in
  if F.leb (F.ratio (NOTIFICATION_CHECK_INTERVAL (config self)) 1000)
           time_elapsed
  then
    match py_float_div (F.of_Z (current_blink_count - last_blink_count self))
                       time_elapsed with
    | Ok q => Some (F.mul q (F.of_Z 60))
    | Raise _ => None
    end
  else None.

(** The rate is below [MIN_BLINKS_PER_MINUTE]. *)
Definition low (self : NotificationManager) (rate : float) : bool :=
  F.ltb rate (F.of_Z (MIN_BLINKS_PER_MINUTE (config self))).

Lemma _send_low_blink_notification_cases (w : world) (rate : float)
      (st : NotificationManager) :
  _send_low_blink_notification w rate st =
  if in_cooldown st (now_send w) then (Ok tt, st, [])
  else
    match sink w with
    | Returns =>
        (Ok tt, set_last_notification_time (Some (now_send w)) st,
         [NotifyCalled (now_send w) rate; NotificationSent (now_send w) rate])
    | Raises e =>
        (Ok tt, st, [NotifyCalled (now_send w) rate; LogError e])
    end.
Proof.
  unfold _send_low_blink_notification. rewrite bind_get.
  destruct (in_cooldown st (now_send w)); [reflexivity|].
  unfold try_except, bind, emit, call, modify, ret, raise.
  destruct (sink w); reflexivity.
Qed.

Lemma _send_low_blink_notification_returns (w : world) (rate : float)
      (st : NotificationManager) :
  value_of (_send_low_blink_notification w rate st) = Ok tt.
Proof.
  rewrite _send_low_blink_notification_cases.
  destruct (in_cooldown st (now_send w)); [reflexivity|].
  destruct (sink w); reflexivity.
Qed.

(** The ways through [check_blink_rate_and_notify]. *)
Lemma check_blink_rate_and_notify_cases (w : world) (count : Z)
      (st : NotificationManager) :
  check_blink_rate_and_notify w count st =
  let time_elapsed := total_seconds (now_check w - last_check_time st) in
  if F.leb (F.ratio (NOTIFICATION_CHECK_INTERVAL (config st)) 1000)
           time_elapsed
  then
    match py_float_div (F.of_Z (count - last_blink_count st)) time_elapsed with
    | Raise e => (Raise e, st, [])
    | Ok q =>
        let rate := F.mul q (F.of_Z 60) in
        let sent :=
          if low st rate then _send_low_blink_notification w rate st
          else (Ok tt, st, []) in
        (Ok tt, set_last_check count (now_check w) (state_of sent),
         LogRateCheck rate :: trace_of sent)
    end
  else (Ok tt, st, []).
Proof.
  unfold check_blink_rate_and_notify. rewrite bind_get. cbv zeta.
  destruct (F.leb _ _); [|reflexivity].
  destruct (py_float_div _ _) as [q|e]; [|reflexivity].
  rewrite bind_lift_Ok, bind_emit.
  unfold low. destruct (F.ltb _ _).
  - rewrite (bind_returning _ _ tt)
      by apply _send_low_blink_notification_returns.
    unfold modify, value_of, state_of, trace_of; cbn [fst snd].
    rewrite app_nil_r. reflexivity.
  - reflexivity.
Qed.

(** [alerts] follow one another at least [gap] apart, the first at least
    [gap] after [prev] when there is one, and the last is [final]. *)
Fixpoint chained (gap : Z) (prev : option Z) (l : list Z) (final : option Z)
  : Prop :=
  match l with
  | [] => final = prev
  | t :: l' =>
      match prev with Some p => gap <= t - p | None => True end
      /\ chained gap (Some t) l' final
  end.

Lemma chained_app (gap : Z) (l1 l2 : list Z) :
  forall prev mid final,
    chained gap prev l1 mid -> chained gap mid l2 final ->
    chained gap prev (l1 ++ l2) final.
Proof.
  induction l1 as [|t l1 IH]; intros prev mid final H1 H2; simpl in *.
  - subst mid. exact H2.
  - split; [apply H1|]. eapply IH; [apply H1|exact H2].
Qed.

Lemma chained_after (gap : Z) (l : list Z) :
  0 <= gap ->
  forall p final,
    chained gap (Some p) l final -> Forall (fun t => gap <= t - p) l.
Proof.
  intros Hgap. induction l as [|t l IH]; intros p final H; simpl in H.
  - constructor.
  - destruct H as [Hp H]. constructor; [exact Hp|].
    eapply Forall_impl; [|exact (IH t final H)].
    cbv beta. intros; lia.
Qed.

Lemma chained_spaced (gap : Z) (l : list Z) :
  0 <= gap ->
  forall prev final,
    chained gap prev l final ->
    StronglySorted (fun t t' => gap <= t' - t) l.
Proof.
  intros Hgap. induction l as [|t l IH]; intros prev final H; simpl in H.
  - constructor.
  - destruct H as [_ H]. constructor.
    + exact (IH _ _ H).
    + exact (chained_after gap l Hgap t final H).
Qed.

Lemma in_cooldown_false (st : NotificationManager) (t : Z) :
  in_cooldown st t = false ->
  match last_notification_time st with
  | Some p => notification_cooldown st <= t - p
  | None => True
  end.
Proof.
  unfold in_cooldown. destruct (last_notification_time st) as [p|]; [|trivial].
  destruct (Z.ltb_spec (t - p) (notification_cooldown st)); [discriminate|].
  intros _. assumption.
Qed.

(** One call keeps the cooldown and chains its alert, if any, to the one
    before. *)
Lemma check_blink_rate_and_notify_chained (w : world) (count : Z)
      (st : NotificationManager) :
  let o := check_blink_rate_and_notify w count st in
  notification_cooldown (state_of o) = notification_cooldown st /\
  chained (notification_cooldown st) (last_notification_time st)
    (alerts (trace_of o)) (last_notification_time (state_of o)).
Proof.
  cbv zeta. rewrite check_blink_rate_and_notify_cases. cbv zeta.
  destruct (F.leb _ _); [|split; reflexivity].
  destruct (py_float_div _ _) as [q|e]; [|split; reflexivity].
  destruct (low st _); [|split; reflexivity].
  rewrite _send_low_blink_notification_cases.
  destruct (in_cooldown st (now_send w)) eqn:Hcd; [split; reflexivity|].
  apply in_cooldown_false in Hcd.
  destruct (sink w); [|split; reflexivity].
  split; [reflexivity|].
  unfold state_of, trace_of; cbn. split; [exact Hcd|reflexivity].
Qed.

Lemma alerts_app (t1 t2 : list event) :
  alerts (t1 ++ t2) = alerts t1 ++ alerts t2.
Proof.
  induction t1 as [|e t1 IH]; simpl; [reflexivity|].
  destruct e; simpl; rewrite IH; reflexivity.
Qed.

Lemma guarded_check (w : world) (count : Z) (st : NotificationManager) :
  try_except (check_blink_rate_and_notify w count) (fun _ => ret tt) st =
  (Ok tt, state_of (check_blink_rate_and_notify w count st),
   trace_of (check_blink_rate_and_notify w count st)).
Proof.
  unfold try_except. rewrite check_blink_rate_and_notify_cases. cbv zeta.
  destruct (F.leb _ _); [|reflexivity].
  destruct (py_float_div _ _) as [q|e]; reflexivity.
Qed.

Lemma check_all_cons (c : world * Z) (rest : list (world * Z))
      (st : NotificationManager) :
  check_all (c :: rest) st =
  (let o := check_blink_rate_and_notify (fst c) (snd c) st in
   let o' := check_all rest (state_of o) in
   (value_of o', state_of o', trace_of o ++ trace_of o')).
Proof.
  cbv zeta. unfold check_all. cbn [for_each].
  rewrite (bind_returning _ _ tt) by (rewrite guarded_check; reflexivity).
  rewrite guarded_check. reflexivity.
Qed.

Lemma check_all_chained (calls : list (world * Z)) :
  forall st : NotificationManager,
    let o := check_all calls st in
    notification_cooldown (state_of o) = notification_cooldown st /\
    chained (notification_cooldown st) (last_notification_time st)
      (alerts (trace_of o)) (last_notification_time (state_of o)).
Proof.
  induction calls as [|c rest IH]; intros st; cbv zeta.
  - split; reflexivity.
  - rewrite check_all_cons. cbv zeta.
    change (state_of (?v, ?s, ?t)) with s.
    change (trace_of (?v, ?s, ?t)) with t.
    destruct (check_blink_rate_and_notify_chained (fst c) (snd c) st)
      as [Hcd Hchain].
    destruct (IH (state_of (check_blink_rate_and_notify (fst c) (snd c) st)))
      as [Hcd' Hchain'].
    rewrite Hcd in Hcd', Hchain'.
    split; [exact Hcd'|].
    rewrite alerts_app. eapply chained_app; eassumption.
Qed.

(** C4.  When the monitor evaluates a window whose rate is below
    [MIN_BLINKS_PER_MINUTE]:
    - if the previous alert went out less than the cooldown before, the
      alert sink is not called and no alert is raised, whatever the rate;
    - if no alert went out before, or the cooldown has elapsed since, the
      sink is called, and when it accepts the alert the alert is raised
      and the cooldown restarts at that instant.
    Hence any two alerts raised over a session of the monitor are at
    least the cooldown apart.  The cooldown of a new monitor is 5
    minutes. *)
Theorem cooldown_gates_low_rate_alerts :
  (forall (st : NotificationManager) (w : world) (count : Z) (rate : float),
      window_rate st w count = Some rate ->
      low st rate = true ->
      let o := check_blink_rate_and_notify w count st in
      (forall t0 : Z,
          last_notification_time st = Some t0 ->
          now_send w - t0 < notification_cooldown st ->
          sink_calls (trace_of o) = [] /\
          alerts (trace_of o) = [] /\
          last_notification_time (state_of o) = Some t0) /\
      (last_notification_time st = None \/
       (exists t0 : Z,
           last_notification_time st = Some t0 /\
           notification_cooldown st <= now_send w - t0) ->
       sink_calls (trace_of o) = [now_send w] /\
       (sink w = Returns ->
        alerts (trace_of o) = [now_send w] /\
        last_notification_time (state_of o) = Some (now_send w)))) /\
  (forall (st : NotificationManager) (calls : list (world * Z)),
      0 <= notification_cooldown st ->
      StronglySorted (fun t t' => notification_cooldown st <= t' - t)
        (alerts (trace_of (check_all calls st)))) /\
  (forall (config : Configuration) (now : Z),
      notification_cooldown (__init__ config now) = minutes 5).
Proof.
  split; [|split].
  - intros st w count rate Hrate Hlow. cbv zeta.
    rewrite check_blink_rate_and_notify_cases. cbv zeta.
    unfold window_rate in Hrate.
    destruct (F.leb _ _); [|discriminate].
    destruct (py_float_div _ _) as [q|e]; [|discriminate].
    injection Hrate as Hrate. rewrite Hrate, Hlow.
    rewrite _send_low_blink_notification_cases.
    split.
    + intros t0 Hlast Hrecent.
      unfold in_cooldown. rewrite Hlast.
      destruct (Z.ltb_spec (now_send w - t0) (notification_cooldown st));
        [|lia].
      unfold state_of, trace_of; cbn. rewrite Hlast. repeat split.
    + intros Helapsed.
      assert (Hcd : in_cooldown st (now_send w) = false).
      { unfold in_cooldown.
        destruct Helapsed as [Hnone|(t0 & Hlast & Hgap)].
        - rewrite Hnone. reflexivity.
        - rewrite Hlast. apply Z.ltb_ge. exact Hgap. }
      rewrite Hcd.
      destruct (sink w) as [|e]; unfold state_of, trace_of; cbn.
      * repeat split.
      * split; [reflexivity|discriminate].
  - intros st calls Hcd.
    destruct (check_all_chained calls st) as [_ Hchain].
    eapply chained_spaced; eassumption.
  - reflexivity.
Qed.

(** The session of the specification: the count is checked 60 s after the
    start (5 blinks: 5 per minute, an alert), 60 s later (1 more blink, in
    the cooldown: no alert) and 300 s after the alert (an alert again). *)
Definition seconds (n : Z) : Z := n * 1000000.

Definition at_second (n count : Z) : world * Z :=
  ({| now_check := seconds n; now_send := seconds n; sink := Returns |}, count).

Example session_alerts :
  alerts (trace_of (check_all [at_second 60 5; at_second 120 6; at_second 360 7]
                      (__init__ defaults 0)))
  = [seconds 60; seconds 360].
Proof. vm_compute. reflexivity. Qed.

Lemma cooldown_gates_low_rate_alerts_witness :
  let st := set_last_notification_time (Some (seconds 60))
              (set_last_check 5 (seconds 60) (__init__ defaults 0)) in
  let within := fst (at_second 120 6) in
  let after := fst (at_second 360 7) in
  (window_rate st within 6 = Some (F.of_Z 1) /\ low st (F.of_Z 1) = true /\
   last_notification_time st = Some (seconds 60) /\
   now_send within - seconds 60 < notification_cooldown st /\
   alerts (trace_of (check_blink_rate_and_notify within 6 st)) = []) /\
  (notification_cooldown st <= now_send after - seconds 60 /\
   sink after = Returns /\
   alerts (trace_of (check_blink_rate_and_notify after 7 st))
   = [seconds 360]) /\
  (0 <= notification_cooldown st /\
   StronglySorted (fun t t' => notification_cooldown st <= t' - t)
     (alerts (trace_of (check_all [at_second 120 6; at_second 360 7] st)))).
Proof.
  cbv zeta.
  pose proof cooldown_gates_low_rate_alerts as (Hgate & Hspaced & _).
  split; [|split].
  - split; [vm_compute; reflexivity|]. split; [vm_compute; reflexivity|].
    split; [reflexivity|]. split; [reflexivity|].
    refine (proj1 (proj2 (proj1 (Hgate _ (fst (at_second 120 6)) 6 (F.of_Z 1)
                                   _ _) (seconds 60) _ _)));
      [vm_compute; reflexivity|vm_compute; reflexivity
      |reflexivity|reflexivity].
  - split; [discriminate|]. split; [reflexivity|].
    refine (proj1 (proj2 (proj2 (Hgate _ (fst (at_second 360 7)) 7
                                   (F.ratio 4 10) _ _) _) _));
      [vm_compute; reflexivity|vm_compute; reflexivity| |reflexivity].
    right. exists (seconds 60). split; [reflexivity|discriminate].
  - split; [discriminate|].
    apply Hspaced. discriminate.
Defined.
End BlinkRateMonitor.

(** ** Validation of the configuration *)

Section ConfigurationValidation.
Import Config.

(** A configuration with other values for the knobs [__post_init__] does
    not read. *)
Definition with_unchecked_knobs (consecutive_frames max_frame_skip
    min_blinks_per_minute notification_check_interval : Z)
    (left_eye_indices right_eye_indices : list Z) (c : Configuration)
  : Configuration :=
  {| EAR_THRESHOLD := EAR_THRESHOLD c;
     CONSECUTIVE_FRAMES := consecutive_frames;
     MAX_FACES := MAX_FACES c;
     MIN_DETECTION_CONFIDENCE := MIN_DETECTION_CONFIDENCE c;
     MIN_TRACKING_CONFIDENCE := MIN_TRACKING_CONFIDENCE c;
     MAX_FRAME_SKIP := max_frame_skip;
     MIN_BLINKS_PER_MINUTE := min_blinks_per_minute;
     NOTIFICATION_CHECK_INTERVAL := notification_check_interval;
     LEFT_EYE_INDICES := left_eye_indices;
     RIGHT_EYE_INDICES := right_eye_indices |}.

Definition with_EAR_THRESHOLD (x : float) (c : Configuration) : Configuration :=
  {| EAR_THRESHOLD := x;
     CONSECUTIVE_FRAMES := CONSECUTIVE_FRAMES c;
     MAX_FACES := MAX_FACES c;
     MIN_DETECTION_CONFIDENCE := MIN_DETECTION_CONFIDENCE c;
     MIN_TRACKING_CONFIDENCE := MIN_TRACKING_CONFIDENCE c;
     MAX_FRAME_SKIP := MAX_FRAME_SKIP c;
     MIN_BLINKS_PER_MINUTE := MIN_BLINKS_PER_MINUTE c;
     NOTIFICATION_CHECK_INTERVAL := NOTIFICATION_CHECK_INTERVAL c;
     LEFT_EYE_INDICES := LEFT_EYE_INDICES c;
     RIGHT_EYE_INDICES := RIGHT_EYE_INDICES c |}.

(** C6 as worded fails: a configuration with negative
    [CONSECUTIVE_FRAMES], [MAX_FRAME_SKIP] and [MIN_BLINKS_PER_MINUTE], a
    check interval of 0 and index lists of one and of no index is
    constructed without any error. *)
Lemma out_of_range_knobs_are_accepted :
  let c := with_unchecked_knobs (-1) (-1) (-5) 0 [33] [] defaults in
  CONSECUTIVE_FRAMES c = -1 /\
  MAX_FRAME_SKIP c = -1 /\
  MIN_BLINKS_PER_MINUTE c = -5 /\
  NOTIFICATION_CHECK_INTERVAL c = 0 /\
  length (LEFT_EYE_INDICES c) = 1%nat /\
  length (RIGHT_EYE_INDICES c) = 0%nat /\
  construct c = Ok c.
Proof. vm_compute. repeat split. Qed.

Lemma construct_cases (c : Configuration) :
  construct c =
  if between_0_and_1 (EAR_THRESHOLD c) then
    if between_0_and_1 (MIN_DETECTION_CONFIDENCE c) then
      if between_0_and_1 (MIN_TRACKING_CONFIDENCE c) then Ok c
      else Raise (ValueError
                    "MIN_TRACKING_CONFIDENCE must be between 0.0 and 1.0")
    else Raise (ValueError
                  "MIN_DETECTION_CONFIDENCE must be between 0.0 and 1.0")
  else Raise (ValueError "EAR_THRESHOLD must be between 0.0 and 1.0").
Proof.
  unfold construct, __post_init__.
  destruct (between_0_and_1 (EAR_THRESHOLD c)),
           (between_0_and_1 (MIN_DETECTION_CONFIDENCE c)),
           (between_0_and_1 (MIN_TRACKING_CONFIDENCE c)); reflexivity.
Qed.

(** C6, as the code has it.  Construction validates three knobs:
    [EAR_THRESHOLD], [MIN_DETECTION_CONFIDENCE] and
    [MIN_TRACKING_CONFIDENCE] must each lie in [0.0, 1.0].  The
    configuration is constructed exactly when all three do; otherwise the
    constructor raises a [ValueError] naming the first of them that does
    not.  [CONSECUTIVE_FRAMES], [MAX_FRAME_SKIP], [MIN_BLINKS_PER_MINUTE],
    the check interval and the two index lists are not looked at. *)
Theorem construction_validates_three_ratios (c : Configuration) :
  (construct c = Ok c <->
   between_0_and_1 (EAR_THRESHOLD c) = true /\
   between_0_and_1 (MIN_DETECTION_CONFIDENCE c) = true /\
   between_0_and_1 (MIN_TRACKING_CONFIDENCE c) = true) /\
  (between_0_and_1 (EAR_THRESHOLD c) = false ->
   construct c
   = Raise (ValueError "EAR_THRESHOLD must be between 0.0 and 1.0")) /\
  (between_0_and_1 (EAR_THRESHOLD c) = true ->
   between_0_and_1 (MIN_DETECTION_CONFIDENCE c) = false ->
   construct c
   = Raise (ValueError "MIN_DETECTION_CONFIDENCE must be between 0.0 and 1.0")) /\
  (between_0_and_1 (EAR_THRESHOLD c) = true ->
   between_0_and_1 (MIN_DETECTION_CONFIDENCE c) = true ->
   between_0_and_1 (MIN_TRACKING_CONFIDENCE c) = false ->
   construct c
   = Raise (ValueError "MIN_TRACKING_CONFIDENCE must be between 0.0 and 1.0")) /\
  (forall (cf mfs mbpm interval : Z) (left_eye right_eye : list Z),
      __post_init__
        (with_unchecked_knobs cf mfs mbpm interval left_eye right_eye c)
      = __post_init__ c).
Proof.
  split; [|split; [|split; [|split]]].
  - rewrite construct_cases.
    destruct (between_0_and_1 (EAR_THRESHOLD c)),
             (between_0_and_1 (MIN_DETECTION_CONFIDENCE c)),
             (between_0_and_1 (MIN_TRACKING_CONFIDENCE c));
      (split; [intros H; try discriminate H; repeat split
              |intros (H1 & H2 & H3); try discriminate; reflexivity]).
  - intros H1. rewrite construct_cases, H1. reflexivity.
  - intros H1 H2. rewrite construct_cases, H1, H2. reflexivity.
  - intros H1 H2 H3. rewrite construct_cases, H1, H2, H3. reflexivity.
  - reflexivity.
Qed.

Lemma construction_validates_three_ratios_witness :
  let bad := with_EAR_THRESHOLD (F.ratio 15 10) defaults in
  between_0_and_1 (EAR_THRESHOLD defaults) = true /\
  between_0_and_1 (MIN_DETECTION_CONFIDENCE defaults) = true /\
  between_0_and_1 (MIN_TRACKING_CONFIDENCE defaults) = true /\
  construct defaults = Ok defaults /\
  between_0_and_1 (EAR_THRESHOLD bad) = false /\
  construct bad
  = Raise (ValueError "EAR_THRESHOLD must be between 0.0 and 1.0").
Proof.
  cbv zeta.
  split; [vm_compute; reflexivity|]. split; [vm_compute; reflexivity|].
  split; [vm_compute; reflexivity|]. split.
  { apply (proj1 (construction_validates_three_ratios defaults)).
    repeat split; vm_compute; reflexivity. }
  split; [vm_compute; reflexivity|].
  apply (proj1 (proj2 (construction_validates_three_ratios
                         (with_EAR_THRESHOLD (F.ratio 15 10) defaults)))).
  vm_compute; reflexivity.
Defined.
End ConfigurationValidation.

(** ** Every processed frame, when [CONSECUTIVE_FRAMES] is 0 *)

Section EveryOpenFrame.
Import Config Tracker.

(** The counter of closed-eye samples never goes below 0. *)
Lemma tick_frame_counter (frame : detection) (st : EyeTracker) :
  0 <= frame_counter st ->
  0 <= frame_counter (state_of (process_frame frame st)).
Proof.
  intros Hfc. tick_paths; cbn; lia.
Qed.

Lemma run_frame_counter (frames : list detection) :
  forall st : EyeTracker,
    0 <= frame_counter st -> 0 <= frame_counter (state_of (run frames st)).
Proof.
  induction frames as [|f rest IH]; intros st Hfc; [exact Hfc|].
  rewrite run_cons. cbv zeta.
  change (state_of (?v, ?s, ?t)) with s.
  apply IH, tick_frame_counter, Hfc.
Qed.

(** With [CONSECUTIVE_FRAMES = 0], on a tracker that has run on any frames
    since its construction, a processed frame with a detection whose mean
    EAR is not below the threshold counts one blink and publishes it. *)
Lemma open_frame_counts_a_blink
      (config : Configuration) (history : list detection)
      (face left_eye right_eye : list point) (l r : float) :
  CONSECUTIVE_FRAMES config = 0 ->
  let st := state_of (run history (__init__ config)) in
  MAX_FRAME_SKIP config <= _frame_skip_counter st + 1 ->
  extract face (LEFT_EYE_INDICES config) = Ok left_eye ->
  extract face (RIGHT_EYE_INDICES config) = Ok right_eye ->
  ear_of left_eye = Ok l ->
  ear_of right_eye = Ok r ->
  F.ltb (F.div (F.add l r) (F.of_Z 2)) (EAR_THRESHOLD config) = false ->
  let o := process_frame (Detected face) st in
  blink_count (data (state_of o)) = blink_count (data st) + 1 /\
  published_counts (trace_of o) = [blink_count (data st) + 1].
Proof.
  intros Hcf st Hrun Hleft Hright Hl Hr Hopen. cbv zeta.
  assert (Hcfg : Tracker.config st = config) by apply run_config.
  assert (Hfc : 0 <= frame_counter st)
    by (apply run_frame_counter; cbn; lia).
  rewrite process_frame_paths. unfold tick_outcome.
  rewrite Hcfg.
  destruct (Z.leb_spec (MAX_FRAME_SKIP config) (_frame_skip_counter st + 1));
    [|lia].
  rewrite Hleft, Hright, Hl, Hr. cbv zeta.
  rewrite _update_blink_detection_cases.
  cbn [with_ears with_landmarks on_data set_avg_ear set_left_ear set_right_ear
       set_left_eye_landmarks set_right_eye_landmarks set_last_valid_landmarks
       set_frame_skip_counter data avg_ear left_ear right_ear Tracker.config
       frame_counter blink_count observers].
  rewrite Hcfg, Hopen, Hcf.
  destruct (Z.leb_spec 0 (frame_counter st)); [|lia].
  unfold completed, state_of, trace_of; cbn [fst snd].
  trace_simpl. cbn. split; reflexivity.
Qed.
End EveryOpenFrame.

(** * Further properties of the modelled code *)

(** ** The observer registry *)

Section ObserverRegistry.
Import Config Tracker.

(** The identities registered with a tracker, in iteration order. *)
Definition observer_ids (st : EyeTracker) : list nat :=
  map obs_id (observers st).

Lemma existsb_is_observer (o : EyeTrackingObserver)
      (os : list EyeTrackingObserver) :
  existsb (is_observer o) os = true <-> In (obs_id o) (map obs_id os).
Proof.
  unfold is_observer. rewrite existsb_exists, in_map_iff. split.
  - intros (o' & Hin & Heq). apply Nat.eqb_eq in Heq. exists o'. split; assumption.
  - intros (o' & Heq & Hin). exists o'. split; [exact Hin|].
    apply Nat.eqb_eq. exact Heq.
Qed.

Lemma add_observer_ids (o : EyeTrackingObserver) (st : EyeTracker) :
  observer_ids (add_observer o st) =
  if existsb (is_observer o) (observers st) then observer_ids st
  else observer_ids st ++ [obs_id o].
Proof.
  unfold add_observer, observer_ids.
  destruct (existsb (is_observer o) (observers st)); [reflexivity|].
  cbn [observers set_observers]. apply map_app.
Qed.

Lemma remove_observer_ids (o : EyeTrackingObserver) (st : EyeTracker) :
  observer_ids (remove_observer o st) =
  filter (fun i => negb (Nat.eqb i (obs_id o))) (observer_ids st).
Proof.
  unfold remove_observer, observer_ids, is_observer. cbn [observers set_observers].
  induction (observers st) as [|o' os IH]; cbn [filter map]; [reflexivity|].
  destruct (Nat.eqb (obs_id o') (obs_id o)); cbn [negb map]; rewrite IH;
    reflexivity.
Qed.

Lemma blink_receivers_notify (st : EyeTracker) :
  blink_receivers (trace_of (_notify_blink_detected st)) = observer_ids st.
Proof.
  rewrite _notify_blink_detected_trace. unfold trace_of; cbn [snd blink_receivers].
  apply blink_receivers_deliveries.
Qed.

Lemma eye_data_receivers_notify (st : EyeTracker) :
  eye_data_receivers (trace_of (_notify_eye_data_updated st)) = observer_ids st.
Proof.
  rewrite _notify_eye_data_updated_trace.
  unfold trace_of; cbn [snd eye_data_receivers].
  apply eye_data_receivers_deliveries.
Qed.

(** X1.  [add_observer] on a registry without duplicates keeps it without
    duplicates; afterwards a published blink event and a published eye-data
    event each call the observer exactly once, and adding the observer
    again changes nothing. *)
Theorem add_observer_subscribes_once (o : EyeTrackingObserver)
        (st : EyeTracker) :
  NoDup (observer_ids st) ->
  let st' := add_observer o st in
  NoDup (observer_ids st') /\
  count_occ Nat.eq_dec
    (blink_receivers (trace_of (_notify_blink_detected st'))) (obs_id o) = 1%nat /\
  count_occ Nat.eq_dec
    (eye_data_receivers (trace_of (_notify_eye_data_updated st'))) (obs_id o)
  = 1%nat /\
  add_observer o st' = st'.
Proof.
  intros Hnodup st'.
  assert (Hin : In (obs_id o) (observer_ids st')).
  { unfold st'. rewrite add_observer_ids.
    destruct (existsb (is_observer o) (observers st)) eqn:Hreg.
    - apply existsb_is_observer. exact Hreg.
    - apply in_or_app. right. left. reflexivity. }
  assert (Hnodup' : NoDup (observer_ids st')).
  { unfold st'. rewrite add_observer_ids.
    destruct (existsb (is_observer o) (observers st)) eqn:Hreg; [exact Hnodup|].
    apply NoDup_app; [exact Hnodup|repeat constructor; intros []|].
    intros i Hi [<-|[]].
    apply (proj2 (existsb_is_observer o (observers st))) in Hi. congruence. }
  split; [exact Hnodup'|].
  rewrite blink_receivers_notify, eye_data_receivers_notify.
  split; [|split].
  - apply NoDup_count_occ'; assumption.
  - apply NoDup_count_occ'; assumption.
  - unfold add_observer at 1.
    rewrite (proj2 (existsb_is_observer o (observers st'))) by exact Hin.
    reflexivity.
Qed.

Definition quiet_observer (i : nat) : EyeTrackingObserver :=
  {| obs_id := i;
     on_blink_detected := fun _ => Returns;
     on_eye_data_updated := fun _ _ _ => Returns |}.

Lemma add_observer_subscribes_once_witness :
  let st := __init__ defaults in
  NoDup (observer_ids st) /\
  count_occ Nat.eq_dec
    (blink_receivers
       (trace_of (_notify_blink_detected (add_observer (quiet_observer 7) st))))
    7%nat = 1%nat.
Proof.
  cbv zeta. split; [constructor|].
  exact (proj1 (proj2 (add_observer_subscribes_once (quiet_observer 7)
                         (__init__ defaults) (NoDup_nil nat)))).
Defined.

(** X2.  After [remove_observer] neither kind of event calls the observer;
    every other observer is called as often as before; removing an observer
    that is not registered changes nothing. *)
Theorem remove_observer_unsubscribes (o : EyeTrackingObserver)
        (st : EyeTracker) :
  let st' := remove_observer o st in
  ~ In (obs_id o) (blink_receivers (trace_of (_notify_blink_detected st'))) /\
  ~ In (obs_id o)
      (eye_data_receivers (trace_of (_notify_eye_data_updated st'))) /\
  (forall i : nat,
      i <> obs_id o ->
      count_occ Nat.eq_dec
        (blink_receivers (trace_of (_notify_blink_detected st'))) i
      = count_occ Nat.eq_dec
          (blink_receivers (trace_of (_notify_blink_detected st))) i) /\
  (~ In (obs_id o) (observer_ids st) -> st' = st).
Proof.
  intros st'. rewrite !blink_receivers_notify, eye_data_receivers_notify.
  unfold st'. rewrite remove_observer_ids.
  assert (Hout : ~ In (obs_id o)
                   (filter (fun i => negb (Nat.eqb i (obs_id o)))
                           (observer_ids st))).
  { intros Hin. apply filter_In in Hin. destruct Hin as [_ Hne].
    rewrite Nat.eqb_refl in Hne. discriminate. }
  split; [exact Hout|]. split; [exact Hout|]. split.
  - intros i Hi. clear Hout.
    induction (observer_ids st) as [|j ids IH]; cbn [filter]; [reflexivity|].
    destruct (Nat.eqb_spec j (obs_id o)) as [->|Hj]; cbn [negb count_occ].
    + destruct (Nat.eq_dec (obs_id o) i); [congruence|exact IH].
    + destruct (Nat.eq_dec j i); rewrite IH; reflexivity.
  - intros Hnot. unfold remove_observer.
    assert (Hsame : filter (fun o' => negb (is_observer o o')) (observers st)
                    = observers st).
    { unfold observer_ids in Hnot.
      induction (observers st) as [|o' os IH]; cbn [filter]; [reflexivity|].
      unfold is_observer at 1.
      destruct (Nat.eqb_spec (obs_id o') (obs_id o)) as [Heq|Hne].
      - exfalso. apply Hnot. left. exact Heq.
      - cbn [negb]. rewrite IH; [reflexivity|].
        intros Hin. apply Hnot. right. exact Hin. }
    rewrite Hsame. destruct st; reflexivity.
Qed.
End ObserverRegistry.

(** ** Faults inside one tick *)

Section TickFaults.
Import Config Tracker.

(** The EAR triples published, in order. *)
Fixpoint eye_data_published (t : list event) : list (float * float * float) :=
  match t with
  | [] => []
  | PublishEyeData l r a :: t' => (l, r, a) :: eye_data_published t'
  | _ :: t' => eye_data_published t'
  end.

Lemma errors_app (t1 t2 : list event) :
  errors (t1 ++ t2) = errors t1 ++ errors t2.
Proof.
  induction t1 as [|e t1 IH]; simpl; [reflexivity|].
  destruct e; simpl; rewrite IH; reflexivity.
Qed.

Lemma eye_data_published_app (t1 t2 : list event) :
  eye_data_published (t1 ++ t2)
  = eye_data_published t1 ++ eye_data_published t2.
Proof.
  induction t1 as [|e t1 IH]; simpl; [reflexivity|].
  destruct e; simpl; rewrite IH; reflexivity.
Qed.

Lemma eye_data_receivers_app (t1 t2 : list event) :
  eye_data_receivers (t1 ++ t2)
  = eye_data_receivers t1 ++ eye_data_receivers t2.
Proof.
  induction t1 as [|e t1 IH]; simpl; [reflexivity|].
  destruct e; simpl; rewrite IH; reflexivity.
Qed.

Lemma blink_deliveries_quiet (c : Z) (os : list EyeTrackingObserver) :
  let t := flat_map (blink_delivery c) os in
  errors t = [] /\ eye_data_published t = [] /\ eye_data_receivers t = [].
Proof.
  cbv zeta. induction os as [|o os IH]; simpl; [repeat split|].
  destruct (on_blink_detected o c); simpl; exact IH.
Qed.

Lemma eye_data_events_read (st : EyeTracker) :
  errors (eye_data_events st) = [] /\
  eye_data_published (eye_data_events st)
  = [(left_ear (data st), right_ear (data st), avg_ear (data st))] /\
  eye_data_receivers (eye_data_events st) = map obs_id (observers st).
Proof.
  unfold eye_data_events. cbn [errors eye_data_published eye_data_receivers].
  set (l := left_ear (data st)). set (r := right_ear (data st)).
  set (a := avg_ear (data st)).
  induction (observers st) as [|o os IH]; simpl; [repeat split|].
  destruct IH as (He & Hp & Hr).
  injection Hp as Hp.
  destruct (on_eye_data_updated o l r a); simpl; rewrite He, Hp, Hr;
    repeat split.
Qed.

(** What [_update_blink_detection] leaves alone. *)
Lemma _update_blink_detection_frame (st : EyeTracker) :
  let o := _update_blink_detection st in
  observers (state_of o) = observers st /\
  left_ear (data (state_of o)) = left_ear (data st) /\
  right_ear (data (state_of o)) = right_ear (data st) /\
  avg_ear (data (state_of o)) = avg_ear (data st) /\
  _last_valid_landmarks (state_of o) = _last_valid_landmarks st /\
  left_eye_landmarks (data (state_of o)) = left_eye_landmarks (data st) /\
  right_eye_landmarks (data (state_of o)) = right_eye_landmarks (data st) /\
  errors (trace_of o) = [] /\
  eye_data_published (trace_of o) = [] /\
  eye_data_receivers (trace_of o) = [].
Proof.
  cbv zeta. rewrite _update_blink_detection_cases.
  destruct (F.ltb _ _); [repeat split|].
  destruct (_ <=? _); [|repeat split].
  unfold state_of, trace_of; cbn.
  destruct (blink_deliveries_quiet (blink_count (data st) + 1) (observers st))
    as (He & Hp & Hr).
  rewrite He, Hp, Hr. repeat split.
Qed.

(** Every tick either reaches lines 130-131, and then its trace ends with
    the eye-data events of the new snapshot after a part that holds no
    error and no eye data, or it ends in the [except] clause right after
    the provider was called. *)
Lemma tick_shape (frame : detection) (st : EyeTracker) :
  let o := process_frame frame st in
  (exists pre : list event,
      trace_of o = pre ++ eye_data_events (state_of o) /\
      errors pre = [] /\ eye_data_published pre = [] /\
      eye_data_receivers pre = []) \/
  (exists e : exn, trace_of o = [ProviderCalled; LogError e]).
Proof.
  cbv zeta. rewrite process_frame_paths. unfold tick_outcome, aborted, completed.
  destruct (MAX_FRAME_SKIP (config st) <=? _frame_skip_counter st + 1).
  - destruct frame as [face| |e].
    + destruct (extract face (LEFT_EYE_INDICES (config st))) as [left_eye|e];
        [|right; exists e; reflexivity].
      destruct (extract face (RIGHT_EYE_INDICES (config st))) as [right_eye|e];
        [|right; exists e; reflexivity].
      destruct (ear_of left_eye) as [l|e]; [|right; exists e; reflexivity].
      destruct (ear_of right_eye) as [r|e]; [|right; exists e; reflexivity].
      cbv zeta.
      set (fed := _update_blink_detection _).
      left. exists (ProviderCalled :: trace_of fed).
      split; [reflexivity|].
      cbn [errors eye_data_published eye_data_receivers].
      apply _update_blink_detection_frame.
    + left. exists [ProviderCalled].
      destruct (_last_valid_landmarks st) as [[left_eye right_eye]|];
        repeat split.
    + right. exists e. reflexivity.
  - left. exists []. repeat split.
Qed.

Lemma tick_observers (frame : detection) (st : EyeTracker) :
  observers (state_of (process_frame frame st)) = observers st.
Proof.
  rewrite process_frame_paths. unfold tick_outcome, aborted, completed.
  repeat match goal with
         | |- context [if ?b then _ else _] => destruct b
         | |- context [match ?x with _ => _ end] => destruct x
         end; try reflexivity.
  cbv zeta. unfold state_of at 1. cbn [fst snd].
  rewrite (proj1 (_update_blink_detection_frame _)). reflexivity.
Qed.

(** X3.  [process_frame] never raises: whatever the frame holds it returns
    the tracker's snapshot, and it logs at most one error.  When the
    Landmark Provider raises on a processed tick, the skip counter is reset
    and nothing else of the tracker changes; the error is logged and
    neither a blink nor an eye-data event is published on that tick. *)
Theorem process_frame_contains_failures (frame : detection) (st : EyeTracker) :
  let o := process_frame frame st in
  value_of o = Ok (data (state_of o)) /\
  (length (errors (trace_of o)) <= 1)%nat /\
  (forall e : exn,
      frame = ProviderFailure e ->
      MAX_FRAME_SKIP (config st) <= _frame_skip_counter st + 1 ->
      state_of o = set_frame_skip_counter 0 st /\
      trace_of o = [ProviderCalled; LogError e]).
Proof.
  cbv zeta. split; [apply process_frame_returns|]. split.
  - destruct (tick_shape frame st) as [(pre & -> & He & _)|(e & ->)].
    + rewrite errors_app, He, (proj1 (eye_data_events_read _)).
      cbn [app length]. lia.
    + cbn [errors length]. lia.
  - intros e -> Hrun. rewrite process_frame_paths. unfold tick_outcome.
    destruct (Z.leb_spec (MAX_FRAME_SKIP (config st))
                         (_frame_skip_counter st + 1)); [|lia].
    split; reflexivity.
Qed.

Lemma process_frame_contains_failures_witness :
  let st := __init__ defaults in
  MAX_FRAME_SKIP (config st) <= _frame_skip_counter st + 1 /\
  trace_of (process_frame (ProviderFailure (OtherException "graph error")) st)
  = [ProviderCalled; LogError (OtherException "graph error")].
Proof.
  cbv zeta. split; [discriminate|].
  exact (proj2 (proj2 (proj2 (process_frame_contains_failures
                                (ProviderFailure (OtherException "graph error"))
                                (__init__ defaults)))
                      (OtherException "graph error") eq_refl
                      ltac:(discriminate))).
Defined.

(** X4.  A tick that logs no error publishes the snapshot's three EAR
    values exactly once and hands them to every registered observer, also
    on a tick the Frame Scheduler skips; a tick that logs an error
    publishes no eye data and calls no observer with any. *)
Theorem eye_data_is_published_once_per_clean_tick
        (frame : detection) (st : EyeTracker) :
  let o := process_frame frame st in
  let d := data (state_of o) in
  (errors (trace_of o) = [] /\
   eye_data_published (trace_of o) = [(left_ear d, right_ear d, avg_ear d)] /\
   eye_data_receivers (trace_of o) = map obs_id (observers st)) \/
  (exists e : exn,
      errors (trace_of o) = [e] /\
      eye_data_published (trace_of o) = [] /\
      eye_data_receivers (trace_of o) = []).
Proof.
  cbv zeta.
  destruct (tick_shape frame st) as [(pre & Ht & He & Hp & Hr)|(e & Ht)];
    rewrite Ht.
  - left. rewrite errors_app, eye_data_published_app, eye_data_receivers_app.
    rewrite He, Hp, Hr.
    destruct (eye_data_events_read (state_of (process_frame frame st)))
      as (He' & Hp' & Hr').
    rewrite He', Hp', Hr', tick_observers. repeat split.
  - right. exists e. repeat split.
Qed.
End TickFaults.

(** ** Eye index lists that are too short *)

Section ShortIndexLists.
Import Config Tracker.

Lemma extract_length (face : list point) (indices : list Z) :
  forall eye, extract face indices = Ok eye -> length eye = length indices.
Proof.
  induction indices as [|i rest IH]; intros eye H; simpl in H.
  - injection H as <-. reflexivity.
  - destruct (py_getitem face i) as [p|e]; [|discriminate].
    destruct (extract face rest) as [ps|e]; [|discriminate].
    injection H as <-. simpl. f_equal. apply IH. reflexivity.
Qed.

Lemma ear_of_short (eye : list point) :
  (length eye < 6)%nat -> ear_of eye = Raise IndexError.
Proof.
  destruct eye as [|p0 [|p1 [|p2 [|p3 [|p4 [|p5 rest]]]]]]; simpl;
    intros H; try reflexivity; lia.
Qed.

(** The part of the tracker the Blink Detector works on. *)
Definition blink_state (st : EyeTracker) : Z * Z * float :=
  (blink_count (data st), frame_counter st, avg_ear (data st)).

Lemma short_list_tick (frame : detection) (st : EyeTracker) :
  (length (LEFT_EYE_INDICES (config st)) < 6)%nat \/
  (length (RIGHT_EYE_INDICES (config st)) < 6)%nat ->
  let o := process_frame frame st in
  config (state_of o) = config st /\
  blink_state (state_of o) = blink_state st /\
  published_counts (trace_of o) = [].
Proof.
  intros Hshort. cbv zeta. rewrite process_frame_paths.
  unfold tick_outcome, aborted, completed.
  destruct (MAX_FRAME_SKIP (config st) <=? _frame_skip_counter st + 1).
  - destruct frame as [face| |e].
    + destruct (extract face (LEFT_EYE_INDICES (config st)))
        as [left_eye|e] eqn:Hl; [|repeat split].
      destruct (extract face (RIGHT_EYE_INDICES (config st)))
        as [right_eye|e] eqn:Hr; [|repeat split].
      apply extract_length in Hl, Hr.
      destruct (ear_of left_eye) as [l|e] eqn:Hel; [|repeat split].
      destruct (ear_of right_eye) as [r|e] eqn:Her; [|repeat split].
      exfalso. destruct Hshort as [H|H].
      * rewrite ear_of_short in Hel by lia. discriminate.
      * rewrite ear_of_short in Her by lia. discriminate.
    + destruct (_last_valid_landmarks st) as [[left_eye right_eye]|];
        unfold state_of, trace_of; cbn [fst snd]; trace_simpl; repeat split.
    + repeat split.
  - unfold state_of, trace_of; cbn [fst snd]. trace_simpl. repeat split.
Qed.

(** X5.  If either eye index list of the configuration has fewer than six
    indices (construction does not check them), no frame ever reaches the
    Blink Detector: over any run [blink_count], the counter of closed-eye
    samples and [avg_ear] stay as they were and no blink is published. *)
Theorem short_index_list_never_blinks (frames : list detection) :
  forall st : EyeTracker,
    (length (LEFT_EYE_INDICES (config st)) < 6)%nat \/
    (length (RIGHT_EYE_INDICES (config st)) < 6)%nat ->
    let o := run frames st in
    blink_state (state_of o) = blink_state st /\
    published_counts (trace_of o) = [].
Proof.
  induction frames as [|f rest IH]; intros st Hshort; cbv zeta.
  - split; reflexivity.
  - rewrite run_cons. cbv zeta.
    change (state_of (?v, ?s, ?t)) with s.
    change (trace_of (?v, ?s, ?t)) with t.
    destruct (short_list_tick f st Hshort) as (Hcfg & Hstate & Hpub).
    destruct (IH (state_of (process_frame f st))) as [Hstate' Hpub'].
    { rewrite Hcfg. exact Hshort. }
    rewrite published_counts_app, Hpub, Hpub', Hstate', Hstate.
    split; reflexivity.
Qed.

Lemma short_index_list_never_blinks_witness :
  let config := with_unchecked_knobs 0 0 15 60000 [33; 160; 158; 133; 153]
                  (RIGHT_EYE_INDICES defaults) defaults in
  let open_eye x := [(x, 5); (x + 3, 8); (x + 7, 8); (x + 10, 5); (x + 7, 2);
                     (x + 3, 2)] in
  let frames := [Detected (face_of (open_eye 0) (open_eye 20));
                 Detected (face_of (open_eye 0) (open_eye 20))] in
  ((length (LEFT_EYE_INDICES (Tracker.config (__init__ config))) < 6)%nat \/
   (length (RIGHT_EYE_INDICES (Tracker.config (__init__ config))) < 6)%nat) /\
  published_counts (trace_of (run frames (__init__ config))) = [].
Proof.
  cbv zeta. split; [left; cbn; lia|].
  apply (short_index_list_never_blinks _ (__init__ _)).
  left. cbn. lia.
Defined.
End ShortIndexLists.

(** ** The Landmark Cache *)

Section LandmarkCache.
Import Config Tracker.

(** The snapshot shows the cached pair, or nothing while the cache is
    empty. *)
Definition shows_cache (st : EyeTracker) : Prop :=
  (left_eye_landmarks (data st), right_eye_landmarks (data st)) =
  match _last_valid_landmarks st with
  | Some (left_eye, right_eye) => (Some left_eye, Some right_eye)
  | None => (None, None)
  end.

Lemma _update_blink_detection_landmarks (st : EyeTracker) :
  shows_cache st -> shows_cache (state_of (_update_blink_detection st)).
Proof.
  unfold shows_cache.
  destruct (_update_blink_detection_frame st)
    as (_ & _ & _ & _ & -> & -> & -> & _).
  trivial.
Qed.

(** One tick: the cache keeps its pair, or takes the pair extracted from
    this frame's detection. *)
Lemma cache_step (frame : detection) (st : EyeTracker) :
  let st' := state_of (process_frame frame st) in
  _last_valid_landmarks st' = _last_valid_landmarks st \/
  (exists face left_eye right_eye,
      frame = Detected face /\
      MAX_FRAME_SKIP (config st) <= _frame_skip_counter st + 1 /\
      extract face (LEFT_EYE_INDICES (config st)) = Ok left_eye /\
      extract face (RIGHT_EYE_INDICES (config st)) = Ok right_eye /\
      _last_valid_landmarks st' = Some (left_eye, right_eye)).
Proof.
  cbv zeta. rewrite process_frame_paths. unfold tick_outcome, aborted, completed.
  destruct (Z.leb_spec (MAX_FRAME_SKIP (config st)) (_frame_skip_counter st + 1))
    as [Hrun|Hskip].
  - destruct frame as [face| |e].
    + destruct (extract face (LEFT_EYE_INDICES (config st)))
        as [left_eye|e] eqn:Hl; [|left; reflexivity].
      destruct (extract face (RIGHT_EYE_INDICES (config st)))
        as [right_eye|e] eqn:Hr; [|left; reflexivity].
      right. exists face, left_eye, right_eye.
      repeat (split; [first [reflexivity|assumption]|]).
      destruct (ear_of left_eye) as [l|e]; [|reflexivity].
      destruct (ear_of right_eye) as [r|e]; [|reflexivity].
      cbv zeta. unfold state_of at 1. cbn [fst snd].
      destruct (_update_blink_detection_frame
                  (with_ears l r
                     (with_landmarks left_eye right_eye
                        (set_frame_skip_counter 0 st))))
        as (_ & _ & _ & _ & -> & _).
      reflexivity.
    + left.
      destruct (_last_valid_landmarks st) as [[left_eye right_eye]|] eqn:Hc;
        unfold state_of; cbn; rewrite Hc; reflexivity.
    + left. reflexivity.
  - left. reflexivity.
Qed.

Lemma shows_cache_step (frame : detection) (st : EyeTracker) :
  shows_cache st -> shows_cache (state_of (process_frame frame st)).
Proof.
  intros Hshow. rewrite process_frame_paths.
  unfold tick_outcome, aborted, completed.
  destruct (MAX_FRAME_SKIP (config st) <=? _frame_skip_counter st + 1);
    [|exact Hshow].
  destruct frame as [face| |e]; [| |exact Hshow].
  - destruct (extract face (LEFT_EYE_INDICES (config st))) as [left_eye|e];
      [|exact Hshow].
    destruct (extract face (RIGHT_EYE_INDICES (config st))) as [right_eye|e];
      [|exact Hshow].
    destruct (ear_of left_eye) as [l|e]; [|reflexivity].
    destruct (ear_of right_eye) as [r|e]; [|reflexivity].
    cbv zeta. unfold state_of at 1. cbn [fst snd].
    apply _update_blink_detection_landmarks. reflexivity.
  - destruct (_last_valid_landmarks st) as [[left_eye right_eye]|] eqn:Hc.
    + unfold shows_cache, state_of; cbn. rewrite Hc. reflexivity.
    + exact Hshow.
Qed.

(** X6.  The Landmark Cache holds genuine detections only and is never
    cleared: after a tick it holds what it held before, or the pair
    extracted from the detection of this very frame on a processed tick;
    over any run a cache that holds a pair still holds one. *)
Theorem cache_holds_detections_only :
  (forall (frame : detection) (st : EyeTracker),
      let st' := state_of (process_frame frame st) in
      _last_valid_landmarks st' = _last_valid_landmarks st \/
      (exists face left_eye right_eye,
          frame = Detected face /\
          MAX_FRAME_SKIP (config st) <= _frame_skip_counter st + 1 /\
          extract face (LEFT_EYE_INDICES (config st)) = Ok left_eye /\
          extract face (RIGHT_EYE_INDICES (config st)) = Ok right_eye /\
          _last_valid_landmarks st' = Some (left_eye, right_eye))) /\
  (forall (frames : list detection) (st : EyeTracker),
      _last_valid_landmarks st <> None ->
      _last_valid_landmarks (state_of (run frames st)) <> None).
Proof.
  split; [exact cache_step|].
  induction frames as [|f rest IH]; intros st Hsome; [exact Hsome|].
  rewrite run_cons. cbv zeta. change (state_of (?v, ?s, ?t)) with s.
  apply IH.
  destruct (cache_step f st) as [->|(face & l & r & _ & _ & _ & _ & ->)];
    [exact Hsome|discriminate].
Qed.

Lemma cache_holds_detections_only_witness :
  let pair := (closed_eye 0, closed_eye 20) in
  let st := set_last_valid_landmarks pair (__init__ defaults) in
  _last_valid_landmarks st <> None /\
  _last_valid_landmarks
    (state_of (run [NoDetection; ProviderFailure IndexError; NoDetection] st))
  <> None.
Proof.
  cbv zeta. split; [discriminate|].
  apply (proj2 cache_holds_detections_only). discriminate.
Defined.

(** X7.  On a tracker run from its construction the snapshot's two landmark
    fields always show the cached pair: both are unset while the cache is
    empty, and both are the cached lists afterwards. *)
Theorem snapshot_shows_the_cached_pair
        (config : Configuration) (os : list EyeTrackingObserver)
        (frames : list detection) :
  shows_cache (state_of (run frames (set_observers os (__init__ config)))).
Proof.
  assert (Hrun : forall fs st, shows_cache st -> shows_cache (state_of (run fs st))).
  { induction fs as [|f rest IH]; intros st Hshow; [exact Hshow|].
    rewrite run_cons. cbv zeta. change (state_of (?v, ?s, ?t)) with s.
    apply IH, shows_cache_step, Hshow. }
  apply Hrun. reflexivity.
Qed.
End LandmarkCache.

(** ** The counts blink events carry *)

Section ConsecutiveCounts.
Import Config Tracker.

(** One tick publishes nothing and keeps the count, or publishes the next
    count and stores it. *)
Lemma tick_publishes_next_count (frame : detection) (st : EyeTracker) :
  let o := process_frame frame st in
  (published_counts (trace_of o) = [] /\
   blink_count (data (state_of o)) = blink_count (data st)) \/
  (published_counts (trace_of o) = [blink_count (data st) + 1] /\
   blink_count (data (state_of o)) = blink_count (data st) + 1).
Proof.
  cbv zeta. tick_paths; trace_simpl; cbn;
    first [left; split; reflexivity | right; split; reflexivity].
Qed.

(** [first + 1, first + 2, ..., first + n] *)
Definition counts_from (first : Z) (n : nat) : list Z :=
  map (fun i => first + Z.of_nat i) (seq 1 n).

Lemma counts_from_S (first : Z) (n : nat) :
  counts_from first (S n) = (first + 1) :: counts_from (first + 1) n.
Proof.
  unfold counts_from. cbn [seq map]. f_equal.
  rewrite <- seq_shift, map_map. apply map_ext. intros i. lia.
Qed.

(** X8.  Over any run the blink events carry consecutive counts: the
    first carries the count the tracker started with plus one, each later
    one the count of the one before plus one, and the last is the
    tracker's [blink_count] after the run.  No count is skipped and none is
    published twice. *)
Theorem blink_events_carry_consecutive_counts (frames : list detection) :
  forall st : EyeTracker,
    let o := run frames st in
    let first := blink_count (data st) in
    let n := blink_events (trace_of o) in
    published_counts (trace_of o) = counts_from first n /\
    blink_count (data (state_of o)) = first + Z.of_nat n.
Proof.
  induction frames as [|f rest IH]; intros st; cbv zeta.
  - split; [reflexivity|]. cbn. lia.
  - rewrite run_cons. cbv zeta.
    change (state_of (?v, ?s, ?t)) with s.
    change (trace_of (?v, ?s, ?t)) with t.
    destruct (IH (state_of (process_frame f st))) as [Hpub Hcount].
    rewrite published_counts_app, blink_events_app, Hpub, Hcount.
    assert (Hlen : forall t, blink_events t = length (published_counts t)).
    { induction t as [|e t IHt]; [reflexivity|].
      destruct e; cbn; rewrite ?IHt; reflexivity. }
    rewrite (Hlen (trace_of (process_frame f st))).
    destruct (tick_publishes_next_count f st) as [[-> ->]|[-> ->]];
      cbn [length app Nat.add].
    + split; reflexivity.
    + rewrite counts_from_S. split; [reflexivity|lia].
Qed.
End ConsecutiveCounts.

(** ** The counter of closed-eye samples *)

Section TrailingRun.
Import Config Tracker.

(** The number of samples below the threshold at the start of a list, and
    at the end of a stream. *)
Fixpoint leading_below (thr : float) (samples : list float) : nat :=
  match samples with
  | s :: rest => if below thr s then S (leading_below thr rest) else 0
  | [] => 0
  end.

Definition trailing_below (thr : float) (samples : list float) : nat :=
  leading_below thr (rev samples).

(** X9.  The detector's counter is the length of the run in progress: fed
    any stream from a counter of 0, [frame_counter] ends as the number of
    consecutive samples below [EAR_THRESHOLD] at the end of the stream (0
    when the last sample was not below it). *)
Theorem frame_counter_is_the_open_run (samples : list float)
        (st : EyeTracker) :
  frame_counter st = 0 ->
  frame_counter (state_of (feed_all samples st))
  = Z.of_nat (trailing_below (EAR_THRESHOLD (config st)) samples).
Proof.
  intros Hfc. induction samples as [|s l IH] using rev_ind.
  - exact Hfc.
  - rewrite feed_all_app. cbv zeta. change (state_of (?v, ?s, ?t)) with s.
    unfold trailing_below in *. rewrite rev_unit. cbn [leading_below].
    set (st1 := state_of (feed_all l st)) in *.
    assert (Hcfg : config st1 = config st) by apply feed_all_config.
    unfold feed_all at 1. cbn [for_each].
    rewrite (bind_returning _ _ tt) by apply feed_returns.
    change (state_of (?v, ?s, ?t)) with s.
    unfold ret. change (state_of (?v, ?s, ?t)) with s.
    rewrite feed_cases. cbv zeta. rewrite Hcfg. unfold below.
    destruct (F.ltb s (EAR_THRESHOLD (config st))).
    + unfold state_of; cbn. rewrite IH. lia.
    + destruct (_ <=? _); reflexivity.
Qed.

Lemma frame_counter_is_the_open_run_witness :
  frame_counter (__init__ defaults) = 0 /\
  frame_counter
    (state_of (feed_all [F.ratio 30 100; F.ratio 10 100; F.ratio 5 100]
                 (__init__ defaults))) = 2.
Proof.
  split; [reflexivity|].
  exact (frame_counter_is_the_open_run
           [F.ratio 30 100; F.ratio 10 100; F.ratio 5 100]
           (__init__ defaults) eq_refl).
Defined.
End TrailingRun.

(** ** A skip count of at most one *)

Section NoSkipping.
Import Config Tracker.

(** X10.  With [MAX_FRAME_SKIP] at most 1, a value of 1 or a negative one
    as much as the default 0, a tracker run from its construction invokes
    the Landmark Provider on every tick. *)
Theorem small_max_frame_skip_processes_every_frame
        (config : Configuration) (os : list EyeTrackingObserver)
        (frames : list detection) :
  MAX_FRAME_SKIP config <= 1 ->
  provider_calls
    (trace_of (run frames (set_observers os (__init__ config))))
  = length frames.
Proof.
  intros Hm.
  apply (run_every_tick frames (set_observers os (__init__ config)));
    cbn; lia.
Qed.

Lemma small_max_frame_skip_processes_every_frame_witness :
  let config := with_MAX_FRAME_SKIP (-4) defaults in
  MAX_FRAME_SKIP config <= 1 /\
  provider_calls
    (trace_of (run [NoDetection; NoDetection; NoDetection]
                 (set_observers [] (__init__ config))))
  = 3%nat.
Proof.
  cbv zeta. split; [discriminate|].
  exact (small_max_frame_skip_processes_every_frame
           (with_MAX_FRAME_SKIP (-4) defaults) []
           [NoDetection; NoDetection; NoDetection] ltac:(discriminate)).
Defined.
End NoSkipping.

(** ** More on the EAR Calculator *)

Section EarGeometry.
Import Config Tracker.

(** X11.  [_calculate_ear] needs six points: on a list of fewer it raises
    [IndexError], on a list of six or more it returns the ratio of the
    first six and ignores the rest; either way the tracker is left as it
    was and nothing is emitted. *)
Theorem _calculate_ear_needs_six_points (eye_landmarks : list point)
        (st : EyeTracker) :
  ((length eye_landmarks < 6)%nat ->
   _calculate_ear eye_landmarks st = (Raise IndexError, st, [])) /\
  (forall (p0 p1 p2 p3 p4 p5 : point) (rest : list point),
      eye_landmarks = p0 :: p1 :: p2 :: p3 :: p4 :: p5 :: rest ->
      _calculate_ear eye_landmarks st
      = _calculate_ear [p0; p1; p2; p3; p4; p5] st) /\
  state_of (_calculate_ear eye_landmarks st) = st /\
  trace_of (_calculate_ear eye_landmarks st) = [].
Proof.
  rewrite _calculate_ear_pure. split; [|split; [|split; reflexivity]].
  - intros Hshort. rewrite ear_of_short by exact Hshort. reflexivity.
  - intros p0 p1 p2 p3 p4 p5 rest ->. rewrite _calculate_ear_pure. reflexivity.
Qed.

Lemma _calculate_ear_needs_six_points_witness :
  (length [(0, 5); (3, 8); (7, 8); (10, 5); (7, 2)] < 6)%nat /\
  _calculate_ear [(0, 5); (3, 8); (7, 8); (10, 5); (7, 2)] (__init__ defaults)
  = (Raise IndexError, __init__ defaults, []).
Proof.
  split; [cbn; lia|].
  apply (proj1 (_calculate_ear_needs_six_points
                  [(0, 5); (3, 8); (7, 8); (10, 5); (7, 2)] (__init__ defaults))).
  cbn; lia.
Defined.

(** Moving a point by a whole number of pixels. *)
Definition translate (dx dy : Z) (p : point) : point :=
  (fst p + dx, snd p + dy).

Lemma _euclidean_dist_translate (dx dy : Z) (p q : point) :
  _euclidean_dist (translate dx dy p) (translate dx dy q) = _euclidean_dist p q.
Proof.
  unfold _euclidean_dist, translate. cbn [fst snd].
  replace (fst p + dx - (fst q + dx)) with (fst p - fst q) by lia.
  replace (snd p + dy - (snd q + dy)) with (snd p - snd q) by lia.
  reflexivity.
Qed.

(** X12.  In pixel space the distance and the EAR do not depend on where
    the eye is in the frame: moving every landmark by the same whole number
    of pixels, to a place that is in pixel space too, leaves
    [_euclidean_dist] and the result of [_calculate_ear] unchanged, on
    lists of any length. *)
Theorem ear_is_translation_invariant (dx dy : Z) :
  (forall p q : point,
      is_pixel p = true -> is_pixel q = true ->
      is_pixel (translate dx dy p) = true ->
      is_pixel (translate dx dy q) = true ->
      _euclidean_dist (translate dx dy p) (translate dx dy q)
      = _euclidean_dist p q) /\
  (forall (eye_landmarks : list point) (st : EyeTracker),
      forallb is_pixel eye_landmarks = true ->
      forallb is_pixel (map (translate dx dy) eye_landmarks) = true ->
      _calculate_ear (map (translate dx dy) eye_landmarks) st
      = _calculate_ear eye_landmarks st).
Proof.
  split; [intros p q _ _ _ _; apply _euclidean_dist_translate|].
  intros eye_landmarks st _ _. rewrite !_calculate_ear_pure. f_equal. f_equal.
  destruct eye_landmarks as [|p0 [|p1 [|p2 [|p3 [|p4 [|p5 rest]]]]]];
    try reflexivity.
  cbn [map ear_of]. unfold EAR.
  rewrite !_euclidean_dist_translate. reflexivity.
Qed.

Lemma ear_is_translation_invariant_witness :
  let eye := [(0, 5); (3, 8); (7, 8); (10, 5); (7, 2); (3, 2)] in
  let st := __init__ defaults in
  forallb is_pixel eye = true /\
  forallb is_pixel (map (translate 300 (-2)) eye) = true /\
  _calculate_ear (map (translate 300 (-2)) eye) st = _calculate_ear eye st.
Proof.
  cbv zeta. split; [reflexivity|]. split; [reflexivity|].
  apply (proj2 (ear_is_translation_invariant 300 (-2))); reflexivity.
Defined.

(** *** Signs *)

(** Rounding produces the sign it is given. *)
Lemma binary_round_aux_sign (sx : bool) (mx ex : Z) (lx : location) :
  binary_round_aux F.prec F.emax sx mx ex lx
  = (if sx then SFopp (binary_round_aux F.prec F.emax false mx ex lx)
     else binary_round_aux F.prec F.emax false mx ex lx).
Proof.
  destruct sx; [|reflexivity].
  unfold binary_round_aux.
  destruct (shr_fexp F.prec F.emax mx ex lx) as [mrs e'].
  destruct (shr_fexp F.prec F.emax _ e' loc_Exact) as [mrs' e''].
  destruct (shr_m mrs') as [|m|m]; try reflexivity.
  destruct (e'' <=? F.emax - F.prec); reflexivity.
Qed.

Lemma of_Z_opp (z : Z) : F.of_Z (- z) = SFopp (F.of_Z z) \/ z = 0.
Proof.
  destruct z as [|m|m]; [right; reflexivity| |]; left;
    unfold F.of_Z, binary_normalize, binary_round; cbn [Z.opp];
    destruct (shl_align _ _ _) as [mz ez];
    rewrite (binary_round_aux_sign true); cbn [SFopp];
    [reflexivity|].
  destruct (binary_round_aux F.prec F.emax false (Z.pos mz) ez loc_Exact)
    as [[]|[]| |[] ? ?]; reflexivity.
Qed.

Lemma mul_opp_opp (x : float) : F.mul (SFopp x) (SFopp x) = F.mul x x.
Proof.
  destruct x as [[]|[]| |[] m e]; reflexivity.
Qed.

Lemma square_of_Z_opp (z : Z) :
  F.mul (F.of_Z (- z)) (F.of_Z (- z)) = F.mul (F.of_Z z) (F.of_Z z).
Proof.
  destruct (of_Z_opp z) as [->| ->]; [apply mul_opp_opp|reflexivity].
Qed.

(** X13.  The distance is symmetric: [_euclidean_dist p q] and
    [_euclidean_dist q p] are the same float, for all points. *)
Theorem _euclidean_dist_is_symmetric (p q : point) :
  _euclidean_dist p q = _euclidean_dist q p.
Proof.
  unfold _euclidean_dist.
  replace (fst q - fst p) with (- (fst p - fst q)) by lia.
  replace (snd q - snd p) with (- (snd p - snd q)) by lia.
  rewrite !square_of_Z_opp. reflexivity.
Qed.
End EarGeometry.

(** ** The sign of the EAR *)

Section EarSign.
Import Config Tracker.

(** The sign bit is clear: a NaN, [+0], [+inf] or a positive number. *)
Definition sign_clear (x : float) : bool :=
  match x with
  | S754_zero s | S754_infinity s | S754_finite s _ _ => negb s
  | S754_nan => true
  end.

Lemma round_sign_clear (mx ex : Z) (lx : location) :
  sign_clear (binary_round_aux F.prec F.emax false mx ex lx) = true.
Proof.
  unfold binary_round_aux.
  destruct (shr_fexp F.prec F.emax mx ex lx) as [mrs e'].
  destruct (shr_fexp F.prec F.emax _ e' loc_Exact) as [mrs' e''].
  destruct (shr_m mrs') as [|m|m]; try reflexivity.
  destruct (e'' <=? F.emax - F.prec); reflexivity.
Qed.

Lemma square_sign_clear (x : float) : sign_clear (F.mul x x) = true.
Proof.
  destruct x as [[]|[]| |[] m e]; try reflexivity;
    unfold F.mul, SFmul; cbn [xorb]; apply round_sign_clear.
Qed.

Lemma add_sign_clear (x y : float) :
  sign_clear x = true -> sign_clear y = true -> sign_clear (F.add x y) = true.
Proof.
  destruct x as [[]|[]| |[] mx ex], y as [[]|[]| |[] my ey];
    try discriminate; try reflexivity.
  intros _ _. unfold F.add, SFadd. cbn [cond_Zopp Z.add].
  unfold binary_normalize, binary_round.
  destruct (shl_align _ _ _) as [mz ez]. apply round_sign_clear.
Qed.

Lemma sqrt_sign_clear (x : float) :
  sign_clear x = true -> sign_clear (F.sqrt x) = true.
Proof.
  destruct x as [[]|[]| |[] m e]; try discriminate; try reflexivity.
  intros _. unfold F.sqrt, SFsqrt.
  destruct (SFsqrt_core_binary F.prec F.emax (Z.pos m) e) as [[mz ez] lz].
  apply round_sign_clear.
Qed.

Lemma div_sign_clear (x y : float) :
  sign_clear x = true -> sign_clear y = true -> sign_clear (F.div x y) = true.
Proof.
  destruct x as [[]|[]| |[] mx ex], y as [[]|[]| |[] my ey];
    try discriminate; try reflexivity.
  intros _ _. unfold F.div, SFdiv.
  destruct (SFdiv_core_binary F.prec F.emax (Z.pos mx) ex (Z.pos my) ey)
    as [[mz ez] lz].
  cbn [xorb]. apply round_sign_clear.
Qed.

Lemma twice_sign_clear (x : float) :
  sign_clear x = true -> sign_clear (F.mul (F.of_Z 2) x) = true.
Proof.
  assert (H2 : F.of_Z 2 = S754_finite false 4503599627370496 (-51))
    by (vm_compute; reflexivity).
  rewrite H2.
  destruct x as [[]|[]| |[] m e]; try discriminate; try reflexivity.
  intros _. unfold F.mul, SFmul. cbn [xorb]. apply round_sign_clear.
Qed.

Lemma _euclidean_dist_sign_clear (p q : point) :
  sign_clear (_euclidean_dist p q) = true.
Proof.
  unfold _euclidean_dist.
  apply sqrt_sign_clear, add_sign_clear; apply square_sign_clear.
Qed.

Lemma EAR_sign_clear (p0 p1 p2 p3 p4 p5 : point) :
  sign_clear (EAR p0 p1 p2 p3 p4 p5) = true.
Proof.
  unfold EAR. apply div_sign_clear.
  - apply add_sign_clear; apply _euclidean_dist_sign_clear.
  - apply twice_sign_clear, _euclidean_dist_sign_clear.
Qed.

Lemma ear_of_sign_clear (eye : list point) (v : float) :
  ear_of eye = Ok v -> sign_clear v = true.
Proof.
  destruct eye as [|p0 [|p1 [|p2 [|p3 [|p4 [|p5 rest]]]]]]; try discriminate.
  cbn [ear_of]. intros H. injection H as <-. apply EAR_sign_clear.
Qed.

Lemma mean_sign_clear (l r : float) :
  sign_clear l = true -> sign_clear r = true ->
  sign_clear (F.div (F.add l r) (F.of_Z 2)) = true.
Proof.
  intros Hl Hr. apply div_sign_clear; [apply add_sign_clear; assumption|].
  vm_compute. reflexivity.
Qed.

Lemma sign_clear_not_below_zero (x : float) :
  sign_clear x = true -> F.ltb x (F.of_Z 0) = false.
Proof.
  destruct x as [[]|[]| |[] m e]; try discriminate; reflexivity.
Qed.

(** The three EAR fields of the snapshot have a clear sign. *)
Definition ears_sign_clear (st : EyeTracker) : Prop :=
  sign_clear (left_ear (data st)) = true /\
  sign_clear (right_ear (data st)) = true /\
  sign_clear (avg_ear (data st)) = true.

Lemma tick_ears_sign_clear (frame : detection) (st : EyeTracker) :
  ears_sign_clear st -> ears_sign_clear (state_of (process_frame frame st)).
Proof.
  intros (Hl & Hr & Ha). rewrite process_frame_paths.
  unfold tick_outcome, aborted, completed.
  destruct (MAX_FRAME_SKIP (config st) <=? _frame_skip_counter st + 1);
    [|repeat split; assumption].
  destruct frame as [face| |e]; [| |repeat split; assumption].
  - destruct (extract face (LEFT_EYE_INDICES (config st))) as [left_eye|e];
      [|repeat split; assumption].
    destruct (extract face (RIGHT_EYE_INDICES (config st))) as [right_eye|e];
      [|repeat split; assumption].
    destruct (ear_of left_eye) as [l|e] eqn:Hel; [|repeat split; assumption].
    apply ear_of_sign_clear in Hel.
    destruct (ear_of right_eye) as [r|e] eqn:Her;
      [|repeat split; assumption].
    apply ear_of_sign_clear in Her.
    cbv zeta. unfold state_of at 1. cbn [fst snd]. unfold ears_sign_clear.
    destruct (_update_blink_detection_frame
                (with_ears l r
                   (with_landmarks left_eye right_eye
                      (set_frame_skip_counter 0 st))))
      as (_ & -> & -> & -> & _).
    cbn. repeat split; try assumption. apply mean_sign_clear; assumption.
  - destruct (_last_valid_landmarks st) as [[left_eye right_eye]|];
      repeat split; assumption.
Qed.

Lemma run_ears_sign_clear (frames : list detection) :
  forall st, ears_sign_clear st -> ears_sign_clear (state_of (run frames st)).
Proof.
  induction frames as [|f rest IH]; intros st H; [exact H|].
  rewrite run_cons. cbv zeta. change (state_of (?v, ?s, ?t)) with s.
  apply IH, tick_ears_sign_clear, H.
Qed.

(** X14.  The EAR is never negative.  The ratio of any six points, and the
    mean of two such ratios, is not below zero (it is NaN, +infinity or a
    number at or above 0), and on a tracker run from its construction none
    of the three EAR fields of the snapshot ever compares below zero. *)
Theorem ear_is_never_negative :
  (forall p0 p1 p2 p3 p4 p5 : point,
      F.ltb (EAR p0 p1 p2 p3 p4 p5) (F.of_Z 0) = false) /\
  (forall (config : Configuration) (os : list EyeTrackingObserver)
          (frames : list detection),
      let d := data (state_of (run frames (set_observers os (__init__ config)))) in
      F.ltb (left_ear d) (F.of_Z 0) = false /\
      F.ltb (right_ear d) (F.of_Z 0) = false /\
      F.ltb (avg_ear d) (F.of_Z 0) = false).
Proof.
  split.
  - intros. apply sign_clear_not_below_zero, EAR_sign_clear.
  - intros config os frames. cbv zeta.
    destruct (run_ears_sign_clear frames (set_observers os (__init__ config)))
      as (Hl & Hr & Ha); [repeat split|].
    repeat split; apply sign_clear_not_below_zero; assumption.
Qed.
End EarSign.

(** ** A threshold of zero *)

Section ZeroThreshold.
Import Config Tracker.

Lemma zero_threshold_tick (frame : detection) (st : EyeTracker) :
  EAR_THRESHOLD (config st) = F.of_Z 0 ->
  1 <= CONSECUTIVE_FRAMES (config st) ->
  ears_sign_clear st -> frame_counter st = 0 ->
  let o := process_frame frame st in
  config (state_of o) = config st /\
  ears_sign_clear (state_of o) /\
  frame_counter (state_of o) = 0 /\
  blink_count (data (state_of o)) = blink_count (data st) /\
  published_counts (trace_of o) = [].
Proof.
  intros Hthr Hcf Hears Hfc. cbv zeta.
  split; [apply tick_schedule|].
  split; [apply tick_ears_sign_clear; exact Hears|].
  rewrite process_frame_paths. unfold tick_outcome, aborted, completed.
  destruct (MAX_FRAME_SKIP (config st) <=? _frame_skip_counter st + 1);
    [|unfold state_of, trace_of; cbn [fst snd]; trace_simpl; repeat split;
      exact Hfc].
  destruct frame as [face| |e]; [| |repeat split; exact Hfc].
  - destruct (extract face (LEFT_EYE_INDICES (config st))) as [left_eye|e];
      [|repeat split; exact Hfc].
    destruct (extract face (RIGHT_EYE_INDICES (config st))) as [right_eye|e];
      [|repeat split; exact Hfc].
    destruct (ear_of left_eye) as [l|e] eqn:Hel; [|repeat split; exact Hfc].
    apply ear_of_sign_clear in Hel.
    destruct (ear_of right_eye) as [r|e] eqn:Her; [|repeat split; exact Hfc].
    apply ear_of_sign_clear in Her.
    cbv zeta. rewrite _update_blink_detection_cases.
    cbn [with_ears with_landmarks on_data set_avg_ear set_left_ear set_right_ear
         set_left_eye_landmarks set_right_eye_landmarks set_last_valid_landmarks
         set_frame_skip_counter data avg_ear left_ear right_ear config
         frame_counter blink_count observers].
    rewrite Hthr, Hfc.
    rewrite (sign_clear_not_below_zero _ (mean_sign_clear l r Hel Her)).
    destruct (Z.leb_spec (CONSECUTIVE_FRAMES (config st)) 0); [lia|].
    unfold state_of, trace_of; cbn [fst snd]. trace_simpl. repeat split.
  - destruct (_last_valid_landmarks st) as [[left_eye right_eye]|];
      unfold state_of, trace_of; cbn [fst snd]; trace_simpl; repeat split;
      exact Hfc.
Qed.

(** X15.  An [EAR_THRESHOLD] of 0.0 passes validation and switches blink
    detection off: with [CONSECUTIVE_FRAMES >= 1], a tracker run from its
    construction on any frames never counts and never publishes a blink,
    since no EAR is below zero. *)
Theorem zero_threshold_never_blinks
        (config : Configuration) (os : list EyeTrackingObserver)
        (frames : list detection) :
  EAR_THRESHOLD config = F.of_Z 0 ->
  1 <= CONSECUTIVE_FRAMES config ->
  let o := run frames (set_observers os (__init__ config)) in
  blink_count (data (state_of o)) = 0 /\
  published_counts (trace_of o) = [].
Proof.
  intros Hthr Hcf. cbv zeta.
  assert (Hrun : forall fs st,
             EAR_THRESHOLD (Tracker.config st) = F.of_Z 0 ->
             1 <= CONSECUTIVE_FRAMES (Tracker.config st) ->
             ears_sign_clear st -> frame_counter st = 0 ->
             blink_count (data (state_of (run fs st))) = blink_count (data st) /\
             published_counts (trace_of (run fs st)) = []).
  { induction fs as [|f rest IH]; intros st H1 H2 H3 H4.
    - split; reflexivity.
    - rewrite run_cons. cbv zeta.
      change (state_of (?v, ?s, ?t)) with s.
      change (trace_of (?v, ?s, ?t)) with t.
      destruct (zero_threshold_tick f st H1 H2 H3 H4)
        as (Hcfg & Hears & Hfc & Hbc & Hpub).
      destruct (IH (state_of (process_frame f st))) as [Hbc' Hpub'];
        try assumption; try (rewrite Hcfg; assumption).
      rewrite published_counts_app, Hpub, Hpub', Hbc', Hbc.
      split; reflexivity. }
  apply (Hrun frames (set_observers os (__init__ config))); try assumption.
  - repeat split.
  - reflexivity.
Qed.

Lemma zero_threshold_never_blinks_witness :
  let config := with_EAR_THRESHOLD (F.of_Z 0) defaults in
  let frames := [Detected (face_of (closed_eye 0) (closed_eye 20));
                 Detected (face_of (closed_eye 0) (closed_eye 20));
                 Detected (face_of (zero_width_eye 0) (closed_eye 20))] in
  construct config = Ok config /\
  EAR_THRESHOLD config = F.of_Z 0 /\
  1 <= CONSECUTIVE_FRAMES config /\
  blink_count (data (state_of (run frames (set_observers [] (__init__ config)))))
  = 0.
Proof.
  cbv zeta. split; [vm_compute; reflexivity|].
  split; [reflexivity|]. split; [discriminate|].
  apply (zero_threshold_never_blinks
           (with_EAR_THRESHOLD (F.of_Z 0) defaults) []);
    [reflexivity|discriminate].
Defined.
End ZeroThreshold.

(** ** More on the Blink-Rate Monitor *)

Section MonitorWindows.
Import Config Notifier.

(** The errors the monitor logged. *)
Fixpoint logged_errors (t : list event) : list exn :=
  match t with
  | [] => []
  | LogError e :: t' => e :: logged_errors t'
  | _ :: t' => logged_errors t'
  end.

(** The check interval has elapsed (line 23). *)
Definition due (self : NotificationManager) (w : world) : bool :=
  F.leb (F.ratio (NOTIFICATION_CHECK_INTERVAL (config self)) 1000)
        (total_seconds (now_check w - last_check_time self)).

(** X16.  [reset_tracking] starts the monitor afresh: the window starts at
    the given instant with a count of 0 and no alert is remembered, so the
    next evaluation of a low rate calls the alert sink however recently an
    alert went out before the reset. *)
Theorem reset_tracking_forgets_the_cooldown
        (st : NotificationManager) (now : Z) :
  let st' := state_of (reset_tracking now st) in
  (last_blink_count st' = 0 /\
   last_check_time st' = now /\
   last_notification_time st' = None /\
   notification_cooldown st' = notification_cooldown st /\
   config st' = config st) /\
  (forall (w : world) (count : Z) (rate : float),
      window_rate st' w count = Some rate ->
      low st' rate = true ->
      sink_calls (trace_of (check_blink_rate_and_notify w count st'))
      = [now_send w]).
Proof.
  cbv zeta. split; [repeat split|].
  intros w count rate Hrate Hlow.
  rewrite check_blink_rate_and_notify_cases. cbv zeta.
  unfold window_rate in Hrate.
  destruct (F.leb _ _); [|discriminate].
  destruct (py_float_div _ _) as [q|e]; [|discriminate].
  injection Hrate as Hrate. rewrite Hrate, Hlow.
  rewrite _send_low_blink_notification_cases.
  unfold in_cooldown, reset_tracking, modify, state_of.
  cbn [fst snd last_notification_time set_last_notification_time].
  destruct (sink w); reflexivity.
Qed.

Lemma reset_tracking_forgets_the_cooldown_witness :
  let st := set_last_notification_time (Some (seconds 60))
              (set_last_check 5 (seconds 60) (__init__ defaults 0)) in
  let st' := state_of (reset_tracking (seconds 61) st) in
  let w := fst (at_second 121 1) in
  window_rate st' w 1 = Some (F.of_Z 1) /\
  low st' (F.of_Z 1) = true /\
  sink_calls (trace_of (check_blink_rate_and_notify w 1 st')) = [seconds 121].
Proof.
  cbv zeta. split; [vm_compute; reflexivity|]. split; [vm_compute; reflexivity|].
  apply (proj2 (reset_tracking_forgets_the_cooldown
                  (set_last_notification_time (Some (seconds 60))
                     (set_last_check 5 (seconds 60) (__init__ defaults 0)))
                  (seconds 61))
               (fst (at_second 121 1)) 1 (F.of_Z 1));
    vm_compute; reflexivity.
Defined.

(** X17.  Windows do not overlap.  Called before the check interval has
    elapsed, the monitor does nothing at all: no event, and the window
    keeps its start.  Every call that evaluates a window returns, and
    restarts the window at the current count and instant, whether an alert
    went out, was suppressed, failed or was not needed. *)
Theorem windows_do_not_overlap (st : NotificationManager) (w : world)
        (count : Z) :
  let o := check_blink_rate_and_notify w count st in
  (due st w = false -> o = (Ok tt, st, [])) /\
  (forall rate : float,
      window_rate st w count = Some rate ->
      value_of o = Ok tt /\
      last_blink_count (state_of o) = count /\
      last_check_time (state_of o) = now_check w).
Proof.
  cbv zeta. rewrite check_blink_rate_and_notify_cases. cbv zeta.
  unfold due, window_rate. split.
  - intros ->. reflexivity.
  - intros rate Hrate.
    destruct (F.leb _ _); [|discriminate].
    destruct (py_float_div _ _) as [q|e]; [|discriminate].
    repeat split.
Qed.

Lemma windows_do_not_overlap_witness :
  let st := __init__ defaults 0 in
  due st (fst (at_second 59 3)) = false /\
  check_blink_rate_and_notify (fst (at_second 59 3)) 3 st = (Ok tt, st, []) /\
  window_rate st (fst (at_second 60 20)) 20 = Some (F.of_Z 20) /\
  last_blink_count
    (state_of (check_blink_rate_and_notify (fst (at_second 60 20)) 20 st)) = 20.
Proof.
  cbv zeta. split; [vm_compute; reflexivity|]. split.
  { apply (proj1 (windows_do_not_overlap (__init__ defaults 0)
                    (fst (at_second 59 3)) 3)).
    vm_compute; reflexivity. }
  split; [vm_compute; reflexivity|].
  apply (proj2 (windows_do_not_overlap (__init__ defaults 0)
                  (fst (at_second 60 20)) 20) (F.of_Z 20)).
  vm_compute; reflexivity.
Defined.

(** X18.  A failing alert sink is swallowed and does not start the
    cooldown: when [notification.notify] raises, the call still returns,
    the error is logged, no alert is recorded, and the instant of the last
    alert stays what it was, so the cooldown test answers as before. *)
Theorem failed_notification_does_not_start_the_cooldown
        (st : NotificationManager) (w : world) (count : Z) (rate : float)
        (e : exn) :
  window_rate st w count = Some rate ->
  low st rate = true ->
  in_cooldown st (now_send w) = false ->
  sink w = Raises e ->
  let o := check_blink_rate_and_notify w count st in
  value_of o = Ok tt /\
  sink_calls (trace_of o) = [now_send w] /\
  logged_errors (trace_of o) = [e] /\
  alerts (trace_of o) = [] /\
  last_notification_time (state_of o) = last_notification_time st /\
  (forall t : Z, in_cooldown (state_of o) t = in_cooldown st t).
Proof.
  intros Hrate Hlow Hcd Hsink. cbv zeta.
  rewrite check_blink_rate_and_notify_cases. cbv zeta.
  unfold window_rate in Hrate.
  destruct (F.leb _ _); [|discriminate].
  destruct (py_float_div _ _) as [q|e']; [|discriminate].
  injection Hrate as Hrate. rewrite Hrate, Hlow.
  rewrite _send_low_blink_notification_cases, Hcd, Hsink.
  repeat split.
Qed.

Lemma failed_notification_does_not_start_the_cooldown_witness :
  let st := __init__ defaults 0 in
  let w := {| now_check := seconds 60; now_send := seconds 60;
              sink := Raises (OtherException "no notification service") |} in
  window_rate st w 5 = Some (F.of_Z 5) /\
  low st (F.of_Z 5) = true /\
  in_cooldown st (now_send w) = false /\
  last_notification_time (state_of (check_blink_rate_and_notify w 5 st)) = None.
Proof.
  cbv zeta. split; [vm_compute; reflexivity|]. split; [vm_compute; reflexivity|].
  split; [reflexivity|].
  refine (proj1 (proj2 (proj2 (proj2 (proj2
            (failed_notification_does_not_start_the_cooldown
               (__init__ defaults 0)
               {| now_check := seconds 60; now_send := seconds 60;
                  sink := Raises (OtherException "no notification service") |}
               5 (F.of_Z 5) (OtherException "no notification service")
               _ _ _ _))))));
    vm_compute; reflexivity.
Defined.

(** An integer that Python converts to a [float] exactly: its magnitude is
    at most 2^53.  (From 2^1024 on the conversion raises [OverflowError].) *)
Definition float_exact (n : Z) : bool := Z.abs n <=? 2 ^ 53.

(** The numbers one call of [check_blink_rate_and_notify] converts (the
    blinks in the window, the two knobs and the microseconds elapsed) are
    all in that range. *)
Definition in_float_range (self : NotificationManager) (w : world)
    (current_blink_count : Z) : bool :=
  float_exact (current_blink_count - last_blink_count self)
  && float_exact (NOTIFICATION_CHECK_INTERVAL (config self))
  && float_exact (MIN_BLINKS_PER_MINUTE (config self))
  && float_exact (now_check w - last_check_time self).

(** X19.  For numbers in the range where Python converts an [int] to a
    [float] exactly (magnitude up to 2^53: blink counts, the two knobs and
    the microseconds elapsed), the only exception
    [check_blink_rate_and_notify] lets out is a [ZeroDivisionError], raised
    when the elapsed time is zero and before anything is changed or
    emitted.  It is raised when the check interval is configured as 0
    (construction accepts that) and the call comes at the very instant the
    window started. *)
Theorem check_raises_only_on_zero_elapsed_time
        (st : NotificationManager) (w : world) (count : Z) :
  in_float_range st w count = true ->
  let o := check_blink_rate_and_notify w count st in
  (value_of o = Ok tt \/
   (o = (Raise ZeroDivisionError, st, []) /\
    F.is_zero (total_seconds (now_check w - last_check_time st)) = true)) /\
  (NOTIFICATION_CHECK_INTERVAL (config st) = 0 ->
   now_check w = last_check_time st ->
   o = (Raise ZeroDivisionError, st, [])).
Proof.
  intros _. cbv zeta. rewrite check_blink_rate_and_notify_cases. cbv zeta. split.
  - destruct (F.leb _ _); [|left; reflexivity].
    unfold py_float_div.
    destruct (F.is_zero (total_seconds (now_check w - last_check_time st)));
      [right; split; reflexivity|left; reflexivity].
  - intros -> ->. rewrite Z.sub_diag.
    assert (H0 : total_seconds 0 = F.zero) by (vm_compute; reflexivity).
    rewrite H0.
    assert (Hdue : F.leb (F.ratio 0 1000) F.zero = true)
      by (vm_compute; reflexivity).
    rewrite Hdue. reflexivity.
Qed.

Lemma check_raises_only_on_zero_elapsed_time_witness :
  let st := __init__ (with_unchecked_knobs 2 0 15 0
                        (LEFT_EYE_INDICES defaults) (RIGHT_EYE_INDICES defaults)
                        defaults) 0 in
  in_float_range st (fst (at_second 0 1)) 1 = true /\
  NOTIFICATION_CHECK_INTERVAL (config st) = 0 /\
  now_check (fst (at_second 0 1)) = last_check_time st /\
  check_blink_rate_and_notify (fst (at_second 0 1)) 1 st
  = (Raise ZeroDivisionError, st, []).
Proof.
  cbv zeta. split; [vm_compute; reflexivity|].
  split; [reflexivity|]. split; [reflexivity|].
  apply (proj2 (check_raises_only_on_zero_elapsed_time
                  (__init__ (with_unchecked_knobs 2 0 15 0
                               (LEFT_EYE_INDICES defaults)
                               (RIGHT_EYE_INDICES defaults) defaults) 0)
                  (fst (at_second 0 1)) 1 eq_refl));
    reflexivity.
Defined.

(** X20.  One call sends at most one alert, and it sends one exactly when
    all four hold: the window is evaluated, its rate is below
    [MIN_BLINKS_PER_MINUTE], the cooldown test of lines 40-41 is negative,
    and the alert sink accepts the call. *)
Theorem alert_goes_out_exactly_when (st : NotificationManager) (w : world)
        (count : Z) :
  let o := check_blink_rate_and_notify w count st in
  (alerts (trace_of o) = [] \/ alerts (trace_of o) = [now_send w]) /\
  (alerts (trace_of o) = [now_send w] <->
   exists rate : float,
     window_rate st w count = Some rate /\
     low st rate = true /\
     in_cooldown st (now_send w) = false /\
     sink w = Returns).
Proof.
  cbv zeta. rewrite check_blink_rate_and_notify_cases. cbv zeta.
  unfold window_rate.
  destruct (F.leb _ _);
    [|split; [left; reflexivity
             |split; [discriminate|intros (r & H & _); discriminate]]].
  destruct (py_float_div _ _) as [q|e];
    [|split; [left; reflexivity
             |split; [discriminate|intros (r & H & _); discriminate]]].
  destruct (low st (F.mul q (F.of_Z 60))) eqn:Hlow;
    [|split; [left; reflexivity
             |split; [discriminate
                     |intros (r & H & Hl & _); injection H as <-; congruence]]].
  rewrite _send_low_blink_notification_cases.
  destruct (in_cooldown st (now_send w)) eqn:Hcd;
    [split; [left; reflexivity
            |split; [discriminate|intros (r & _ & _ & H & _); discriminate]]|].
  destruct (sink w) as [|e] eqn:Hsink.
  - split; [right; reflexivity|]. split; [|reflexivity].
    intros _. exists (F.mul q (F.of_Z 60)). repeat split. exact Hlow.
  - split; [left; reflexivity|].
    split; [discriminate|intros (r & _ & _ & _ & H); discriminate].
Qed.
End MonitorWindows.

(** ** What validation guarantees about the threshold *)

Section ValidatedThreshold.
Import Config Tracker.

Lemma between_0_and_1_is_a_number (x : float) :
  between_0_and_1 x = true -> F.is_nan x = false /\ F.is_inf x = false.
Proof.
  unfold between_0_and_1. intros H. apply andb_prop in H as [H0 H1].
  destruct x as [s|s| |s m e]; try (split; reflexivity).
  - destruct s; [discriminate H0|discriminate H1].
  - discriminate H0.
Qed.

(** X21.  A configuration that was constructed has a threshold that is a
    number: neither NaN nor an infinity.  For such a threshold the two
    branches of the detector split the samples that are numbers into those
    below the threshold and those at or above it.  Both ends of the range
    are accepted: a threshold of 0.0 and a threshold of 1.0 construct
    whenever the rest of the configuration does. *)
Theorem constructed_threshold_is_a_number (fields c : Configuration) :
  construct fields = Ok c ->
  c = fields /\
  F.is_nan (EAR_THRESHOLD c) = false /\
  F.is_inf (EAR_THRESHOLD c) = false /\
  (forall sample : float,
      F.is_nan sample = false ->
      negb (F.ltb sample (EAR_THRESHOLD c)) = F.leb (EAR_THRESHOLD c) sample) /\
  construct (with_EAR_THRESHOLD (F.of_Z 0) c)
  = Ok (with_EAR_THRESHOLD (F.of_Z 0) c) /\
  construct (with_EAR_THRESHOLD (F.of_Z 1) c)
  = Ok (with_EAR_THRESHOLD (F.of_Z 1) c).
Proof.
  rewrite construct_cases.
  destruct (between_0_and_1 (EAR_THRESHOLD fields)) eqn:Ht; [|discriminate].
  destruct (between_0_and_1 (MIN_DETECTION_CONFIDENCE fields)) eqn:Hd;
    [|discriminate].
  destruct (between_0_and_1 (MIN_TRACKING_CONFIDENCE fields)) eqn:Hk;
    [|discriminate].
  intros H. injection H as <-.
  destruct (between_0_and_1_is_a_number _ Ht) as [Hnan Hinf].
  split; [reflexivity|]. split; [exact Hnan|]. split; [exact Hinf|].
  split; [|split].
  - intros sample Hs. apply not_below_is_at_or_above; assumption.
  - rewrite construct_cases.
    cbn [EAR_THRESHOLD MIN_DETECTION_CONFIDENCE MIN_TRACKING_CONFIDENCE
         with_EAR_THRESHOLD].
    rewrite Hd, Hk.
    assert (H0 : between_0_and_1 (F.of_Z 0) = true) by (vm_compute; reflexivity).
    rewrite H0. reflexivity.
  - rewrite construct_cases.
    cbn [EAR_THRESHOLD MIN_DETECTION_CONFIDENCE MIN_TRACKING_CONFIDENCE
         with_EAR_THRESHOLD].
    rewrite Hd, Hk.
    assert (H1 : between_0_and_1 (F.of_Z 1) = true) by (vm_compute; reflexivity).
    rewrite H1. reflexivity.
Qed.

Lemma constructed_threshold_is_a_number_witness :
  construct defaults = Ok defaults /\
  F.is_nan (EAR_THRESHOLD defaults) = false /\
  construct (with_EAR_THRESHOLD (F.of_Z 1) defaults)
  = Ok (with_EAR_THRESHOLD (F.of_Z 1) defaults).
Proof.
  split; [vm_compute; reflexivity|].
  pose proof (constructed_threshold_is_a_number defaults defaults) as H.
  split; apply H; vm_compute; reflexivity.
Defined.
End ValidatedThreshold.

(** * The camera wrapper ([old/video_capture.py]) *)

Module Camera.

(** A frame is kept as the tracker sees it: by what the Landmark Provider
    answers for it. *)
Definition frame : Type := Tracker.detection.

(** What [cv2.VideoCapture(index)] does: it returns a capture object that
    is open or not, or it raises. *)
Inductive opening : Type :=
| Opened (isOpened : bool)
| OpenRaises (e : exn).

(** What one [cap.read()] does: it returns the pair [(ret, frame)], or it
    raises. *)
Inductive reading : Type :=
| Read (ret : bool) (image : option frame)
| ReadRaises (e : exn).

(** [config] is kept by the one field read after construction,
    [CAMERA_INDEX]; [cap] is the capture object, by the index of the device
    it holds, or [None]. *)
Record VideoCapture : Type := {
  camera_index : Z;
  cap : option Z;
  is_initialized : bool
}.

Inductive event : Type :=
| DeviceOpened (index : Z)
    (* [cv2.VideoCapture(index)] returned a capture object *)
| DeviceRead
    (* [cap.read()] is called *)
| DeviceReleased
    (* [cap.release()] is called *)
| LogInfo (msg : string)
| LogWarning (msg : string)
| LogError (e : exn).

Definition C : Type -> Type := @M VideoCapture event.

Definition set_cap (c : option Z) (s : VideoCapture) : VideoCapture :=
  {| camera_index := camera_index s; cap := c;
     is_initialized := is_initialized s |}.

Definition set_is_initialized (b : bool) (s : VideoCapture) : VideoCapture :=
  {| camera_index := camera_index s; cap := cap s; is_initialized := b |}.

(** [try: return m except Exception as e: return h e] *)
Definition try_return {S E A} (m : @M S E A) (h : exn -> @M S E A) : @M S E A :=
  fun s =>
    match m s with
    | (Ok a, s1, t1) => (Ok a, s1, t1)
    | (Raise e, s1, t1) =>
        match h e s1 with
        | (r, s2, t2) => (r, s2, t1 ++ t2)
        end
    end.

Definition is_None {A} (x : option A) : bool :=
  match x with None => true | Some _ => false end.

(** [str(n)] of an [int]: its decimal digits. *)
Definition str (n : Z) : string := NilZero.string_of_int (Z.to_int n).

(** [self.cap.read()] *)
Definition cap_read (r : reading) : C (bool * option frame) :=
  emit DeviceRead ;;
  match r with
  | Read ok image => ret (ok, image)
  | ReadRaises e => raise e
  end.

(** [if self.cap: self.cap.release(); self.cap = None] *)
Definition release_cap : C unit :=
  self <- get ;;
  match cap self with
  | Some _ => emit DeviceReleased ;; modify (set_cap None)
  | None => ret tt
  end.

(** The two [cap.set] calls return (a property the device does not support
    makes them return [False]). *)
Definition _initialize_camera (o : opening) (test : reading) : C unit :=
  try_except
    (self <- get ;;
     match o with
     | OpenRaises e => raise e
     | Opened isOpened =>
         modify (set_cap (Some (camera_index self))) ;;
         emit (DeviceOpened (camera_index self)) ;;
         if negb isOpened
         then raise (OtherException
                       ("Cannot open camera " ++ str (camera_index self)))
         else
           r <- cap_read test ;;
           if negb (fst r) || is_None (snd r)
           then raise (OtherException "Camera read test failed")
           else
             modify (set_is_initialized true) ;;
             emit (LogInfo "Camera initialized successfully")
     end)
    (fun e =>
       emit (LogError e) ;;
       modify (set_is_initialized false) ;;
       release_cap).

(** [VideoCapture(config)] *)
Definition __init__ (index : Z) (o : opening) (test : reading)
  : result unit * VideoCapture * list event :=
  _initialize_camera o test
    {| camera_index := index; cap := None; is_initialized := false |}.

Definition read_frame (r : reading) : C (bool * option frame) :=
  self <- get ;;
  if negb (is_initialized self) || is_None (cap self) then ret (false, None)
  else
    try_return
      (got <- cap_read r ;;
       if negb (fst got)
       then emit (LogWarning "Failed to read frame from camera") ;;
            ret (false, None)
       else ret got)
      (fun e => emit (LogError e) ;; ret (false, None)).

Definition release : C unit :=
  release_cap ;;
  modify (set_is_initialized false) ;;
  emit (LogInfo "Camera released").

(** How often the device was read, and how often it was released. *)
Fixpoint device_reads (t : list event) : nat :=
  match t with
  | [] => 0
  | DeviceRead :: t' => S (device_reads t')
  | _ :: t' => device_reads t'
  end.

Fixpoint device_releases (t : list event) : nat :=
  match t with
  | [] => 0
  | DeviceReleased :: t' => S (device_releases t')
  | _ :: t' => device_releases t'
  end.

Fixpoint devices_opened (t : list event) : nat :=
  match t with
  | [] => 0
  | DeviceOpened _ :: t' => S (devices_opened t')
  | _ :: t' => devices_opened t'
  end.

End Camera.

Section CameraWrapper.
Import Camera.

(** X22.  Constructing the camera wrapper never raises.  It ends
    initialised exactly when the device opened and the test read returned
    a frame; then it holds the device.  In every other case it ends
    uninitialised and holds nothing, and a device that was opened has been
    released again: no failed start leaves a device behind. *)
Theorem camera_initialization_cleans_up (index : Z) (o : opening)
        (test : reading) :
  let r := __init__ index o test in
  value_of r = Ok tt /\
  (is_initialized (state_of r) = true <->
   o = Opened true /\ exists image, test = Read true (Some image)) /\
  (is_initialized (state_of r) = true ->
   cap (state_of r) = Some index /\ device_releases (trace_of r) = 0%nat) /\
  (is_initialized (state_of r) = false ->
   cap (state_of r) = None /\
   device_releases (trace_of r) = devices_opened (trace_of r)).
Proof.
  cbv zeta.
  destruct o as [[|]|e]; [destruct test as [[|] [image|]|e]| |];
    vm_compute; (split; [reflexivity|]);
    (split; [split; [first [discriminate
                           |intros _; split; [reflexivity|eexists; reflexivity]]
                    |intros [H1 [image' H2]];
                       first [discriminate H1|discriminate H2|reflexivity]]
            |split; intros H;
               first [discriminate H|split; reflexivity]]).
Qed.

Lemma read_frame_cases (r : reading) (st : VideoCapture) :
  read_frame r st =
  if negb (is_initialized st) || is_None (cap st) then (Ok (false, None), st, [])
  else match r with
       | Read true image => (Ok (true, image), st, [DeviceRead])
       | Read false image =>
           (Ok (false, None), st,
            [DeviceRead; LogWarning "Failed to read frame from camera"])
       | ReadRaises e => (Ok (false, None), st, [DeviceRead; LogError e])
       end.
Proof.
  unfold read_frame. rewrite bind_get.
  destruct (negb (is_initialized st) || is_None (cap st)); [reflexivity|].
  destruct r as [[|] image|e]; reflexivity.
Qed.

(** X23.  [read_frame] never raises and never changes the wrapper.  It
    answers [True] exactly when the wrapper is initialised, holds a device
    and the device's read answered [True], and then hands on what the
    device returned; every other answer is [(False, None)].  A wrapper that
    is not initialised, or holds no device, does not touch the device. *)
Theorem read_frame_never_raises (r : reading) (st : VideoCapture) :
  let o := read_frame r st in
  state_of o = st /\
  (exists (ok : bool) (image : option frame),
      value_of o = Ok (ok, image) /\
      (ok = true <->
       is_initialized st = true /\ cap st <> None /\ r = Read true image) /\
      (ok = false -> image = None)) /\
  (is_initialized st = false \/ cap st = None ->
   device_reads (trace_of o) = 0%nat).
Proof.
  cbv zeta. rewrite read_frame_cases.
  destruct (is_initialized st) eqn:Hi; cbn [negb orb].
  - destruct (cap st) as [c|] eqn:Hc; cbn [is_None].
    + destruct r as [[|] image|e]; (split; [reflexivity|]); split.
      * exists true, image. split; [reflexivity|]. split.
        -- split; [intros _; repeat split; discriminate|reflexivity].
        -- discriminate.
      * intros [H|H]; discriminate H.
      * exists false, None. split; [reflexivity|]. split.
        -- split; [discriminate|intros (_ & _ & H); discriminate H].
        -- reflexivity.
      * intros [H|H]; discriminate H.
      * exists false, None. split; [reflexivity|]. split.
        -- split; [discriminate|intros (_ & _ & H); discriminate H].
        -- reflexivity.
      * intros [H|H]; discriminate H.
    + split; [reflexivity|]. split; [|reflexivity].
      exists false, None. split; [reflexivity|]. split.
      * split; [discriminate|intros (_ & H & _); congruence].
      * reflexivity.
  - split; [reflexivity|]. split; [|reflexivity].
    exists false, None. split; [reflexivity|]. split.
    + split; [discriminate|intros (H & _); discriminate H].
    + reflexivity.
Qed.

Lemma release_cases (st : VideoCapture) :
  release st =
  (Ok tt, set_is_initialized false (set_cap None st),
   match cap st with
   | Some _ => [DeviceReleased; LogInfo "Camera released"]
   | None => [LogInfo "Camera released"]
   end).
Proof.
  unfold release, release_cap.
  destruct st as [i [c|] b]; reflexivity.
Qed.

(** X24.  [release] never raises, releases the device exactly when one is
    held, and leaves the wrapper uninitialised and holding nothing.
    Releasing again changes nothing and does not touch the device, and
    after a release every [read_frame] answers [(False, None)] without
    reading the device. *)
Theorem release_is_idempotent (st : VideoCapture) :
  let o := release st in
  value_of o = Ok tt /\
  is_initialized (state_of o) = false /\
  cap (state_of o) = None /\
  device_releases (trace_of o) = (if is_None (cap st) then 0 else 1)%nat /\
  state_of (release (state_of o)) = state_of o /\
  device_releases (trace_of (release (state_of o))) = 0%nat /\
  (forall r : reading,
      read_frame r (state_of o) = (Ok (false, None), state_of o, [])).
Proof.
  cbv zeta. rewrite !release_cases.
  unfold state_of, value_of, trace_of; cbn [fst snd].
  do 3 (split; [reflexivity|]).
  split; [destruct (cap st); reflexivity|].
  do 2 (split; [reflexivity|]).
  intros r. rewrite read_frame_cases. reflexivity.
Qed.
End CameraWrapper.

(** * The tracker widget ([app/main_app.py]) *)

Module App.
Import Config.

(** The fields of [EyeTrackerWidget] its event handlers work on, for a
    widget whose [__init__] ran to its end.  The Qt parts (layout, timers,
    the system monitor thread) are calls into the toolkit. *)
Record EyeTrackerWidget : Type := {
  auth_token : option string;
  session_start_time : Z;
  current_blink_count : Z;
  video_capture : Camera.VideoCapture;
  eye_tracker : Tracker.EyeTracker;
  notification_manager : Notifier.NotificationManager
}.

(** What [requests.post] does: it returns a response with a status code,
    or it raises. *)
Inductive response : Type :=
| Responded (status_code : Z)
| PostRaises (e : exn).

Inductive event : Type :=
| OfCamera (e : Camera.event)
| OfTracker (e : Tracker.event)
| OfMonitor (e : Notifier.event)
| Printed (blink_count : Z)
    (* [print(json.dumps({"blink_count": blink_count}), flush=True)] is
       called *)
| Posted (session_start_time session_end_time total_blinks : Z)
    (* [requests.post(.../sessions, json=session_data, ...)] is called *)
| DisplayFrame
    (* [self.video_display.display_frame(processed_frame)] is called *)
| Stopping
    (* [video_timer.stop()] and [system_monitor.stop_monitoring()] *)
| TrackerClosed
    (* [self.eye_tracker.close()] is called *)
| LogInfo (msg : string)
| LogWarning (msg : string)
| LogStatus (status_code : Z)
    (* the error logged for a response that is not 200 *)
| LogError (e : exn).

Definition W : Type -> Type := @M EyeTrackerWidget event.

Definition set_current_blink_count (n : Z) (s : EyeTrackerWidget)
  : EyeTrackerWidget :=
  {| auth_token := auth_token s; session_start_time := session_start_time s;
     current_blink_count := n;
     video_capture := video_capture s; eye_tracker := eye_tracker s;
     notification_manager := notification_manager s |}.

Definition set_video_capture (c : Camera.VideoCapture) (s : EyeTrackerWidget)
  : EyeTrackerWidget :=
  {| auth_token := auth_token s; session_start_time := session_start_time s;
     current_blink_count := current_blink_count s;
     video_capture := c; eye_tracker := eye_tracker s;
     notification_manager := notification_manager s |}.

Definition set_eye_tracker (t : Tracker.EyeTracker) (s : EyeTrackerWidget)
  : EyeTrackerWidget :=
  {| auth_token := auth_token s; session_start_time := session_start_time s;
     current_blink_count := current_blink_count s;
     video_capture := video_capture s; eye_tracker := t;
     notification_manager := notification_manager s |}.

Definition set_notification_manager (n : Notifier.NotificationManager)
    (s : EyeTrackerWidget) : EyeTrackerWidget :=
  {| auth_token := auth_token s; session_start_time := session_start_time s;
     current_blink_count := current_blink_count s;
     video_capture := video_capture s; eye_tracker := eye_tracker s;
     notification_manager := n |}.

(** A method call on a component: it works on that field of the widget,
    and what it emits is the component's. *)
Definition on_field {S' E' A} (field : EyeTrackerWidget -> S')
    (set_field : S' -> EyeTrackerWidget -> EyeTrackerWidget)
    (as_event : E' -> event) (m : @M S' E' A) : W A :=
  fun s =>
    match m (field s) with
    | (r, s', t) => (r, set_field s' s, map as_event t)
    end.

(** *** The observer callbacks *)

(** What surrounds one call of [on_blink_detected]: the surroundings of
    the blink-rate monitor, and what [print] does (it returns, or it
    raises, as on a standard output that was closed). *)
Record world : Type := {
  monitor : Notifier.world;
  prints : outcome
}.

Definition on_blink_detected (w : world) (blink_count : Z) : W unit :=
  modify (set_current_blink_count blink_count) ;;
  on_field notification_manager set_notification_manager OfMonitor
    (Notifier.check_blink_rate_and_notify (monitor w) blink_count) ;;
  emit (Printed blink_count) ;;
  call (prints w).

Definition on_eye_data_updated (left_ear right_ear avg_ear : float) : W unit :=
  ret tt.

(** *** Sending the session *)

(** Python's truth value of [self.auth_token]: [None] and the empty string
    are false. *)
Definition truthy (token : option string) : bool :=
  match token with
  | Some s => negb (String.eqb s EmptyString)
  | None => false
  end.

(** [now] is the reading of [datetime.now()] at line 214. *)
Definition send_session_data_to_backend (now : Z) (post : response) : W unit :=
  self <- get ;;
  if negb (truthy (auth_token self)) then
    emit (LogWarning "No auth token available, cannot send session data")
  else
    try_except
      (let session_end_time := now in
       emit (Posted (session_start_time self) session_end_time
               (current_blink_count self)) ;;
       match post with
       | PostRaises e => raise e
       | Responded status_code =>
           if status_code =? 200
           then emit (LogInfo "Session data sent successfully to backend")
           else emit (LogStatus status_code)
       end)
      (fun e => emit (LogError e)).

(** *** The frame timer *)

Definition as_outcome {A} (r : result A) : outcome :=
  match r with
  | Ok _ => Returns
  | Raise e => Raises e
  end.

(** The widget as the tracker's observer set holds it (line 55):
    [on_blink_detected] and [on_eye_data_updated] are the widget's own
    methods, and a call returns or raises as the method does on the widget
    as it is when the call is made. *)
Definition as_observer (w : world) (self : EyeTrackerWidget)
  : Tracker.EyeTrackingObserver :=
  {| Tracker.obs_id := 0;
     Tracker.on_blink_detected := fun blink_count =>
       as_outcome (value_of (on_blink_detected w blink_count self));
     Tracker.on_eye_data_updated := fun l r a =>
       as_outcome (value_of (on_eye_data_updated l r a self)) |}.

(** What the widget does while the tracker runs: when the tracker calls
    [on_blink_detected], the method runs on the widget; an exception it
    raises is the tracker's to catch (lines 65-68 of the tracker). *)
Definition react (w : world) (e : Tracker.event) : W unit :=
  emit (OfTracker e) ;;
  match e with
  | Tracker.CallBlinkDetected _ blink_count =>
      try_except (on_blink_detected w blink_count) (fun _ => ret tt)
  | Tracker.CallEyeDataUpdated _ l r a =>
      try_except (on_eye_data_updated l r a) (fun _ => ret tt)
  | _ => ret tt
  end.

(** [self.eye_tracker.process_frame(frame)]: the tracker ticks with the
    widget as its observer, and the widget goes through the calls the
    tracker makes into it, in the order of the tracker's trace. *)
Definition eye_tracker_process_frame (frame : Camera.frame)
    (w : world) : W Tracker.EyeTrackingData :=
  self <- get ;;
  let ticked :=
    Tracker.process_frame frame
      (Tracker.set_observers [as_observer w self] (eye_tracker self)) in
  modify (set_eye_tracker (state_of ticked)) ;;
  for_each (trace_of ticked) (react w) ;;
  lift (value_of ticked).

(** [w] is what surrounds the widget's callback during this tick, and
    [display] what [display_frame] does. *)
Definition update_frame (r : Camera.reading) (w : world)
    (display : outcome) : W unit :=
  try_except
    (got <- on_field video_capture set_video_capture OfCamera
              (Camera.read_frame r) ;;
     match got with
     | (true, Some frame) =>
         eye_data <- eye_tracker_process_frame frame w ;;
         emit DisplayFrame ;;
         call display
     | _ => emit (LogWarning "Failed to read frame from camera")
     end)
    (fun e => emit (LogError e)).

(** The timer firing once per entry. *)
Definition update_all (ticks : list (Camera.reading * world * outcome))
  : W unit :=
  for_each ticks (fun tick =>
    update_frame (fst (fst tick)) (snd (fst tick)) (snd tick)).

(** *** Closing *)

(** [stops] is what stopping the timer and the system monitor does, and
    [closes] what [face_mesh.close()] does. *)
Definition closeEvent (now : Z) (post : response) (stops closes : outcome)
  : W unit :=
  try_except (send_session_data_to_backend now post)
             (fun e => emit (LogError e)) ;;
  try_except
    (emit Stopping ;;
     call stops ;;
     on_field video_capture set_video_capture OfCamera Camera.release ;;
     emit TrackerClosed ;;
     call closes ;;
     emit (LogInfo "Application shutdown completed"))
    (fun e => emit (LogError e)).

(** *** Construction *)

(** [EyeTrackerWidget(config, username, auth_token)] up to line 57.  [now]
    and [monitor_now] are the readings of [datetime.now()] at line 43 and in
    the monitor's constructor, [index] is [config.CAMERA_INDEX], and [o] and
    [test] are what the camera does while the wrapper is built.  When the
    camera did not initialise, [__init__] shows an error and returns before
    the tracker, the monitor and the timer exist: there is no widget to
    drive, [None].  The tracker's observer set holds the widget itself
    (line 55, the one [add_observer] call of the application); here the
    tracker is kept without it, and [eye_tracker_process_frame] puts the
    widget in at each tick. *)
Definition __init__ (config : Configuration) (token : option string)
    (now : Z) (index : Z) (o : Camera.opening) (test : Camera.reading)
    (monitor_now : Z) : option EyeTrackerWidget :=
  let camera := state_of (Camera.__init__ index o test) in
  if negb (Camera.is_initialized camera) then None
  else Some {| auth_token := token;
               session_start_time := now;
               current_blink_count := 0;
               video_capture := camera;
               eye_tracker := Tracker.__init__ config;
               notification_manager := Notifier.__init__ config monitor_now |}.

(** The blink counts printed, the session records posted, and what reached
    the tracker and the camera. *)
Fixpoint printed (t : list event) : list Z :=
  match t with
  | [] => []
  | Printed c :: t' => c :: printed t'
  | _ :: t' => printed t'
  end.

Fixpoint posted (t : list event) : list (Z * Z * Z) :=
  match t with
  | [] => []
  | Posted a b c :: t' => (a, b, c) :: posted t'
  | _ :: t' => posted t'
  end.

Fixpoint tracker_events (t : list event) : list Tracker.event :=
  match t with
  | [] => []
  | OfTracker e :: t' => e :: tracker_events t'
  | _ :: t' => tracker_events t'
  end.

Fixpoint camera_events (t : list event) : list Camera.event :=
  match t with
  | [] => []
  | OfCamera e :: t' => e :: camera_events t'
  | _ :: t' => camera_events t'
  end.

End App.

Section WidgetCallbacks.
Import Config Notifier App.

Lemma printed_app (t1 t2 : list App.event) :
  printed (t1 ++ t2) = printed t1 ++ printed t2.
Proof.
  induction t1 as [|e t1 IH]; simpl; [reflexivity|].
  destruct e; simpl; rewrite IH; reflexivity.
Qed.

Lemma posted_app (t1 t2 : list App.event) :
  posted (t1 ++ t2) = posted t1 ++ posted t2.
Proof.
  induction t1 as [|e t1 IH]; simpl; [reflexivity|].
  destruct e; simpl; rewrite IH; reflexivity.
Qed.

Lemma tracker_events_app (t1 t2 : list App.event) :
  tracker_events (t1 ++ t2) = tracker_events t1 ++ tracker_events t2.
Proof.
  induction t1 as [|e t1 IH]; simpl; [reflexivity|].
  destruct e; simpl; rewrite IH; reflexivity.
Qed.

Lemma camera_events_app (t1 t2 : list App.event) :
  camera_events (t1 ++ t2) = camera_events t1 ++ camera_events t2.
Proof.
  induction t1 as [|e t1 IH]; simpl; [reflexivity|].
  destruct e; simpl; rewrite IH; reflexivity.
Qed.

Lemma monitor_events_read (t : list Notifier.event) :
  printed (map OfMonitor t) = [] /\ posted (map OfMonitor t) = [] /\
  tracker_events (map OfMonitor t) = [] /\
  camera_events (map OfMonitor t) = [].
Proof. induction t as [|e t IH]; simpl; [repeat split|exact IH]. Qed.

Lemma camera_events_read (t : list Camera.event) :
  printed (map OfCamera t) = [] /\ posted (map OfCamera t) = [] /\
  tracker_events (map OfCamera t) = [] /\
  camera_events (map OfCamera t) = t.
Proof.
  induction t as [|e t IH]; simpl; [repeat split|].
  destruct IH as (H1 & H2 & H3 & H4). rewrite H4. repeat split; assumption.
Qed.

Lemma on_blink_detected_cases (w : world) (blink_count : Z)
      (self : EyeTrackerWidget) :
  on_blink_detected w blink_count self =
  let checked :=
    check_blink_rate_and_notify (monitor w) blink_count
      (notification_manager self) in
  let self' :=
    set_notification_manager (state_of checked)
      (set_current_blink_count blink_count self) in
  match value_of checked with
  | Ok _ =>
      (match prints w with
       | Returns => Ok tt
       | Raises e => Raise e
       end,
       self', map OfMonitor (trace_of checked) ++ [Printed blink_count])
  | Raise e => (Raise e, self', map OfMonitor (trace_of checked))
  end.
Proof.
  unfold on_blink_detected. rewrite bind_modify.
  unfold bind, on_field, emit, call, ret, raise.
  cbn [notification_manager set_current_blink_count].
  destruct (check_blink_rate_and_notify (monitor w) blink_count
              (notification_manager self)) as [[[u|e] s'] t];
    [destruct (prints w)|]; reflexivity.
Qed.

(** The monitor returns, or raises [ZeroDivisionError] before it did
    anything. *)
Lemma check_blink_rate_and_notify_outcomes (w : Notifier.world) (count : Z)
      (st : NotificationManager) :
  let o := check_blink_rate_and_notify w count st in
  value_of o = Ok tt \/ o = (Raise ZeroDivisionError, st, []).
Proof.
  cbv zeta. rewrite check_blink_rate_and_notify_cases. cbv zeta.
  destruct (F.leb _ _); [|left; reflexivity].
  unfold py_float_div.
  destruct (F.is_zero _); [right; reflexivity|left; reflexivity].
Qed.

(** X25.  [on_blink_detected] stores the count before it consults the
    blink-rate monitor: whatever the monitor and [print] do, the widget's
    [current_blink_count] is the count it was called with, and the camera,
    the tracker and the token are untouched.  For numbers in the range
    where Python converts an [int] to a [float] exactly, the call ends in
    one of two ways.  Either the monitor returned: then [print] was called
    with the count, and the call returns or raises as [print] does.  Or
    the monitor raised [ZeroDivisionError], which the call passes on: then
    nothing was printed or logged and the monitor is as it was. *)
Theorem on_blink_detected_stores_the_count_first (w : world)
        (blink_count : Z) (self : EyeTrackerWidget) :
  let o := on_blink_detected w blink_count self in
  (current_blink_count (state_of o) = blink_count /\
   eye_tracker (state_of o) = eye_tracker self /\
   video_capture (state_of o) = video_capture self /\
   auth_token (state_of o) = auth_token self /\
   session_start_time (state_of o) = session_start_time self) /\
  (in_float_range (notification_manager self) (monitor w) blink_count = true ->
   (printed (trace_of o) = [blink_count] /\
    value_of o = match prints w with
                 | Returns => Ok tt
                 | Raises e => Raise e
                 end) \/
   (value_of o = Raise ZeroDivisionError /\ trace_of o = [] /\
    notification_manager (state_of o) = notification_manager self)).
Proof.
  cbv zeta. rewrite on_blink_detected_cases. cbv zeta.
  destruct (check_blink_rate_and_notify_outcomes (monitor w) blink_count
              (notification_manager self)) as [Hok|Hraise].
  - rewrite Hok. unfold state_of, value_of, trace_of; cbn [fst snd].
    split; [repeat split|]. intros _. left.
    rewrite printed_app, (proj1 (monitor_events_read _)).
    split; reflexivity.
  - rewrite Hraise. unfold state_of, value_of, trace_of; cbn [fst snd map].
    split; [repeat split|]. intros _. right. repeat split.
Qed.

Lemma on_blink_detected_stores_the_count_first_witness :
  let self := {| auth_token := Some "token";
                 session_start_time := seconds 0;
                 current_blink_count := 0;
                 video_capture :=
                   {| Camera.camera_index := 0; Camera.cap := Some 0;
                      Camera.is_initialized := true |};
                 eye_tracker := Tracker.__init__ defaults;
                 notification_manager := Notifier.__init__ defaults 0 |} in
  let w := {| monitor := fst (at_second 60 1);
              prints := Raises (ValueError "I/O operation on closed file") |} in
  in_float_range (notification_manager self) (monitor w) 1 = true /\
  current_blink_count (state_of (on_blink_detected w 1 self)) = 1 /\
  value_of (on_blink_detected w 1 self)
  = Raise (ValueError "I/O operation on closed file").
Proof.
  cbv zeta. split; [vm_compute; reflexivity|]. split.
  - apply (proj1 (on_blink_detected_stores_the_count_first
                    {| monitor := fst (at_second 60 1);
                       prints := Raises (ValueError "I/O operation on closed file") |}
                    1
                    {| auth_token := Some "token";
                       session_start_time := seconds 0;
                       current_blink_count := 0;
                       video_capture :=
                         {| Camera.camera_index := 0; Camera.cap := Some 0;
                            Camera.is_initialized := true |};
                       eye_tracker := Tracker.__init__ defaults;
                       notification_manager := Notifier.__init__ defaults 0 |})).
  - vm_compute. reflexivity.
Defined.

(** X26.  [send_session_data_to_backend] never raises and changes nothing
    of the widget, whatever the backend does.  Without a token ([None] or
    the empty string) it posts nothing; with one it posts exactly one
    record, whose [total_blinks] is the widget's [current_blink_count] and
    whose start is the instant the widget stored when it was built. *)
Theorem send_session_data_to_backend_never_raises (now : Z) (post : response)
        (self : EyeTrackerWidget) :
  let o := send_session_data_to_backend now post self in
  value_of o = Ok tt /\
  state_of o = self /\
  posted (trace_of o)
  = if truthy (auth_token self)
    then [(session_start_time self, now, current_blink_count self)]
    else [].
Proof.
  cbv zeta. unfold send_session_data_to_backend. rewrite bind_get.
  destruct (truthy (auth_token self)); cbn [negb]; [|repeat split].
  destruct post as [status_code|e]; [destruct (status_code =? 200) eqn:H|];
    unfold try_except, bind, emit, raise; cbn; rewrite ?H; repeat split.
Qed.
End WidgetCallbacks.

Section FrameTimer.
Import Config Tracker Notifier App.

Lemma single_observer_receives_what_is_published (frame : detection)
      (o1 : EyeTrackingObserver) (st : EyeTracker) :
  observers st = [o1] ->
  counts_received (fun _ => true) (trace_of (process_frame frame st))
  = published_counts (trace_of (process_frame frame st)).
Proof.
  intros Hobs. tick_paths; trace_simpl; try reflexivity.
  match goal with
  | |- context [observers ?s] =>
      replace (observers s) with [o1] by (rewrite <- Hobs; reflexivity)
  end.
  cbn [flat_map app]. unfold blink_delivery.
  destruct (Tracker.on_blink_detected o1 _); reflexivity.
Qed.

(** The widget's part of a state: what a tick of the tracker may change
    besides the tracker. *)
Definition last_count (t : list Tracker.event) (before : Z) : Z :=
  last (counts_received (fun _ => true) t) before.

Lemma react_cases (w : world) (e : Tracker.event) (self : EyeTrackerWidget) :
  let o := react w e self in
  value_of o = Ok tt /\
  eye_tracker (state_of o) = eye_tracker self /\
  video_capture (state_of o) = video_capture self /\
  auth_token (state_of o) = auth_token self /\
  session_start_time (state_of o) = session_start_time self /\
  current_blink_count (state_of o) = last_count [e] (current_blink_count self) /\
  tracker_events (trace_of o) = [e] /\
  posted (trace_of o) = [] /\
  camera_events (trace_of o) = [].
Proof.
  cbv zeta. unfold react. rewrite bind_emit.
  destruct e; try (cbn; repeat split; reflexivity).
  unfold try_except. rewrite on_blink_detected_cases. cbv zeta.
  set (checked := check_blink_rate_and_notify _ _ _).
  destruct (monitor_events_read (trace_of checked)) as (Hp & Hq & Ht & Hc).
  unfold trace_of in Hq, Ht, Hc.
  destruct (value_of checked) as [u|e]; [destruct (prints w)|];
    unfold value_of, state_of, trace_of, last_count, ret; cbn [fst snd];
    cbn [tracker_events posted camera_events counts_received last
         eye_tracker video_capture auth_token session_start_time
         current_blink_count set_notification_manager set_current_blink_count];
    rewrite ?tracker_events_app, ?posted_app, ?camera_events_app, ?app_nil_r,
      ?Ht, ?Hq, ?Hc; repeat split.
Qed.

Lemma last_cons {A} (l : list A) :
  forall (a d : A), last (a :: l) d = last l a.
Proof.
  induction l as [|b l IH]; intros a d; [reflexivity|].
  change (last (a :: b :: l) d) with (last (b :: l) d).
  rewrite (IH b d), (IH b a). reflexivity.
Qed.

Lemma last_app {A} (l1 l2 : list A) :
  forall d : A, last (l1 ++ l2) d = last l2 (last l1 d).
Proof.
  induction l1 as [|a l1 IH]; intros d; [reflexivity|].
  rewrite <- app_comm_cons, !last_cons. apply IH.
Qed.

Lemma last_count_app (t1 t2 : list Tracker.event) (before : Z) :
  last_count (t1 ++ t2) before = last_count t2 (last_count t1 before).
Proof. unfold last_count. rewrite counts_received_app. apply last_app. Qed.

(** The widget going through a tracker trace: every call returns to the
    tracker, only the count and the monitor change, and the count ends on
    the last one handed over. *)
Lemma react_all (w : world) (t : list Tracker.event) :
  forall self : EyeTrackerWidget,
    let o := for_each t (react w) self in
    value_of o = Ok tt /\
    eye_tracker (state_of o) = eye_tracker self /\
    video_capture (state_of o) = video_capture self /\
    auth_token (state_of o) = auth_token self /\
    session_start_time (state_of o) = session_start_time self /\
    current_blink_count (state_of o) = last_count t (current_blink_count self) /\
    tracker_events (trace_of o) = t /\
    posted (trace_of o) = [] /\
    camera_events (trace_of o) = [].
Proof.
  induction t as [|e t IH]; intros self; cbv zeta; [repeat split|].
  cbn [for_each].
  destruct (react_cases w e self) as (Hv & Ht & Hc & Ha & Hs & Hn & He & Hp & Hm).
  rewrite (bind_returning _ _ tt) by exact Hv.
  change (value_of (?v, ?s, ?t)) with v.
  change (state_of (?v, ?s, ?t)) with s.
  change (trace_of (?v, ?s, ?t)) with t.
  destruct (IH (state_of (react w e self)))
    as (Hv' & Ht' & Hc' & Ha' & Hs' & Hn' & He' & Hp' & Hm').
  rewrite tracker_events_app, posted_app, camera_events_app.
  rewrite Hv', Ht', Hc', Ha', Hs', Hn', He', Hp', Hm'.
  rewrite Ht, Hc, Ha, Hs, Hn, He, Hp, Hm.
  change (e :: t) with ([e] ++ t). rewrite last_count_app.
  repeat split.
Qed.

(** The tracker as the widget ticks it. *)
Definition subscribed (w : world) (self : EyeTrackerWidget) : EyeTracker :=
  set_observers [as_observer w self] (eye_tracker self).

Lemma eye_tracker_process_frame_cases (frame : Camera.frame) (w : world)
      (self : EyeTrackerWidget) :
  let ticked := process_frame frame (subscribed w self) in
  let o := eye_tracker_process_frame frame w self in
  value_of o = Ok (data (state_of ticked)) /\
  eye_tracker (state_of o) = state_of ticked /\
  video_capture (state_of o) = video_capture self /\
  auth_token (state_of o) = auth_token self /\
  session_start_time (state_of o) = session_start_time self /\
  current_blink_count (state_of o)
  = last_count (trace_of ticked) (current_blink_count self) /\
  tracker_events (trace_of o) = trace_of ticked /\
  posted (trace_of o) = [] /\
  camera_events (trace_of o) = [].
Proof.
  cbv zeta. unfold eye_tracker_process_frame. rewrite bind_get. cbv zeta.
  fold (subscribed w self).
  set (ticked := process_frame frame (subscribed w self)).
  rewrite bind_modify.
  destruct (react_all w (trace_of ticked) (set_eye_tracker (state_of ticked) self))
    as (Hv & Ht & Hc & Ha & Hs & Hn & He & Hp & Hm).
  rewrite (bind_returning _ _ tt) by exact Hv.
  unfold lift.
  repeat change (value_of (?v, ?s, ?t)) with v.
  repeat change (state_of (?v, ?s, ?t)) with s.
  repeat change (trace_of (?v, ?s, ?t)) with t.
  rewrite app_nil_r.
  rewrite Ht, Hc, Ha, Hs, Hn, He, Hp, Hm.
  unfold ticked. rewrite process_frame_returns. repeat split.
Qed.

(** The frame [update_frame] gets out of one read of the camera, if any
    ([read_frame] answering [True] with a frame that is not [None]). *)
Definition frame_read (r : Camera.reading) (camera : Camera.VideoCapture)
  : option Camera.frame :=
  if negb (Camera.is_initialized camera) || Camera.is_None (Camera.cap camera)
  then None
  else match r with
       | Camera.Read true (Some image) => Some image
       | _ => None
       end.

Lemma update_frame_cases (r : Camera.reading) (w : world) (display : outcome)
      (self : EyeTrackerWidget) :
  update_frame r w display self =
  match frame_read r (video_capture self) with
  | Some frame =>
      let o := eye_tracker_process_frame frame w self in
      (Ok tt, state_of o,
       OfCamera Camera.DeviceRead ::
       trace_of o ++
       DisplayFrame :: match display with
                       | Returns => []
                       | Raises e => [LogError e]
                       end)
  | None =>
      (Ok tt, self,
       map OfCamera (trace_of (Camera.read_frame r (video_capture self))) ++
       [LogWarning "Failed to read frame from camera"])
  end.
Proof.
  unfold update_frame, frame_read, try_except.
  unfold bind at 1. unfold on_field. rewrite read_frame_cases.
  destruct self as [token start count camera tracker monitor].
  cbn [video_capture set_video_capture].
  destruct (negb (Camera.is_initialized camera)
            || Camera.is_None (Camera.cap camera)); [reflexivity|].
  destruct r as [[|] [image|]|e]; try reflexivity.
  cbn [map trace_of snd]. cbv zeta.
  set (self := {| auth_token := token; session_start_time := start;
                  current_blink_count := count; video_capture := camera;
                  eye_tracker := tracker; notification_manager := monitor |}).
  pose proof (proj1 (eye_tracker_process_frame_cases image w self)) as Hv.
  cbv zeta in Hv.
  rewrite (bind_returning _ _ _ _ Hv).
  change (value_of (?v, ?s, ?t)) with v.
  change (state_of (?v, ?s, ?t)) with s.
  change (trace_of (?v, ?s, ?t)) with t.
  rewrite bind_emit.
  destruct display as [|e]; unfold call, raise, ret, emit;
    repeat change (value_of (?v, ?s, ?t)) with v;
    repeat change (state_of (?v, ?s, ?t)) with s;
    repeat change (trace_of (?v, ?s, ?t)) with t;
    cbn [app]; rewrite <- ?app_assoc; reflexivity.
Qed.

Lemma frame_read_spec (r : Camera.reading) (camera : Camera.VideoCapture)
      (frame : Camera.frame) :
  frame_read r camera = Some frame <->
  value_of (Camera.read_frame r camera) = Ok (true, Some frame).
Proof.
  unfold frame_read. rewrite read_frame_cases.
  destruct (negb (Camera.is_initialized camera)
            || Camera.is_None (Camera.cap camera));
    [split; discriminate|].
  destruct r as [[|] [image|]|e]; unfold value_of; cbn [fst];
    split; intros H; try discriminate H; injection H as <-; reflexivity.
Qed.

(** X27.  [update_frame] never raises.  It ticks the tracker only on a
    frame: when [read_frame] does not answer [True] with a frame, nothing
    of the widget changes, the tracker is not called (so its frame
    schedule does not advance) and a warning is logged.  When it does, the
    tracker makes exactly one tick on that frame, and the tick stands even
    when displaying the frame raises. *)
Theorem update_frame_ticks_only_on_a_frame (r : Camera.reading) (w : world)
        (display : outcome) (self : EyeTrackerWidget) :
  let o := update_frame r w display self in
  let read := value_of (Camera.read_frame r (video_capture self)) in
  value_of o = Ok tt /\
  video_capture (state_of o) = video_capture self /\
  ((forall frame, read <> Ok (true, Some frame)) ->
   state_of o = self /\ tracker_events (trace_of o) = [] /\
   In (LogWarning "Failed to read frame from camera") (trace_of o)) /\
  (forall frame,
      read = Ok (true, Some frame) ->
      let ticked := process_frame frame (subscribed w self) in
      eye_tracker (state_of o) = state_of ticked /\
      tracker_events (trace_of o) = trace_of ticked).
Proof.
  cbv zeta. rewrite update_frame_cases.
  destruct (frame_read r (video_capture self)) as [image|] eqn:Hread.
  - cbv zeta.
    destruct (eye_tracker_process_frame_cases image w self)
      as (Hv & Ht & Hc & Ha & Hs & Hn & He & Hp & Hm).
    cbv zeta in *.
    change (value_of (?v, ?s, ?t)) with v.
    change (state_of (?v, ?s, ?t)) with s.
    change (trace_of (?v, ?s, ?t)) with t.
    split; [reflexivity|]. split; [exact Hc|]. split.
    + intros Hnone. apply frame_read_spec in Hread.
      exfalso. exact (Hnone image Hread).
    + intros frame Hframe. apply frame_read_spec in Hframe.
      assert (frame = image) by congruence. subst frame.
      split; [exact Ht|].
      cbn [tracker_events]. rewrite tracker_events_app, He.
      destruct display; cbn [tracker_events]; apply app_nil_r.
  - change (value_of (?v, ?s, ?t)) with v.
    change (state_of (?v, ?s, ?t)) with s.
    change (trace_of (?v, ?s, ?t)) with t.
    split; [reflexivity|]. split; [reflexivity|]. split.
    + intros _. split; [reflexivity|]. split.
      * rewrite tracker_events_app, (proj1 (proj2 (proj2 (camera_events_read _)))).
        reflexivity.
      * apply in_or_app. right. left. reflexivity.
    + intros frame Hframe. apply frame_read_spec in Hframe. congruence.
Qed.

(** One tick of the tracker keeps the widget's count equal to the
    tracker's. *)
Lemma tick_keeps_the_counts_equal (frame : Camera.frame) (w : world)
      (self : EyeTrackerWidget) :
  current_blink_count self = blink_count (data (eye_tracker self)) ->
  let o := eye_tracker_process_frame frame w self in
  current_blink_count (state_of o)
  = blink_count (data (eye_tracker (state_of o))).
Proof.
  intros Heq. cbv zeta.
  destruct (eye_tracker_process_frame_cases frame w self)
    as (_ & Ht & _ & _ & _ & Hn & _).
  cbv zeta in *. rewrite Hn, Ht. unfold last_count.
  rewrite (single_observer_receives_what_is_published frame
             (as_observer w self) (subscribed w self)) by reflexivity.
  destruct (tick_publishes_next_count frame (subscribed w self))
    as [[-> ->]|[-> ->]]; cbn [last]; [exact Heq|reflexivity].
Qed.

Lemma update_frame_keeps_the_counts_equal (r : Camera.reading) (w : world)
      (display : outcome) (self : EyeTrackerWidget) :
  current_blink_count self = blink_count (data (eye_tracker self)) ->
  let o := update_frame r w display self in
  value_of o = Ok tt /\
  current_blink_count (state_of o)
  = blink_count (data (eye_tracker (state_of o))) /\
  auth_token (state_of o) = auth_token self /\
  session_start_time (state_of o) = session_start_time self /\
  posted (trace_of o) = [].
Proof.
  intros Heq. cbv zeta. rewrite update_frame_cases.
  destruct (frame_read r (video_capture self)) as [image|].
  - cbv zeta.
    pose proof (tick_keeps_the_counts_equal image w self Heq) as Hk.
    destruct (eye_tracker_process_frame_cases image w self)
      as (_ & _ & _ & Ha & Hs & _ & _ & Hp & _).
    cbv zeta in *.
    change (value_of (?v, ?s, ?t)) with v.
    change (state_of (?v, ?s, ?t)) with s.
    change (trace_of (?v, ?s, ?t)) with t.
    repeat split; try assumption.
    cbn [posted]. rewrite posted_app, Hp. destruct display; reflexivity.
  - change (value_of (?v, ?s, ?t)) with v.
    change (state_of (?v, ?s, ?t)) with s.
    change (trace_of (?v, ?s, ?t)) with t.
    repeat split; try assumption.
    rewrite posted_app, (proj1 (proj2 (camera_events_read _))). reflexivity.
Qed.

Lemma update_all_keeps_the_counts_equal
      (ticks : list (Camera.reading * world * outcome)) :
  forall self : EyeTrackerWidget,
    current_blink_count self = blink_count (data (eye_tracker self)) ->
    let o := update_all ticks self in
    value_of o = Ok tt /\
    current_blink_count (state_of o)
    = blink_count (data (eye_tracker (state_of o))) /\
    auth_token (state_of o) = auth_token self /\
    session_start_time (state_of o) = session_start_time self /\
    posted (trace_of o) = [].
Proof.
  induction ticks as [|[[r w] display] ticks IH]; intros self Heq; cbv zeta.
  - repeat split. exact Heq.
  - unfold update_all. cbn [for_each fst snd].
    destruct (update_frame_keeps_the_counts_equal r w display self Heq)
      as (Hv & Hk & Ha & Hs & Hp).
    cbv zeta in *.
    rewrite (bind_returning _ _ tt) by exact Hv.
    change (value_of (?v, ?s, ?t)) with v.
    change (state_of (?v, ?s, ?t)) with s.
    change (trace_of (?v, ?s, ?t)) with t.
    destruct (IH _ Hk) as (Hv' & Hk' & Ha' & Hs' & Hp').
    cbv zeta in *. unfold update_all in *.
    rewrite posted_app, Hp, Hp', Ha', Hs', Ha, Hs.
    repeat split; assumption.
Qed.

Lemma send_session_data_to_backend_outcome (now : Z) (post : response)
      (self : EyeTrackerWidget) :
  let o := send_session_data_to_backend now post self in
  value_of o = Ok tt /\
  state_of o = self /\
  posted (trace_of o)
  = (if truthy (auth_token self)
     then [(session_start_time self, now, current_blink_count self)]
     else []) /\
  camera_events (trace_of o) = [] /\
  tracker_events (trace_of o) = [].
Proof.
  cbv zeta. unfold send_session_data_to_backend. rewrite bind_get.
  destruct (truthy (auth_token self)); cbn [negb]; [|repeat split].
  destruct post as [status_code|e]; [destruct (status_code =? 200) eqn:H|];
    unfold try_except, bind, emit, raise; cbn; rewrite ?H; repeat split.
Qed.

Lemma closeEvent_cases (now : Z) (post : response) (stops closes : outcome)
      (self : EyeTrackerWidget) :
  closeEvent now post stops closes self =
  (Ok tt,
   match stops with
   | Returns =>
       set_video_capture (state_of (Camera.release (video_capture self))) self
   | Raises _ => self
   end,
   trace_of (send_session_data_to_backend now post self) ++
   Stopping ::
   match stops with
   | Raises e => [LogError e]
   | Returns =>
       map OfCamera (trace_of (Camera.release (video_capture self))) ++
       TrackerClosed ::
       match closes with
       | Returns => [LogInfo "Application shutdown completed"]
       | Raises e => [LogError e]
       end
   end).
Proof.
  unfold closeEvent.
  destruct (send_session_data_to_backend_outcome now post self)
    as (Hv & Hs & _).
  cbv zeta in *.
  unfold bind at 1. unfold try_except at 1.
  destruct (send_session_data_to_backend now post self) as [[v s] t].
  unfold value_of, state_of in Hv, Hs; cbn [fst snd] in Hv, Hs. subst v s.
  cbn [trace_of snd].
  destruct self as [token start count [index [device|] ready] tracker monitor];
    destruct stops as [|e]; destruct closes as [|e']; reflexivity.
Qed.

(** X28.  The session total is the tracker's count.  When the widget's
    [current_blink_count] equals the tracker's [blink_count] (both are 0
    after construction), they are still equal after any sequence of timer
    ticks, whatever the camera, the blink-rate monitor and the display do
    on each; no tick posts a session.  Closing the widget then posts, for
    a widget with a token, exactly one record: its start is the instant
    stored at construction and its [total_blinks] is the tracker's
    [blink_count]. *)
Theorem session_total_is_the_tracker_count :
  (forall (config : Configuration) (token : option string) (now index : Z)
          (o : Camera.opening) (test : Camera.reading) (monitor_now : Z)
          (self : EyeTrackerWidget),
      App.__init__ config token now index o test monitor_now = Some self ->
      current_blink_count self = blink_count (data (eye_tracker self))) /\
  (forall (ticks : list (Camera.reading * world * outcome))
          (self : EyeTrackerWidget) (now : Z) (post : response)
          (stops closes : outcome),
      current_blink_count self = blink_count (data (eye_tracker self)) ->
      let o := update_all ticks self in
      let closing := closeEvent now post stops closes (state_of o) in
      value_of o = Ok tt /\
      current_blink_count (state_of o)
      = blink_count (data (eye_tracker (state_of o))) /\
      posted (trace_of o) = [] /\
      posted (trace_of closing)
      = if truthy (auth_token self)
        then [(session_start_time self, now,
               blink_count (data (eye_tracker (state_of o))))]
        else []).
Proof.
  split.
  { intros config token now index o test monitor_now self.
    unfold App.__init__.
    destruct (negb _); [discriminate|].
    intros H. injection H as <-. reflexivity. }
  intros ticks self now post stops closes Heq. cbv zeta.
  destruct (update_all_keeps_the_counts_equal ticks self Heq)
    as (Hv & Hk & Ha & Hs & Hp).
  cbv zeta in *.
  split; [exact Hv|]. split; [exact Hk|]. split; [exact Hp|].
  rewrite closeEvent_cases.
  change (trace_of (?v, ?s, ?t)) with t.
  destruct (send_session_data_to_backend_outcome now post
              (state_of (update_all ticks self))) as (_ & _ & Hposted & _).
  cbv zeta in Hposted.
  rewrite posted_app, Hposted, Ha, Hs, Hk.
  assert (Hrest : forall t, posted (Stopping :: t) = posted t) by reflexivity.
  rewrite Hrest.
  assert (Hquiet :
    posted
      match stops with
      | Returns =>
          map OfCamera
            (trace_of
               (Camera.release
                  (video_capture (state_of (update_all ticks self))))) ++
          TrackerClosed ::
          match closes with
          | Returns => [LogInfo "Application shutdown completed"]
          | Raises e => [LogError e]
          end
      | Raises e => [LogError e]
      end = []).
  { destruct stops as [|e]; [|reflexivity].
    rewrite posted_app, (proj1 (proj2 (camera_events_read _))).
    destruct closes; reflexivity. }
  rewrite Hquiet, app_nil_r. reflexivity.
Qed.

Definition open_eye (x : Z) : list point :=
  [(x, 5); (x + 3, 8); (x + 7, 8); (x + 10, 5); (x + 7, 2); (x + 3, 2)].

(** A widget built with a token on a working camera, and a session of
    four timer ticks: two frames with the eyes nearly closed, a failed
    read, and a frame with the eyes open. *)
Definition example_widget : option EyeTrackerWidget :=
  App.__init__ defaults (Some "token") (seconds 0) 0 (Camera.Opened true)
    (Camera.Read true (Some NoDetection)) (seconds 0).

Definition example_session : list (Camera.reading * world * outcome) :=
  let closed := Detected (face_of (closed_eye 0) (closed_eye 20)) in
  let opened := Detected (face_of (open_eye 0) (open_eye 20)) in
  let at_ n := {| monitor := fst (at_second n 0); prints := Returns |} in
  [(Camera.Read true (Some closed), at_ 1, Returns);
   (Camera.Read true (Some closed), at_ 2, Returns);
   (Camera.Read false None, at_ 3, Returns);
   (Camera.Read true (Some opened), at_ 4, Returns)].

Lemma session_total_is_the_tracker_count_witness :
  exists self : EyeTrackerWidget,
    example_widget = Some self /\
    current_blink_count self = blink_count (data (eye_tracker self)) /\
    blink_count (data (eye_tracker (state_of (update_all example_session self))))
    = 1 /\
    posted (trace_of (closeEvent (seconds 5) (Responded 200) Returns Returns
                        (state_of (update_all example_session self))))
    = [(seconds 0, seconds 5, 1)].
Proof.
  eexists. split; [vm_compute; reflexivity|].
  split; [reflexivity|]. split; [vm_compute; reflexivity|].
  match goal with
  | |- posted (trace_of (closeEvent _ _ _ _ (state_of (update_all _ ?self))))
       = _ =>
      rewrite (proj2 (proj2 (proj2
        (proj2 session_total_is_the_tracker_count example_session self
           (seconds 5) (Responded 200) Returns Returns eq_refl))))
  end.
  vm_compute. reflexivity.
Defined.

(** X29.  [closeEvent] never raises and keeps the count and the tracker.
    The session is sent first, at most once, with the count as it is.
    When stopping the timer and the system monitor returns, the camera is
    released (the device exactly when one is held) and ends uninitialised,
    also when closing the tracker raises; when stopping raises, the camera
    is left as it was. *)
Theorem closeEvent_never_raises (now : Z) (post : response)
        (stops closes : outcome) (self : EyeTrackerWidget) :
  let o := closeEvent now post stops closes self in
  value_of o = Ok tt /\
  current_blink_count (state_of o) = current_blink_count self /\
  eye_tracker (state_of o) = eye_tracker self /\
  posted (trace_of o)
  = (if truthy (auth_token self)
     then [(session_start_time self, now, current_blink_count self)]
     else []) /\
  (stops = Returns ->
   Camera.is_initialized (video_capture (state_of o)) = false /\
   Camera.cap (video_capture (state_of o)) = None /\
   camera_events (trace_of o)
   = trace_of (Camera.release (video_capture self))) /\
  (forall e : exn,
      stops = Raises e ->
      state_of o = self /\ camera_events (trace_of o) = []) /\
  (exists rest : list App.event,
      trace_of o
      = trace_of (send_session_data_to_backend now post self) ++
        Stopping :: rest).
Proof.
  cbv zeta. rewrite closeEvent_cases.
  change (value_of (?v, ?s, ?t)) with v.
  change (state_of (?v, ?s, ?t)) with s.
  change (trace_of (?v, ?s, ?t)) with t.
  match goal with
  | |- ?A /\ ?B /\ ?C /\ ?D /\ ?E /\ ?G /\ ?H =>
      cut (A /\ B /\ C /\ D /\ E /\ G);
        [intros (H1 & H2 & H3 & H4 & H5 & H6);
         repeat (split; [assumption|]); eexists; reflexivity|]
  end.
  destruct (send_session_data_to_backend_outcome now post self)
    as (_ & _ & Hposted & Hcam & _).
  cbv zeta in *.
  rewrite posted_app, camera_events_app, Hposted, Hcam.
  split; [reflexivity|].
  destruct stops as [|e].
  - split; [reflexivity|]. split; [reflexivity|]. split.
    + cbn [posted]. rewrite posted_app, (proj1 (proj2 (camera_events_read _))).
      destruct closes; cbn [posted app]; rewrite app_nil_r; reflexivity.
    + split; [|discriminate]. intros _.
      rewrite release_cases.
      change (state_of (?v, ?s, ?t)) with s.
      change (trace_of (?v, ?s, ?t)) with t.
      split; [reflexivity|]. split; [reflexivity|].
      destruct (Camera.cap (video_capture self)), closes; reflexivity.
  - split; [reflexivity|]. split; [reflexivity|]. split.
    + cbn [posted]. rewrite app_nil_r. reflexivity.
    + split; [discriminate|]. intros e' _. split; reflexivity.
Qed.
End FrameTimer.

(** ** What observers answer does not steer the tracker *)

Section ObserverIndependence.
Import Config Tracker.

Lemma _update_blink_detection_observers (os : list EyeTrackingObserver)
      (st : EyeTracker) :
  let o := _update_blink_detection st in
  let o' := _update_blink_detection (set_observers os st) in
  state_of o' = set_observers os (state_of o) /\
  published_counts (trace_of o') = published_counts (trace_of o).
Proof.
  cbv zeta. rewrite !_update_blink_detection_cases.
  cbn [config data frame_counter set_observers].
  destruct (F.ltb _ _); [split; reflexivity|].
  destruct (_ <=? _); [|split; reflexivity].
  unfold state_of, trace_of; cbn [fst snd]. split; [reflexivity|].
  trace_simpl. reflexivity.
Qed.

(** What a trace shows apart from the calls into observers and the
    warnings logged for them. *)
Definition own_events (t : list event)
  : nat * list Z * list (float * float * float) * list exn :=
  (provider_calls t, published_counts t, eye_data_published t, errors t).

Lemma own_events_app (t1 t2 : list event) :
  own_events (t1 ++ t2) =
  (provider_calls t1 + provider_calls t2,
   published_counts t1 ++ published_counts t2,
   eye_data_published t1 ++ eye_data_published t2,
   errors t1 ++ errors t2)%nat.
Proof.
  unfold own_events.
  rewrite provider_calls_app, published_counts_app, eye_data_published_app,
    errors_app.
  reflexivity.
Qed.

Lemma errors_blink_deliveries (c : Z) (os : list EyeTrackingObserver) :
  errors (flat_map (blink_delivery c) os) = [].
Proof. apply (blink_deliveries_quiet c os). Qed.

Lemma eye_data_published_blink_deliveries (c : Z)
      (os : list EyeTrackingObserver) :
  eye_data_published (flat_map (blink_delivery c) os) = [].
Proof. apply (blink_deliveries_quiet c os). Qed.

Lemma errors_eye_data_events (st : EyeTracker) :
  errors (eye_data_events st) = [].
Proof. apply (eye_data_events_read st). Qed.

Lemma eye_data_published_eye_data_events (st : EyeTracker) :
  eye_data_published (eye_data_events st)
  = [(left_ear (data st), right_ear (data st), avg_ear (data st))].
Proof. apply (eye_data_events_read st). Qed.

Ltac own_events_simpl :=
  rewrite ?own_events_app,
    ?provider_calls_app, ?published_counts_app, ?eye_data_published_app,
    ?errors_app,
    ?provider_calls_blink_deliveries, ?published_counts_deliveries,
    ?errors_blink_deliveries, ?eye_data_published_blink_deliveries,
    ?provider_calls_eye_data_events, ?published_counts_eye_data_events,
    ?errors_eye_data_events, ?eye_data_published_eye_data_events.

Lemma _update_blink_detection_own_events (os : list EyeTrackingObserver)
      (st : EyeTracker) :
  own_events (trace_of (_update_blink_detection (set_observers os st)))
  = own_events (trace_of (_update_blink_detection st)).
Proof.
  rewrite !_update_blink_detection_cases.
  cbn [config data frame_counter set_observers].
  destruct (F.ltb _ _); [reflexivity|].
  destruct (_ <=? _); [|reflexivity].
  unfold trace_of; cbn [snd].
  change (PublishBlink ?c :: ?t) with ([PublishBlink c] ++ t).
  own_events_simpl. reflexivity.
Qed.

Lemma tick_ignores_observers (os : list EyeTrackingObserver)
      (frame : detection) (st : EyeTracker) :
  let o := process_frame frame st in
  let o' := process_frame frame (set_observers os st) in
  state_of o' = set_observers os (state_of o) /\
  own_events (trace_of o') = own_events (trace_of o).
Proof.
  cbv zeta. rewrite !process_frame_paths.
  unfold tick_outcome, aborted, completed.
  cbn [config _frame_skip_counter _last_valid_landmarks set_observers].
  destruct (_ <=? _).
  - destruct frame as [face| |e]; [| |split; reflexivity].
    + destruct (extract face _) as [left_eye|e]; [|split; reflexivity].
      destruct (extract face _) as [right_eye|e]; [|split; reflexivity].
      cbv zeta.
      destruct (ear_of left_eye) as [l|e]; [|split; reflexivity].
      destruct (ear_of right_eye) as [r|e]; [|split; reflexivity].
      set (st1 := with_ears l r
                    (with_landmarks left_eye right_eye
                       (set_frame_skip_counter 0 st))).
      change (with_ears l r
                (with_landmarks left_eye right_eye
                   (set_frame_skip_counter 0 (set_observers os st))))
        with (set_observers os st1).
      destruct (_update_blink_detection_observers os st1) as [Hs _].
      cbv zeta in Hs.
      pose proof (_update_blink_detection_own_events os st1) as Ht.
      repeat change (state_of (Ok ?v, ?s, ?t)) with s.
      repeat change (trace_of (Ok ?v, ?s, ?t)) with t.
      split; [exact Hs|].
      change (ProviderCalled :: ?t) with ([ProviderCalled] ++ t).
      own_events_simpl. rewrite Hs.
      unfold own_events in Ht. injection Ht as -> -> -> ->.
      reflexivity.
    + destruct (_last_valid_landmarks st) as [[left_eye right_eye]|];
        unfold state_of, trace_of; cbn [fst snd app];
        (split; [reflexivity|]);
        change (ProviderCalled :: ?t) with ([ProviderCalled] ++ t);
        own_events_simpl; reflexivity.
  - unfold state_of, trace_of; cbn [fst snd]. split; [reflexivity|].
    unfold own_events. own_events_simpl. reflexivity.
Qed.

Lemma run_ignores_observers (os : list EyeTrackingObserver)
      (frames : list detection) :
  forall st : EyeTracker,
    let o := run frames st in
    let o' := run frames (set_observers os st) in
    state_of o' = set_observers os (state_of o) /\
    own_events (trace_of o') = own_events (trace_of o).
Proof.
  induction frames as [|f rest IH]; intros st; cbv zeta; [split; reflexivity|].
  rewrite !run_cons. cbv zeta.
  repeat change (state_of (?v, ?s, ?t)) with s.
  repeat change (trace_of (?v, ?s, ?t)) with t.
  destruct (tick_ignores_observers os f st) as [Hs Ht]. cbv zeta in Hs, Ht.
  rewrite Hs.
  destruct (IH (state_of (process_frame f st))) as [Hs' Ht'].
  cbv zeta in Hs', Ht'.
  split; [exact Hs'|].
  rewrite !own_events_app.
  unfold own_events in Ht, Ht'.
  injection Ht as -> -> -> ->. injection Ht' as -> -> -> ->.
  reflexivity.
Qed.

(** X30.  Observers that leave the tracker alone cannot steer it.  For
    observers whose callbacks work on their own objects and only return
    or raise (as the application's widget does): run on the same frames
    with any other set of such observers, whatever they return or raise,
    the tracker ends in the same state apart from the set itself, calls
    the Landmark Provider as often, and publishes the same blink counts
    and the same eye data and logs the same errors, in the same order. *)
Theorem callback_outcomes_do_not_steer_the_tracker (os : list EyeTrackingObserver)
        (frames : list detection) (st : EyeTracker) :
  let o := run frames st in
  let o' := run frames (set_observers os st) in
  state_of o' = set_observers os (state_of o) /\
  provider_calls (trace_of o') = provider_calls (trace_of o) /\
  published_counts (trace_of o') = published_counts (trace_of o) /\
  eye_data_published (trace_of o') = eye_data_published (trace_of o) /\
  errors (trace_of o') = errors (trace_of o).
Proof.
  cbv zeta. destruct (run_ignores_observers os frames st) as [Hs Ht].
  cbv zeta in Hs, Ht. unfold own_events in Ht.
  injection Ht as H1 H2 H3 H4. repeat split; assumption.
Qed.
End ObserverIndependence.
